(** * Google Maps MCP server: the orchestration layer, embedded and verified

    The development follows the two source files of the server:
    - [google-maps.js]: the provider adapter ([GoogleMapsService]), which
      queries the directions service and reshapes its answers;
    - [index.js]: the tool dispatcher, its four handlers and the helpers
      [findBestRoute], [getTrafficCondition] and [calculateTripCosts].

    JavaScript numbers are IEEE 754 binary64 values and are modelled by
    Rocq's primitive floats.  Asynchronous code is modelled in a small
    state-and-exception monad: the state records every query sent to the
    directions service and every line written to the console, an exception
    carries the [message] of the thrown [Error].

    The handlers are first read on arguments that have the types the
    catalog declares.  The program does not check them: the part on
    unchecked arguments follows the same code when a property declared as
    an array or as an object is [null], and records the promises that are
    started and never awaited. *)

From Stdlib Require Import ZArith List String Ascii Bool Lia Floats Uint63 DecimalString.
Import ListNotations.

#[local] Set Warnings "-inexact-float".
#[local] Set Warnings "-register-all".
#[local] Open Scope string_scope.
#[local] Open Scope list_scope.

(** ** JavaScript runtime notions *)

Module JS.

(** A property that holds a number, or [null], or is missing. *)
Inductive numeric : Type :=
| Undefined
| Null
| Num (x : float).

(** [ToNumber] of the language specification, on such a property. *)
Definition ToNumber (v : numeric) : float :=
  match v with
  | Undefined => nan
  | Null => 0%float
  | Num x => x
  end.

(** [ToBoolean]: [0], [-0] and [NaN] are falsy numbers, the empty string is
    the falsy string, [undefined] and [null] are falsy. *)
Definition truthy_number (x : float) : bool :=
  negb (x =? 0)%float && negb (is_nan x).

Definition truthy (v : numeric) : bool :=
  match v with
  | Num x => truthy_number x
  | Undefined | Null => false
  end.

Definition truthy_string (s : option string) : bool :=
  match s with
  | Some s => negb (s =? "")
  | None => false
  end.

Definition truthy_bool (b : option bool) : bool :=
  match b with
  | Some b => b
  | None => false
  end.

(** [a || b] where [b] is a number. *)
Definition or_number (a : numeric) (b : float) : float :=
  if truthy a then ToNumber a else b.

(** [a || b] where [b] is a string. *)
Definition or_string (a : option string) (b : string) : string :=
  match a with
  | Some s => if s =? "" then b else s
  | None => b
  end.

(** A number is a proper number when it is not [NaN]. *)
Definition is_number (x : float) : bool := (x =? x)%float.

(** The float that holds the integer [n] (exact below 2^53). *)
Definition Z2float (n : Z) : float :=
  let a := PrimFloat.of_uint63 (Uint63.of_Z (Z.abs n)) in
  if (n <? 0)%Z then PrimFloat.opp a else a.

(** [Math.round]: the closest integer, a tie going towards plus infinity;
    zeros, infinities and [NaN] are returned unchanged, and a negative
    number that rounds to zero gives [-0].  A finite float [m * 2^e] with
    [0 <= e] is an integer already; otherwise the result is the floor of
    [m / 2^(-e) + 1/2], computed on integers. *)
Definition Math_round (x : float) : float :=
  match Prim2SF x with
  | S754_finite s m e =>
      if (0 <=? e)%Z then x
      else
        let k := (- e)%Z in
        let n := ((2 * (if s then Z.neg m else Z.pos m) + 2 ^ k) / 2 ^ (k + 1))%Z in
        if (n =? 0)%Z then (if s then neg_zero else zero)
        else Z2float n
  | S754_zero _ | S754_infinity _ | S754_nan => x
  end.

(** [String.prototype.toLowerCase], on the ASCII letters. *)
Definition lower_ascii (c : ascii) : ascii :=
  let n := nat_of_ascii c in
  if Nat.leb 65 n && Nat.leb n 90 then ascii_of_nat (n + 32) else c.

Fixpoint toLowerCase (s : string) : string :=
  match s with
  | EmptyString => EmptyString
  | String c rest => String (lower_ascii c) (toLowerCase rest)
  end.

(** [s.includes(pat)]. *)
Fixpoint includes (s pat : string) : bool :=
  if prefix pat s then true
  else match s with
       | EmptyString => false
       | String _ rest => includes rest pat
       end.

(** Is there a [>] in [s]? *)
Fixpoint has_closing (s : string) : bool :=
  match s with
  | EmptyString => false
  | String c rest => if Ascii.eqb c ">" then true else has_closing rest
  end.

(** [s.replace(/<[^>]*>/g, '')]: a [<] opens a match when a [>] follows
    somewhere, and the match ends at the first [>]; a [<] with no [>]
    after it stays.  [inside] tells whether a match is open. *)
Fixpoint strip_from (inside : bool) (s : string) : string :=
  match s with
  | EmptyString => EmptyString
  | String c rest =>
      if inside then
        if Ascii.eqb c ">" then strip_from false rest else strip_from true rest
      else if Ascii.eqb c "<" && has_closing rest then strip_from true rest
      else String c (strip_from false rest)
  end.

Definition strip_tags (s : string) : string := strip_from false s.

(** [array.join(sep)]. *)
Definition join (sep : string) (l : list string) : string := String.concat sep l.

(** The decimal text of an integer, as a template literal prints it. *)
Definition Z_toString (n : Z) : string := NilZero.string_of_int (Z.to_int n).

(** A [Date] object: built from a text ([new Date(text)]) or from a number
    of milliseconds since the epoch. *)
Inductive Date : Type :=
| DateOfString (s : string)
| DateOfMillis (ms : Z).

(** [array.reduce(f)] with no initial value: the first element starts the
    accumulation; an empty array raises a [TypeError]. *)
Definition reduce {A : Type} (f : A -> A -> A) (l : list A) : option A :=
  match l with
  | [] => None
  | x :: rest => Some (fold_left f rest x)
  end.

(** [object[key] = v] on an object whose keys are kept in insertion order. *)
Fixpoint set_property {A : Type} (key : string) (v : A) (o : list (string * A))
  : list (string * A) :=
  match o with
  | [] => [(key, v)]
  | (k, x) :: rest =>
      if k =? key then (k, v) :: rest else (k, x) :: set_property key v rest
  end.

(** [array.map((x, index) => f(x, index))], the index starting at [start]. *)
Fixpoint mapi_from {A B : Type} (start : nat) (f : A -> nat -> B) (l : list A) : list B :=
  match l with
  | [] => []
  | x :: rest => f x start :: mapi_from (S start) f rest
  end.

Definition mapi {A B : Type} (f : A -> nat -> B) (l : list A) : list B :=
  mapi_from 0 f l.

(** Does [s] hold a match of [/<[^>]*>/], that is a [<] with a [>]
    somewhere after it? *)
Fixpoint has_tag (s : string) : bool :=
  match s with
  | EmptyString => false
  | String c rest => (Ascii.eqb c "<" && has_closing rest) || has_tag rest
  end.

(** A property declared as an array or as an object, as a caller can send
    it: not written ([undefined]), [null], or a value of the declared
    type. *)
Inductive property (A : Type) : Type :=
| Missing
| IsNull
| Holds (a : A).

Arguments Missing {A}.
Arguments IsNull {A}.
Arguments Holds {A} a.

(** Destructuring with a default, [{ x = d }]: the default stands for
    [undefined] only, and a [null] stays; the result is [None] for
    [null]. *)
Definition defaulted {A : Type} (d : A) (p : property A) : option A :=
  match p with
  | Missing => Some d
  | IsNull => None
  | Holds a => Some a
  end.

(** A variable that holds a value or [null], written as a property of an
    object literal. *)
Definition written {A : Type} (v : option A) : property A :=
  match v with
  | Some a => Holds a
  | None => IsNull
  end.

End JS.

(** ** Data model *)

(** *** What the directions service returns *)

(** A quantity as the provider gives it: a printable text and a value
    (meters or seconds). *)
Module TextValue.
Record t : Type := { text : string; value : float }.
End TextValue.

Module RawStep.
Record t : Type := {
  html_instructions : string;
  distance : TextValue.t;
  duration : TextValue.t;
  maneuver : option string
}.
End RawStep.

Module Leg.
Record t : Type := {
  distance : TextValue.t;
  duration : TextValue.t;
  duration_in_traffic : option TextValue.t;
  steps : list RawStep.t
}.
End Leg.

Module LatLng.
Record t : Type := { lat : float; lng : float }.
End LatLng.

Module Bounds.
Record t : Type := { northeast : LatLng.t; southwest : LatLng.t }.
End Bounds.

(** One route of [response.data.routes]; [overview_polyline] holds the
    [points] text of that object. *)
Module RawRoute.
Record t : Type := {
  summary : string;
  legs : list Leg.t;
  overview_polyline : string;
  warnings : option (list string);
  bounds : Bounds.t;
  copyrights : string
}.
End RawRoute.

(** *** The normalized route *)

Module Step.
Record t : Type := {
  instruction : string;
  distance : string;
  duration : string;
  maneuver : option string
}.
End Step.

Module TollInfo.
Record t : Type := {
  hasTolls : bool;
  warnings : list string;
  estimatedCost : JS.numeric
}.
End TollInfo.

(** The object built by [formatRouteResponse].  The same shape is read by
    [calculateTripCosts] from a route supplied by the caller, on which
    [tollInfo] may be missing. *)
Module Route.
Record t : Type := {
  summary : string;
  distance : float;
  duration : float;
  durationInTraffic : float;
  polyline : string;
  steps : list Step.t;
  warnings : list string;
  tollInfo : option TollInfo.t;
  bounds : Bounds.t;
  copyrights : string
}.
End Route.

(** *** Queries sent to the directions service *)

Inductive DepartureTime : Type :=
| DepartNow
| DepartAt (d : JS.Date).

(** The [params] object handed to [client.directions]; a property that is
    [undefined] or not written is [None]. *)
Module Directions.
Record params : Type := {
  origin : option string;
  destination : option string;
  waypoints : option string;
  key : string;
  mode : string;
  departure_time : DepartureTime;
  traffic_model : string;
  avoid : option string;
  alternatives : option bool;
  units : string
}.
End Directions.

(** The argument of [calculateRoute]: origin, destination, waypoints,
    alternatives and the remaining options. *)
Module RouteParams.
Record t : Type := {
  origin : option string;
  destination : option string;
  waypoints : option (list string);
  alternatives : option bool;
  avoidTolls : option bool;
  avoidHighways : option bool;
  avoidFerries : option bool;
  departureTime : option string;
  trafficModel : option string
}.
End RouteParams.

(** The argument of [getTrafficInfo]. *)
Module TrafficParams.
Record t : Type := {
  origin : option string;
  destination : option string;
  departureTime : option string
}.
End TrafficParams.

Module AlternativeTime.
Record t : Type := { duration : float; departureTime : string }.
End AlternativeTime.

(** What [getTrafficInfo] returns; [alternativeTimes] is an object whose
    keys are kept in insertion order. *)
Module TrafficInfo.
Record t : Type := {
  duration : float;
  durationInTraffic : float;
  route : Route.t;
  alternativeTimes : list (string * AlternativeTime.t)
}.
End TrafficInfo.

(** *** Tool arguments *)

Module RouteOptions.
Record t : Type := {
  avoidTolls : option bool;
  avoidHighways : option bool;
  avoidFerries : option bool;
  departureTime : option string;
  trafficModel : option string
}.
End RouteOptions.

Module CompareOption.
Record t : Type := {
  avoidTolls : option bool;
  avoidHighways : option bool;
  trafficModel : option string
}.
End CompareOption.

Module VehicleOptions.
Record t : Type := {
  fuelEfficiency : JS.numeric;
  fuelPrice : JS.numeric
}.
End VehicleOptions.

(** The [arguments] object of a tool call: every property that some
    handler reads; a handler ignores the properties it does not read. *)
Module Args.
Record t : Type := {
  origin : option string;
  destination : option string;
  waypoints : option (list string);
  options : option RouteOptions.t;
  alternatives : option bool;
  compareOptions : option (list CompareOption.t);
  departureTime : option string;
  route : option Route.t;
  vehicleOptions : option VehicleOptions.t
}.
End Args.

(** The [costs] entry of [config/config.json]. *)
Module CostsConfig.
Record t : Type := {
  fuelPricePerLiter : float;
  vehicleFuelEfficiency : float;
  tollEstimatePerKm : float
}.
End CostsConfig.

(** *** Results of the tools *)

Inductive TrafficCondition : Type := light | moderate | heavy | severe.

Module RouteView.
Record t : Type := {
  summary : string;
  distance : float;
  duration : float;
  durationInTraffic : float;
  polyline : string;
  steps : list Step.t;
  warnings : list string;
  tollInfo : option TollInfo.t
}.
End RouteView.

Module RouteMetadata.
Record t : Type := { timestamp : string; trafficModel : string }.
End RouteMetadata.

Module RouteResult.
Record t : Type := {
  success : bool;
  route : RouteView.t;
  metadata : RouteMetadata.t
}.
End RouteResult.

(** The [options] property of a compared route: the text ['default'], or
    the element of [compareOptions] that was read ([None] for
    [undefined]). *)
Inductive OptionsLabel : Type :=
| DefaultOptions
| GivenOptions (o : option CompareOption.t).

Module ComparedRoute.
Record t : Type := {
  id : nat;
  summary : string;
  distance : float;
  duration : float;
  durationInTraffic : float;
  tollInfo : option TollInfo.t;
  options : OptionsLabel
}.
End ComparedRoute.

Module Recommendation.
Record t : Type := { recommended : Route.t; reason : string }.
End Recommendation.

Module RankSummary.
Record t : Type := { fastestRoute : Route.t; shortestRoute : Route.t }.
End RankSummary.

Module Comparison.
Record t : Type := {
  routes : list ComparedRoute.t;
  recommendation : Recommendation.t;
  summary : RankSummary.t
}.
End Comparison.

Module CompareMetadata.
Record t : Type := { timestamp : string; routesCompared : nat }.
End CompareMetadata.

Module CompareResult.
Record t : Type := {
  success : bool;
  comparison : Comparison.t;
  metadata : CompareMetadata.t
}.
End CompareResult.

Module Traffic.
Record t : Type := {
  currentDuration : float;
  durationInTraffic : float;
  trafficDelay : float;
  trafficCondition : TrafficCondition;
  alternativeTimes : list (string * AlternativeTime.t);
  route : Route.t
}.
End Traffic.

Module TrafficMetadata.
Record t : Type := { timestamp : string; departureTime : string }.
End TrafficMetadata.

Module TrafficResult.
Record t : Type := {
  success : bool;
  traffic : Traffic.t;
  metadata : TrafficMetadata.t
}.
End TrafficResult.

Module Breakdown.
Record t : Type := {
  distance : string;
  fuelNeeded : string;
  fuelEfficiency : string;
  fuelPrice : string
}.
End Breakdown.

Module Assumptions.
Record t : Type := {
  fuelEfficiency : string;
  fuelPrice : string;
  tollEstimate : string
}.
End Assumptions.

(** What [calculateTripCosts] returns. *)
Module TripCosts.
Record t : Type := {
  fuelCost : float;
  tollCost : float;
  totalCost : float;
  breakdown : Breakdown.t;
  assumptions : Assumptions.t
}.
End TripCosts.

Module CostsView.
Record t : Type := {
  fuel : float;
  tolls : float;
  total : float;
  breakdown : Breakdown.t;
  assumptions : Assumptions.t
}.
End CostsView.

Module CostedRoute.
Record t : Type := {
  distance : float;
  duration : float;
  tollInfo : option TollInfo.t
}.
End CostedRoute.

Module CostsMetadata.
Record t : Type := { timestamp : string; currency : string }.
End CostsMetadata.

Module CostsResult.
Record t : Type := {
  success : bool;
  costs : CostsView.t;
  route : CostedRoute.t;
  metadata : CostsMetadata.t
}.
End CostsResult.

(** The object a handler serializes with [JSON.stringify]. *)
Inductive Payload : Type :=
| OfRoute (r : RouteResult.t)
| OfCompare (r : CompareResult.t)
| OfTraffic (r : TrafficResult.t)
| OfCosts (r : CostsResult.t).

Module Content.
Record t : Type := { type : string; text : string }.
End Content.

(** What a tool call answers; [isError] is [None] when the property is not
    written. *)
Module ToolResult.
Record t : Type := { content : list Content.t; isError : option bool }.
End ToolResult.

(** ** Effects *)

(** The end of a computation: a value, or a thrown [Error] with its
    message. *)
Inductive outcome (A : Type) : Type :=
| Return (a : A)
| Throw (message : string).

Arguments Return {A} a.
Arguments Throw {A} message.

Definition is_return {A : Type} (o : outcome A) : bool :=
  match o with
  | Return _ => true
  | Throw _ => false
  end.

(** What a call leaves behind: the queries sent to the directions service,
    oldest first, and the lines written with [console.warn]. *)
Record World : Type := {
  issued : list Directions.params;
  console : list string
}.

Definition M (A : Type) : Type := World -> outcome A * World.

Definition ret {A : Type} (a : A) : M A := fun w => (Return a, w).

Definition throw {A : Type} (message : string) : M A := fun w => (Throw message, w).

Definition bind {A B : Type} (m : M A) (k : A -> M B) : M B :=
  fun w =>
    match m w with
    | (Return a, w') => k a w'
    | (Throw message, w') => (Throw message, w')
    end.

(** [try { body } catch (error) { handler(error.message) }]. *)
Definition try_catch {A : Type} (body : M A) (handler : string -> M A) : M A :=
  fun w =>
    match body w with
    | (Return a, w') => (Return a, w')
    | (Throw message, w') => handler message w'
    end.

Definition lift {A : Type} (o : outcome A) : M A := fun w => (o, w).

Definition console_warn (line : string) : M unit :=
  fun w => (Return tt, {| issued := issued w; console := console w ++ [line] |}).

Declare Scope js_scope.
Delimit Scope js_scope with js.
Notation "x <- m ;; k" := (bind m (fun x => k))
  (at level 61, m at next level, right associativity) : js_scope.
Notation "m ;;; k" := (bind m (fun _ => k))
  (at level 61, right associativity) : js_scope.
#[local] Open Scope js_scope.

(** The host: the clock and the conversions of the JavaScript runtime that
    the program calls.  [Date_now k] is what [Date.now()] gives once [k]
    queries have been sent to the directions service. *)
Class Host : Type := {
  Date_now : nat -> Z;
  toISOString : JS.Date -> string;
  JSON_stringify : Payload -> string;
  Number_toString : float -> string;
  toFixed : float -> nat -> string
}.

(** [Date.now()]. *)
Definition now `{Host} : M Z := fun w => (Return (Date_now (List.length (issued w))), w).

(** The message of the [TypeError] raised by reading a property of
    [undefined]. *)
Definition TypeError_reading (property : string) : string :=
  "Cannot read properties of undefined (reading '" ++ property ++ "')".

(** The message of the [TypeError] raised by destructuring [undefined]. *)
Definition TypeError_destructure (property : string) : string :=
  "Cannot destructure property '" ++ property ++ "' of 'args' as it is undefined.".

(** ** google-maps.js: the provider adapter *)

(** A [GoogleMapsService] object.  Its [client] is the directions service:
    [client k params] is the answer to the query [params] when it is the
    [k]-th query sent (counting from 0): the list [response.data.routes],
    or the message of the error the request is rejected with. *)
Module GoogleMapsService.
Record t : Type := {
  client : nat -> Directions.params -> outcome (list RawRoute.t);
  apiKey : string
}.
End GoogleMapsService.

(** [await this.client.directions({ params })]. *)
Definition directions (this : GoogleMapsService.t) (params : Directions.params)
  : M (list RawRoute.t) :=
  fun w =>
    (GoogleMapsService.client this (List.length (issued w)) params,
     {| issued := issued w ++ [params]; console := console w |}).

Definition buildAvoidString (options : RouteParams.t) : option string :=
  let avoid := [] in
  let avoid := if JS.truthy_bool (RouteParams.avoidTolls options)
               then avoid ++ ["tolls"] else avoid in
  let avoid := if JS.truthy_bool (RouteParams.avoidHighways options)
               then avoid ++ ["highways"] else avoid in
  let avoid := if JS.truthy_bool (RouteParams.avoidFerries options)
               then avoid ++ ["ferries"] else avoid in
  if Nat.ltb 0 (List.length avoid) then Some (JS.join "|" avoid) else None.

Definition extractTollInfo (route : RawRoute.t) : TollInfo.t :=
  let tollWarnings :=
    match RawRoute.warnings route with
    | Some warnings =>
        filter (fun warning => JS.includes (JS.toLowerCase warning) "toll") warnings
    | None => []
    end in
  {| TollInfo.hasTolls := Nat.ltb 0 (List.length tollWarnings);
     TollInfo.warnings := tollWarnings;
     TollInfo.estimatedCost := JS.Null |}.

(** [formatRouteResponse]: [route.legs[0]] is [undefined] on a route with no
    leg, and reading [leg.distance] then raises a [TypeError]. *)
Definition formatRouteResponse (route : RawRoute.t) : outcome Route.t :=
  match hd_error (RawRoute.legs route) with
  | None => Throw (TypeError_reading "distance")
  | Some leg =>
      Return
        {| Route.summary := RawRoute.summary route;
           Route.distance := TextValue.value (Leg.distance leg);
           Route.duration := TextValue.value (Leg.duration leg);
           Route.durationInTraffic :=
             match Leg.duration_in_traffic leg with
             | Some in_traffic => TextValue.value in_traffic
             | None => TextValue.value (Leg.duration leg)
             end;
           Route.polyline := RawRoute.overview_polyline route;
           Route.steps :=
             map (fun step =>
                    {| Step.instruction := JS.strip_tags (RawStep.html_instructions step);
                       Step.distance := TextValue.text (RawStep.distance step);
                       Step.duration := TextValue.text (RawStep.duration step);
                       Step.maneuver := RawStep.maneuver step |})
                 (Leg.steps leg);
           Route.warnings :=
             match RawRoute.warnings route with
             | Some warnings => warnings
             | None => []
             end;
           Route.tollInfo := Some (extractTollInfo route);
           Route.bounds := RawRoute.bounds route;
           Route.copyrights := RawRoute.copyrights route |}
  end.

(** The query that [calculateRoute] sends. *)
Definition calculateRoute_query (this : GoogleMapsService.t) (params : RouteParams.t)
  : Directions.params :=
  let waypoints :=
    match RouteParams.waypoints params with Some l => l | None => [] end in
  let alternatives :=
    match RouteParams.alternatives params with Some b => b | None => false end in
  {| Directions.origin := RouteParams.origin params;
     Directions.destination := RouteParams.destination params;
     Directions.waypoints :=
       if Nat.ltb 0 (List.length waypoints) then Some (JS.join "|" waypoints) else None;
     Directions.key := GoogleMapsService.apiKey this;
     Directions.mode := "driving";
     Directions.departure_time :=
       match RouteParams.departureTime params with
       | Some text => if text =? "" then DepartNow else DepartAt (JS.DateOfString text)
       | None => DepartNow
       end;
     Directions.traffic_model := JS.or_string (RouteParams.trafficModel params) "best_guess";
     Directions.avoid := buildAvoidString params;
     Directions.alternatives := Some alternatives;
     Directions.units := "metric" |}.

Definition calculateRoute (this : GoogleMapsService.t) (params : RouteParams.t)
  : M Route.t :=
  try_catch
    (routes <- directions this (calculateRoute_query this params) ;;
     match hd_error routes with
     | None => throw "No route found"
     | Some route => lift (formatRouteResponse route)
     end)
    (fun message => throw ("Google Maps API error: " ++ message)).

(** The query of [getAlternativeTimes] for one departure time, which is also
    the shape of the first query of [getTrafficInfo]. *)
Definition traffic_query (this : GoogleMapsService.t)
  (origin destination : option string) (departure : DepartureTime)
  : Directions.params :=
  {| Directions.origin := origin;
     Directions.destination := destination;
     Directions.waypoints := None;
     Directions.key := GoogleMapsService.apiKey this;
     Directions.mode := "driving";
     Directions.departure_time := departure;
     Directions.traffic_model := "best_guess";
     Directions.avoid := None;
     Directions.alternatives := None;
     Directions.units := "metric" |}.

(** [routes[0].legs[0].duration_in_traffic?.value || routes[0].legs[0].duration.value]. *)
Definition alternative_duration (routes : list RawRoute.t) : outcome float :=
  match hd_error routes with
  | None => Throw (TypeError_reading "legs")
  | Some route =>
      match hd_error (RawRoute.legs route) with
      | None => Throw (TypeError_reading "duration_in_traffic")
      | Some leg =>
          Return
            (JS.or_number
               match Leg.duration_in_traffic leg with
               | Some in_traffic => JS.Num (TextValue.value in_traffic)
               | None => JS.Undefined
               end
               (TextValue.value (Leg.duration leg)))
      end
  end.

Definition timeOffsets : list Z := [1800; 3600; 7200]%Z.

(** The key of a sample and of its warning. *)
Definition offset_label (offset : Z) : string :=
  "+" ++ JS.Z_toString (offset / 60) ++ "min".

(** One turn of the loop of [getAlternativeTimes]. *)
Definition sample_alternative `{Host} (this : GoogleMapsService.t)
  (origin destination : option string) (offset : Z)
  (results : list (string * AlternativeTime.t))
  : M (list (string * AlternativeTime.t)) :=
  t <- now ;;
  let departureTime := JS.DateOfMillis (t + offset * 1000) in
  try_catch
    (routes <- directions this
                 (traffic_query this origin destination (DepartAt departureTime)) ;;
     duration <- lift (alternative_duration routes) ;;
     ret (JS.set_property (offset_label offset)
            {| AlternativeTime.duration := duration;
               AlternativeTime.departureTime := toISOString departureTime |}
            results))
    (fun message =>
       console_warn
         ("Failed to get alternative time for " ++ offset_label offset ++ ": " ++ message) ;;;
       ret results).

Fixpoint sample_alternatives `{Host} (this : GoogleMapsService.t)
  (origin destination : option string) (offsets : list Z)
  (results : list (string * AlternativeTime.t))
  : M (list (string * AlternativeTime.t)) :=
  match offsets with
  | [] => ret results
  | offset :: rest =>
      results' <- sample_alternative this origin destination offset results ;;
      sample_alternatives this origin destination rest results'
  end.

Definition getAlternativeTimes `{Host} (this : GoogleMapsService.t)
  (origin destination : option string)
  : M (list (string * AlternativeTime.t)) :=
  sample_alternatives this origin destination timeOffsets [].

(** The first query of [getTrafficInfo]. *)
Definition getTrafficInfo_query (this : GoogleMapsService.t) (params : TrafficParams.t)
  : Directions.params :=
  let departureTime :=
    match TrafficParams.departureTime params with Some text => text | None => "now" end in
  traffic_query this (TrafficParams.origin params) (TrafficParams.destination params)
    (if departureTime =? "now" then DepartNow
     else DepartAt (JS.DateOfString departureTime)).

(** [getTrafficInfo]: [route.legs] raises a [TypeError] when the answer has
    no route; a route with no leg is noticed when [leg.duration] is read,
    after the alternative times have been sampled. *)
Definition getTrafficInfo `{Host} (this : GoogleMapsService.t) (params : TrafficParams.t)
  : M TrafficInfo.t :=
  try_catch
    (routes <- directions this (getTrafficInfo_query this params) ;;
     match hd_error routes with
     | None => throw (TypeError_reading "legs")
     | Some route =>
         alternativeTimes <-
           getAlternativeTimes this
             (TrafficParams.origin params) (TrafficParams.destination params) ;;
         match hd_error (RawRoute.legs route) with
         | None => throw (TypeError_reading "duration")
         | Some leg =>
             formatted <- lift (formatRouteResponse route) ;;
             ret {| TrafficInfo.duration := TextValue.value (Leg.duration leg);
                    TrafficInfo.durationInTraffic :=
                      match Leg.duration_in_traffic leg with
                      | Some in_traffic => TextValue.value in_traffic
                      | None => TextValue.value (Leg.duration leg)
                      end;
                    TrafficInfo.route := formatted;
                    TrafficInfo.alternativeTimes := alternativeTimes |}
         end
     end)
    (fun message => throw ("Traffic info error: " ++ message)).

(** ** index.js: the tool dispatcher *)

Module Config.
Record t : Type := { costs : CostsConfig.t }.
End Config.

(** The constants of the module: the configuration that was loaded and the
    service built from its API key. *)
Class Server : Type := {
  config : Config.t;
  googleMaps : GoogleMapsService.t
}.

(** The names of the tools, in the order of the catalog. *)
Definition tool_names : list string :=
  ["calculate_route"; "compare_routes"; "get_live_traffic"; "estimate_costs"].

(** *** The catalog of tools

    A schema of the catalog, as far as the catalog uses schemas: a property
    that is not written is [None]. *)
Inductive Schema : Type :=
| StringSchema (description : option string)
| EnumSchema (values : list string) (default : string)
| BooleanSchema (default : option bool)
| NumberSchema (description : option string)
| ArraySchema (items : Schema) (description : option string)
| ObjectSchema (description : option string)
    (properties : option (list (string * Schema))) (required : option (list string)).

Module Tool.
Record t : Type := { name : string; description : string; inputSchema : Schema }.
End Tool.

(** The array [tools]. *)
Definition tools : list Tool.t :=
  [ {| Tool.name := "calculate_route";
       Tool.description :=
         "Calculate optimal route between origin and destination with traffic consideration";
       Tool.inputSchema :=
         ObjectSchema None
           (Some
              [ ("origin", StringSchema (Some "Starting location (address or coordinates)"));
                ("destination",
                 StringSchema (Some "Destination location (address or coordinates)"));
                ("waypoints",
                 ArraySchema (StringSchema None)
                   (Some "Optional waypoints between origin and destination"));
                ("options",
                 ObjectSchema None
                   (Some
                      [ ("avoidTolls", BooleanSchema (Some false));
                        ("avoidHighways", BooleanSchema (Some false));
                        ("departureTime", StringSchema (Some "ISO datetime for departure"));
                        ("trafficModel",
                         EnumSchema ["best_guess"; "pessimistic"; "optimistic"]
                           "best_guess") ])
                   None) ])
           (Some ["origin"; "destination"]) |};
    {| Tool.name := "compare_routes";
       Tool.description := "Compare multiple route alternatives with different options";
       Tool.inputSchema :=
         ObjectSchema None
           (Some
              [ ("origin", StringSchema (Some "Starting location"));
                ("destination", StringSchema (Some "Destination location"));
                ("waypoints", ArraySchema (StringSchema None) None);
                ("alternatives", BooleanSchema (Some true));
                ("compareOptions",
                 ArraySchema
                   (ObjectSchema None
                      (Some
                         [ ("avoidTolls", BooleanSchema None);
                           ("avoidHighways", BooleanSchema None);
                           ("trafficModel", StringSchema None) ])
                      None)
                   None) ])
           (Some ["origin"; "destination"]) |};
    {| Tool.name := "get_live_traffic";
       Tool.description := "Get live traffic information and travel time for a route";
       Tool.inputSchema :=
         ObjectSchema None
           (Some
              [ ("origin", StringSchema (Some "Starting location"));
                ("destination", StringSchema (Some "Destination location"));
                ("departureTime",
                 StringSchema (Some "Departure time (now, or ISO datetime)")) ])
           (Some ["origin"; "destination"]) |};
    {| Tool.name := "estimate_costs";
       Tool.description := "Estimate trip costs including fuel, tolls, and total expenses";
       Tool.inputSchema :=
         ObjectSchema None
           (Some
              [ ("route",
                 ObjectSchema
                   (Some "Route object from calculate_route or provide origin/destination")
                   None None);
                ("origin", StringSchema None);
                ("destination", StringSchema None);
                ("vehicleOptions",
                 ObjectSchema None
                   (Some
                      [ ("fuelEfficiency", NumberSchema (Some "Liters per 100km"));
                        ("fuelPrice", NumberSchema (Some "Price per liter")) ])
                   None) ])
           None |} ].

(** The handler registered for [ListToolsRequestSchema]. *)
Definition listTools : M (list Tool.t) := ret tools.

(** [Promise.all]: every promise of the array has been started, so every
    computation runs, whatever the others do; the result is the array of the
    values when all of them fulfil, and a rejection otherwise.  When several
    promises reject, the model keeps the first rejection in array order. *)
Fixpoint run_all {A : Type} (promises : list (M A)) (w : World)
  : list (outcome A) * World :=
  match promises with
  | [] => ([], w)
  | p :: rest =>
      let (o, w') := p w in
      let (os, w'') := run_all rest w' in
      (o :: os, w'')
  end.

Fixpoint all_fulfilled {A : Type} (os : list (outcome A)) : outcome (list A) :=
  match os with
  | [] => Return []
  | Return a :: rest =>
      match all_fulfilled rest with
      | Return l => Return (a :: l)
      | Throw message => Throw message
      end
  | Throw message :: _ => Throw message
  end.

Definition Promise_all {A : Type} (promises : list (M A)) : M (list A) :=
  fun w => let (os, w') := run_all promises w in (all_fulfilled os, w').

(** [array.reduce(f)] as a computation. *)
Definition reduce_or_throw {A : Type} (f : A -> A -> A) (l : list A) : outcome A :=
  match JS.reduce f l with
  | Some x => Return x
  | None => Throw "Reduce of empty array with no initial value"
  end.

(** [{ content: [{ type: 'text', text: JSON.stringify(result, null, 2) }] }]. *)
Definition text_result `{Host} (result : Payload) : ToolResult.t :=
  {| ToolResult.content :=
       [ {| Content.type := "text"; Content.text := JSON_stringify result |} ];
     ToolResult.isError := None |}.

(** The result that the dispatcher builds from a caught error. *)
Definition error_result (message : string) : ToolResult.t :=
  {| ToolResult.content :=
       [ {| Content.type := "text"; Content.text := "Error: " ++ message |} ];
     ToolResult.isError := Some true |}.

(** [new Date().toISOString()]. *)
Definition timestamp_now `{Host} : M string :=
  t <- now ;; ret (toISOString (JS.DateOfMillis t)).

(** *** Helper functions *)

Definition faster (best current : Route.t) : Route.t :=
  if (Route.durationInTraffic current <? Route.durationInTraffic best)%float
  then current else best.

Definition shorter (shortest current : Route.t) : Route.t :=
  if (Route.distance current <? Route.distance shortest)%float
  then current else shortest.

Definition findBestRoute (routes : list Route.t) : outcome Recommendation.t :=
  match reduce_or_throw faster routes with
  | Return fastest =>
      Return {| Recommendation.recommended := fastest;
                Recommendation.reason :=
                  "Fastest travel time with current traffic conditions" |}
  | Throw message => Throw message
  end.

Definition getTrafficCondition (trafficData : TrafficInfo.t) : TrafficCondition :=
  let delay :=
    (TrafficInfo.durationInTraffic trafficData - TrafficInfo.duration trafficData)%float in
  let delayRatio := (delay / TrafficInfo.duration trafficData)%float in
  if (delayRatio <? 0.1)%float then light
  else if (delayRatio <? 0.3)%float then moderate
  else if (delayRatio <? 0.5)%float then heavy
  else severe.

Definition calculateTripCosts `{Host} `{Server}
  (route : Route.t) (vehicleOptions : VehicleOptions.t) : TripCosts.t :=
  let fuelEfficiency :=
    JS.or_number (VehicleOptions.fuelEfficiency vehicleOptions)
      (CostsConfig.vehicleFuelEfficiency (Config.costs config)) in
  let fuelPrice :=
    JS.or_number (VehicleOptions.fuelPrice vehicleOptions)
      (CostsConfig.fuelPricePerLiter (Config.costs config)) in
  let distanceKm := (Route.distance route / 1000)%float in
  let fuelNeeded := ((distanceKm / 100) * fuelEfficiency)%float in
  let fuelCost := (fuelNeeded * fuelPrice)%float in
  let tollCost :=
    match Route.tollInfo route with
    | Some tollInfo => TollInfo.estimatedCost tollInfo
    | None =>
        JS.Num (distanceKm * CostsConfig.tollEstimatePerKm (Config.costs config))%float
    end in
  {| TripCosts.fuelCost := (JS.Math_round (fuelCost * 100) / 100)%float;
     TripCosts.tollCost := (JS.Math_round (JS.ToNumber tollCost * 100) / 100)%float;
     TripCosts.totalCost :=
       (JS.Math_round ((fuelCost + JS.ToNumber tollCost) * 100) / 100)%float;
     TripCosts.breakdown :=
       {| Breakdown.distance := toFixed distanceKm 1 ++ " km";
          Breakdown.fuelNeeded := toFixed fuelNeeded 1 ++ " L";
          Breakdown.fuelEfficiency := Number_toString fuelEfficiency ++ " L/100km";
          Breakdown.fuelPrice := Number_toString fuelPrice ++ "/L" |};
     TripCosts.assumptions :=
       {| Assumptions.fuelEfficiency := Number_toString fuelEfficiency ++ " L/100km";
          Assumptions.fuelPrice := Number_toString fuelPrice ++ " per liter";
          Assumptions.tollEstimate := "Based on route analysis" |} |}.

(** *** Tool implementation functions

    Each handler is written in two parts: the computation of the [result]
    object, and its serialization into the answer.  The arguments are read
    here at the types that the catalog declares; what the same code does
    when an array or an object is [null] is in the part on unchecked
    arguments, [Unchecked]. *)

Definition no_options : RouteOptions.t :=
  {| RouteOptions.avoidTolls := None;
     RouteOptions.avoidHighways := None;
     RouteOptions.avoidFerries := None;
     RouteOptions.departureTime := None;
     RouteOptions.trafficModel := None |}.

Definition handleCalculateRoute_result `{Host} `{Server} (args : option Args.t)
  : M RouteResult.t :=
  match args with
  | None => throw (TypeError_destructure "origin")
  | Some args =>
      let waypoints := match Args.waypoints args with Some l => l | None => [] end in
      let options := match Args.options args with Some o => o | None => no_options end in
      route <- calculateRoute googleMaps
                 {| RouteParams.origin := Args.origin args;
                    RouteParams.destination := Args.destination args;
                    RouteParams.waypoints := Some waypoints;
                    RouteParams.alternatives := None;
                    RouteParams.avoidTolls := RouteOptions.avoidTolls options;
                    RouteParams.avoidHighways := RouteOptions.avoidHighways options;
                    RouteParams.avoidFerries := RouteOptions.avoidFerries options;
                    RouteParams.departureTime := RouteOptions.departureTime options;
                    RouteParams.trafficModel := RouteOptions.trafficModel options |} ;;
      timestamp <- timestamp_now ;;
      ret {| RouteResult.success := true;
             RouteResult.route :=
               {| RouteView.summary := Route.summary route;
                  RouteView.distance := Route.distance route;
                  RouteView.duration := Route.duration route;
                  RouteView.durationInTraffic := Route.durationInTraffic route;
                  RouteView.polyline := Route.polyline route;
                  RouteView.steps := Route.steps route;
                  RouteView.warnings := Route.warnings route;
                  RouteView.tollInfo := Route.tollInfo route |};
             RouteResult.metadata :=
               {| RouteMetadata.timestamp := timestamp;
                  RouteMetadata.trafficModel :=
                    JS.or_string (RouteOptions.trafficModel options) "best_guess" |} |}
  end.

Definition handleCalculateRoute `{Host} `{Server} (args : option Args.t)
  : M ToolResult.t :=
  result <- handleCalculateRoute_result args ;;
  ret (text_result (OfRoute result)).

(** The default query of [handleCompareRoutes]. *)
Definition default_route_params (args : Args.t) : RouteParams.t :=
  {| RouteParams.origin := Args.origin args;
     RouteParams.destination := Args.destination args;
     RouteParams.waypoints :=
       Some match Args.waypoints args with Some l => l | None => [] end;
     RouteParams.alternatives := Some true;
     RouteParams.avoidTolls := None;
     RouteParams.avoidHighways := None;
     RouteParams.avoidFerries := None;
     RouteParams.departureTime := None;
     RouteParams.trafficModel := None |}.

(** The query of [handleCompareRoutes] for one element of [compareOptions]. *)
Definition option_route_params (args : Args.t) (option : CompareOption.t)
  : RouteParams.t :=
  {| RouteParams.origin := Args.origin args;
     RouteParams.destination := Args.destination args;
     RouteParams.waypoints :=
       Some match Args.waypoints args with Some l => l | None => [] end;
     RouteParams.alternatives := None;
     RouteParams.avoidTolls := CompareOption.avoidTolls option;
     RouteParams.avoidHighways := CompareOption.avoidHighways option;
     RouteParams.avoidFerries := None;
     RouteParams.departureTime := None;
     RouteParams.trafficModel := CompareOption.trafficModel option |}.

(** The array [routePromises]. *)
Definition routePromises `{Server} (args : Args.t) : list (M Route.t) :=
  let compareOptions :=
    match Args.compareOptions args with Some l => l | None => [] end in
  calculateRoute googleMaps (default_route_params args)
  :: map (fun option => calculateRoute googleMaps (option_route_params args option))
         compareOptions.

(** An element of [comparison.routes]. *)
Definition compared_route (compareOptions : list CompareOption.t)
  (route : Route.t) (index : nat) : ComparedRoute.t :=
  {| ComparedRoute.id := index;
     ComparedRoute.summary := Route.summary route;
     ComparedRoute.distance := Route.distance route;
     ComparedRoute.duration := Route.duration route;
     ComparedRoute.durationInTraffic := Route.durationInTraffic route;
     ComparedRoute.tollInfo := Route.tollInfo route;
     ComparedRoute.options :=
       if Nat.eqb index 0 then DefaultOptions
       else GivenOptions (nth_error compareOptions (index - 1)) |}.

(** The object [comparison]. *)
Definition compare_and_rank (compareOptions : list CompareOption.t)
  (routes : list Route.t) : outcome Comparison.t :=
  match findBestRoute routes with
  | Throw message => Throw message
  | Return recommendation =>
      match reduce_or_throw faster routes with
      | Throw message => Throw message
      | Return fastestRoute =>
          match reduce_or_throw shorter routes with
          | Throw message => Throw message
          | Return shortestRoute =>
              Return
                {| Comparison.routes := JS.mapi (compared_route compareOptions) routes;
                   Comparison.recommendation := recommendation;
                   Comparison.summary :=
                     {| RankSummary.fastestRoute := fastestRoute;
                        RankSummary.shortestRoute := shortestRoute |} |}
          end
      end
  end.

Definition handleCompareRoutes_result `{Host} `{Server} (args : option Args.t)
  : M CompareResult.t :=
  match args with
  | None => throw (TypeError_destructure "origin")
  | Some args =>
      let compareOptions :=
        match Args.compareOptions args with Some l => l | None => [] end in
      routes <- Promise_all (routePromises args) ;;
      comparison <- lift (compare_and_rank compareOptions routes) ;;
      timestamp <- timestamp_now ;;
      ret {| CompareResult.success := true;
             CompareResult.comparison := comparison;
             CompareResult.metadata :=
               {| CompareMetadata.timestamp := timestamp;
                  CompareMetadata.routesCompared := List.length routes |} |}
  end.

Definition handleCompareRoutes `{Host} `{Server} (args : option Args.t)
  : M ToolResult.t :=
  result <- handleCompareRoutes_result args ;;
  ret (text_result (OfCompare result)).

Definition handleGetLiveTraffic_result `{Host} `{Server} (args : option Args.t)
  : M TrafficResult.t :=
  match args with
  | None => throw (TypeError_destructure "origin")
  | Some args =>
      let departureTime :=
        match Args.departureTime args with Some text => text | None => "now" end in
      trafficData <- getTrafficInfo googleMaps
                       {| TrafficParams.origin := Args.origin args;
                          TrafficParams.destination := Args.destination args;
                          TrafficParams.departureTime := Some departureTime |} ;;
      timestamp <- timestamp_now ;;
      ret {| TrafficResult.success := true;
             TrafficResult.traffic :=
               {| Traffic.currentDuration := TrafficInfo.duration trafficData;
                  Traffic.durationInTraffic := TrafficInfo.durationInTraffic trafficData;
                  Traffic.trafficDelay :=
                    (TrafficInfo.durationInTraffic trafficData
                     - TrafficInfo.duration trafficData)%float;
                  Traffic.trafficCondition := getTrafficCondition trafficData;
                  Traffic.alternativeTimes := TrafficInfo.alternativeTimes trafficData;
                  Traffic.route := TrafficInfo.route trafficData |};
             TrafficResult.metadata :=
               {| TrafficMetadata.timestamp := timestamp;
                  TrafficMetadata.departureTime := departureTime |} |}
  end.

Definition handleGetLiveTraffic `{Host} `{Server} (args : option Args.t)
  : M ToolResult.t :=
  result <- handleGetLiveTraffic_result args ;;
  ret (text_result (OfTraffic result)).

Definition no_vehicle_options : VehicleOptions.t :=
  {| VehicleOptions.fuelEfficiency := JS.Undefined;
     VehicleOptions.fuelPrice := JS.Undefined |}.

(** The query that [handleEstimateCosts] sends when it has no route. *)
Definition estimate_route_params (args : Args.t) : RouteParams.t :=
  {| RouteParams.origin := Args.origin args;
     RouteParams.destination := Args.destination args;
     RouteParams.waypoints := None;
     RouteParams.alternatives := None;
     RouteParams.avoidTolls := None;
     RouteParams.avoidHighways := None;
     RouteParams.avoidFerries := None;
     RouteParams.departureTime := None;
     RouteParams.trafficModel := None |}.

(** The part of [handleEstimateCosts] that settles [routeData]. *)
Definition resolve_route `{Server} (args : Args.t) : M (option Route.t) :=
  match Args.route args with
  | Some route => ret (Some route)
  | None =>
      if JS.truthy_string (Args.origin args) && JS.truthy_string (Args.destination args)
      then (route <- calculateRoute googleMaps (estimate_route_params args) ;;
            ret (Some route))
      else ret None
  end.

(** The [result] object of [handleEstimateCosts] for the route [routeData]. *)
Definition costs_result `{Host} `{Server}
  (routeData : Route.t) (vehicleOptions : VehicleOptions.t) (timestamp : string)
  : CostsResult.t :=
  let costs := calculateTripCosts routeData vehicleOptions in
  {| CostsResult.success := true;
     CostsResult.costs :=
       {| CostsView.fuel := TripCosts.fuelCost costs;
          CostsView.tolls := TripCosts.tollCost costs;
          CostsView.total := TripCosts.totalCost costs;
          CostsView.breakdown := TripCosts.breakdown costs;
          CostsView.assumptions := TripCosts.assumptions costs |};
     CostsResult.route :=
       {| CostedRoute.distance := Route.distance routeData;
          CostedRoute.duration := Route.duration routeData;
          CostedRoute.tollInfo := Route.tollInfo routeData |};
     CostsResult.metadata :=
       {| CostsMetadata.timestamp := timestamp;
          CostsMetadata.currency := "USD" |} |}.

Definition handleEstimateCosts_result `{Host} `{Server} (args : option Args.t)
  : M CostsResult.t :=
  match args with
  | None => throw (TypeError_destructure "route")
  | Some args =>
      let vehicleOptions :=
        match Args.vehicleOptions args with
        | Some o => o
        | None => no_vehicle_options
        end in
      routeData <- resolve_route args ;;
      match routeData with
      | None => throw "No route data available for cost estimation"
      | Some routeData =>
          timestamp <- timestamp_now ;;
          ret (costs_result routeData vehicleOptions timestamp)
      end
  end.

Definition handleEstimateCosts `{Host} `{Server} (args : option Args.t)
  : M ToolResult.t :=
  result <- handleEstimateCosts_result args ;;
  ret (text_result (OfCosts result)).

(** *** The handler of tool calls *)

(** The [switch] on the name of the tool. *)
Definition dispatch `{Host} `{Server} (name : string) (args : option Args.t)
  : M ToolResult.t :=
  if name =? "calculate_route" then handleCalculateRoute args
  else if name =? "compare_routes" then handleCompareRoutes args
  else if name =? "get_live_traffic" then handleGetLiveTraffic args
  else if name =? "estimate_costs" then handleEstimateCosts args
  else throw ("Unknown tool: " ++ name).

(** The handler registered for [CallToolRequestSchema], on the [name] and
    the [arguments] of the request. *)
Definition callTool `{Host} `{Server} (name : string) (args : option Args.t)
  : M ToolResult.t :=
  try_catch (dispatch name args) (fun message => ret (error_result message)).

(** ** Arguments that do not have the declared types

    Nothing in the program checks the arguments of a tool call against the
    schemas of the catalog.  The definitions above read the arguments at
    their declared types.  This part follows the same code on arguments in
    which a property declared as an array or as an object may also be
    [null]: [waypoints], [options], [compareOptions] and [vehicleOptions].
    A [route] that is [null] is falsy like one that is not written, and is
    [None] in both cases. *)

(** The message of the [TypeError] raised by reading a property of
    [null]. *)
Definition TypeError_reading_null (property : string) : string :=
  "Cannot read properties of null (reading '" ++ property ++ "')".

(** The message of the [TypeError] raised by [for (... of x)] when [x] is
    [null] (or any other value that cannot be iterated). *)
Definition TypeError_not_iterable (name : string) : string :=
  name ++ " is not iterable".

(** The argument of [calculateRoute], its [waypoints] as the caller of the
    tool wrote them. *)
Module UncheckedParams.
Record t : Type := {
  origin : option string;
  destination : option string;
  waypoints : JS.property (list string);
  alternatives : option bool;
  avoidTolls : option bool;
  avoidHighways : option bool;
  avoidFerries : option bool;
  departureTime : option string;
  trafficModel : option string
}.
End UncheckedParams.

(** The [arguments] object of a tool call, unchecked. *)
Module UncheckedArgs.
Record t : Type := {
  origin : option string;
  destination : option string;
  waypoints : JS.property (list string);
  options : JS.property RouteOptions.t;
  alternatives : option bool;
  compareOptions : JS.property (list CompareOption.t);
  departureTime : option string;
  route : option Route.t;
  vehicleOptions : JS.property VehicleOptions.t
}.
End UncheckedArgs.

(** What the process has seen: the world, and the messages of the promises
    that were rejected while nothing awaited them nor caught their error.
    Each is an unhandled rejection, on which Node ends the process. *)
Module Process.
Record t : Type := {
  world : World;
  unhandled : list string
}.
End Process.

Definition P (A : Type) : Type := Process.t -> outcome A * Process.t.

Module Async.

Definition ret {A : Type} (a : A) : P A := fun p => (Return a, p).

Definition throw {A : Type} (message : string) : P A := fun p => (Throw message, p).

Definition bind {A B : Type} (m : P A) (k : A -> P B) : P B :=
  fun p =>
    match m p with
    | (Return a, p') => k a p'
    | (Throw message, p') => (Throw message, p')
    end.

Definition try_catch {A : Type} (body : P A) (handler : string -> P A) : P A :=
  fun p =>
    match body p with
    | (Return a, p') => (Return a, p')
    | (Throw message, p') => handler message p'
    end.

(** [await m]: the computation [m], its error thrown where it is awaited. *)
Definition await {A : Type} (m : M A) : P A :=
  fun p =>
    let (o, w) := m (Process.world p) in
    (o, {| Process.world := w; Process.unhandled := Process.unhandled p |}).

(** A call of an async function that is not awaited: what it does is done,
    and the promise holds how it ends. *)
Definition start {A : Type} (m : M A) : P (outcome A) :=
  fun p =>
    let (o, w) := m (Process.world p) in
    (Return o, {| Process.world := w; Process.unhandled := Process.unhandled p |}).

(** The same for each call of a list, in order. *)
Definition start_all {A : Type} (calls : list (M A)) : P (list (outcome A)) :=
  fun p =>
    let (os, w) := run_all calls (Process.world p) in
    (Return os, {| Process.world := w; Process.unhandled := Process.unhandled p |}).

(** The messages of the promises of a list that are rejected. *)
Definition rejections {A : Type} (promises : list (outcome A)) : list string :=
  flat_map (fun promise =>
              match promise with
              | Throw message => [message]
              | Return _ => []
              end)
           promises.

(** Promises that go out of reach before anything awaits them: the
    rejected ones are unhandled. *)
Definition abandon {A : Type} (promises : list (outcome A)) : P unit :=
  fun p =>
    (Return tt,
     {| Process.world := Process.world p;
        Process.unhandled := Process.unhandled p ++ rejections promises |}).

End Async.

Declare Scope async_scope.
Delimit Scope async_scope with async.
Notation "x <- m ;; k" := (Async.bind m (fun x => k))
  (at level 61, m at next level, right associativity) : async_scope.
Notation "m ;;; k" := (Async.bind m (fun _ => k))
  (at level 61, right associativity) : async_scope.

(** The body of [calculateRoute], from the point where the [params] object
    of the query is built, or where building it has raised an error,
    whatever the argument of [calculateRoute] is: all of it is inside the
    [try]. *)
Definition calculateRoute_from (this : GoogleMapsService.t)
  (built : outcome Directions.params) : M Route.t :=
  try_catch
    (query <- lift built ;;
     routes <- directions this query ;;
     match hd_error routes with
     | None => throw "No route found"
     | Some route => lift (formatRouteResponse route)
     end)
    (fun message => throw ("Google Maps API error: " ++ message)).

(** The handler of tool calls over its four handlers, whatever these do
    with the arguments and of whatever kind the arguments are: the [switch]
    on the name, inside the [try]. *)
Section Dispatcher.

Context {Arguments : Type}.
Variables calculate_route compare_routes get_live_traffic estimate_costs
  : Arguments -> P ToolResult.t.

Definition dispatch_with (name : string) (args : Arguments) : P ToolResult.t :=
  if name =? "calculate_route" then calculate_route args
  else if name =? "compare_routes" then compare_routes args
  else if name =? "get_live_traffic" then get_live_traffic args
  else if name =? "estimate_costs" then estimate_costs args
  else Async.throw ("Unknown tool: " ++ name).

Definition callTool_with (name : string) (args : Arguments) : P ToolResult.t :=
  Async.try_catch (dispatch_with name args)
    (fun message => Async.ret (error_result message)).

End Dispatcher.

Module Unchecked.

(** The argument of [calculateRoute] once its [waypoints] are known to be
    an array. *)
Definition route_params (params : UncheckedParams.t) (waypoints : list string)
  : RouteParams.t :=
  {| RouteParams.origin := UncheckedParams.origin params;
     RouteParams.destination := UncheckedParams.destination params;
     RouteParams.waypoints := Some waypoints;
     RouteParams.alternatives := UncheckedParams.alternatives params;
     RouteParams.avoidTolls := UncheckedParams.avoidTolls params;
     RouteParams.avoidHighways := UncheckedParams.avoidHighways params;
     RouteParams.avoidFerries := UncheckedParams.avoidFerries params;
     RouteParams.departureTime := UncheckedParams.departureTime params;
     RouteParams.trafficModel := UncheckedParams.trafficModel params |}.

(** The [params] object of the query, as [calculateRoute] builds it:
    reading [waypoints.length] is where a [null] raises. *)
Definition query (this : GoogleMapsService.t) (params : UncheckedParams.t)
  : outcome Directions.params :=
  let waypoints := JS.defaulted [] (UncheckedParams.waypoints params) in
  match waypoints with
  | None => Throw (TypeError_reading_null "length")
  | Some waypoints => Return (calculateRoute_query this (route_params params waypoints))
  end.

(** [calculateRoute]: the query is built inside the [try], before it is
    sent. *)
Definition calculateRoute (this : GoogleMapsService.t) (params : UncheckedParams.t)
  : M Route.t :=
  calculateRoute_from this (query this params).

(** The argument that [handleCalculateRoute] gives to [calculateRoute]:
    spreading an [options] that is [null] adds nothing. *)
Definition calculate_route_params (args : UncheckedArgs.t) : UncheckedParams.t :=
  let waypoints := JS.defaulted [] (UncheckedArgs.waypoints args) in
  let options := JS.defaulted no_options (UncheckedArgs.options args) in
  let spread := match options with Some o => o | None => no_options end in
  {| UncheckedParams.origin := UncheckedArgs.origin args;
     UncheckedParams.destination := UncheckedArgs.destination args;
     UncheckedParams.waypoints := JS.written waypoints;
     UncheckedParams.alternatives := None;
     UncheckedParams.avoidTolls := RouteOptions.avoidTolls spread;
     UncheckedParams.avoidHighways := RouteOptions.avoidHighways spread;
     UncheckedParams.avoidFerries := RouteOptions.avoidFerries spread;
     UncheckedParams.departureTime := RouteOptions.departureTime spread;
     UncheckedParams.trafficModel := RouteOptions.trafficModel spread |}.

(** [handleCalculateRoute]: [options.trafficModel] is read when the result
    is built, after the route has come back. *)
Definition handleCalculateRoute `{Host} `{Server} (args : option UncheckedArgs.t)
  : M ToolResult.t :=
  match args with
  | None => throw (TypeError_destructure "origin")
  | Some args =>
      let options := JS.defaulted no_options (UncheckedArgs.options args) in
      route <- calculateRoute googleMaps (calculate_route_params args) ;;
      timestamp <- timestamp_now ;;
      match options with
      | None => throw (TypeError_reading_null "trafficModel")
      | Some options =>
          ret (text_result
                 (OfRoute
                    {| RouteResult.success := true;
                       RouteResult.route :=
                         {| RouteView.summary := Route.summary route;
                            RouteView.distance := Route.distance route;
                            RouteView.duration := Route.duration route;
                            RouteView.durationInTraffic := Route.durationInTraffic route;
                            RouteView.polyline := Route.polyline route;
                            RouteView.steps := Route.steps route;
                            RouteView.warnings := Route.warnings route;
                            RouteView.tollInfo := Route.tollInfo route |};
                       RouteResult.metadata :=
                         {| RouteMetadata.timestamp := timestamp;
                            RouteMetadata.trafficModel :=
                              JS.or_string (RouteOptions.trafficModel options)
                                "best_guess" |} |}))
      end
  end.

(** The default query of [handleCompareRoutes]. *)
Definition default_route_params (args : UncheckedArgs.t) : UncheckedParams.t :=
  {| UncheckedParams.origin := UncheckedArgs.origin args;
     UncheckedParams.destination := UncheckedArgs.destination args;
     UncheckedParams.waypoints :=
       JS.written (JS.defaulted [] (UncheckedArgs.waypoints args));
     UncheckedParams.alternatives := Some true;
     UncheckedParams.avoidTolls := None;
     UncheckedParams.avoidHighways := None;
     UncheckedParams.avoidFerries := None;
     UncheckedParams.departureTime := None;
     UncheckedParams.trafficModel := None |}.

(** The query of [handleCompareRoutes] for one element of [compareOptions]. *)
Definition option_route_params (args : UncheckedArgs.t) (option : CompareOption.t)
  : UncheckedParams.t :=
  {| UncheckedParams.origin := UncheckedArgs.origin args;
     UncheckedParams.destination := UncheckedArgs.destination args;
     UncheckedParams.waypoints :=
       JS.written (JS.defaulted [] (UncheckedArgs.waypoints args));
     UncheckedParams.alternatives := None;
     UncheckedParams.avoidTolls := CompareOption.avoidTolls option;
     UncheckedParams.avoidHighways := CompareOption.avoidHighways option;
     UncheckedParams.avoidFerries := None;
     UncheckedParams.departureTime := None;
     UncheckedParams.trafficModel := CompareOption.trafficModel option |}.

(** [handleCompareRoutes]: the default query is started and pushed before
    the loop; on a [compareOptions] that is [null] the loop raises, and the
    promise that was pushed is never awaited. *)
Definition handleCompareRoutes `{Host} `{Server} (args : option UncheckedArgs.t)
  : P ToolResult.t :=
  match args with
  | None => Async.throw (TypeError_destructure "origin")
  | Some args =>
      let compareOptions := JS.defaulted [] (UncheckedArgs.compareOptions args) in
      (default <- Async.start (calculateRoute googleMaps (default_route_params args)) ;;
       match compareOptions with
       | None =>
           Async.abandon [default] ;;;
           Async.throw (TypeError_not_iterable "compareOptions")
       | Some compareOptions =>
           others <- Async.start_all
                       (map (fun option =>
                               calculateRoute googleMaps (option_route_params args option))
                          compareOptions) ;;
           Async.await
             (routes <- lift (all_fulfilled (default :: others)) ;;
              comparison <- lift (compare_and_rank compareOptions routes) ;;
              timestamp <- timestamp_now ;;
              ret (text_result
                     (OfCompare
                        {| CompareResult.success := true;
                           CompareResult.comparison := comparison;
                           CompareResult.metadata :=
                             {| CompareMetadata.timestamp := timestamp;
                                CompareMetadata.routesCompared :=
                                  List.length routes |} |})))%js
       end)%async
  end.

(** The arguments read at their declared types: a property that is [null]
    is read as one that is not written. *)
Definition checked (args : UncheckedArgs.t) : Args.t :=
  let value {A : Type} (p : JS.property A) : option A :=
    match p with
    | JS.Holds a => Some a
    | JS.Missing | JS.IsNull => None
    end in
  {| Args.origin := UncheckedArgs.origin args;
     Args.destination := UncheckedArgs.destination args;
     Args.waypoints := value (UncheckedArgs.waypoints args);
     Args.options := value (UncheckedArgs.options args);
     Args.alternatives := UncheckedArgs.alternatives args;
     Args.compareOptions := value (UncheckedArgs.compareOptions args);
     Args.departureTime := UncheckedArgs.departureTime args;
     Args.route := UncheckedArgs.route args;
     Args.vehicleOptions := value (UncheckedArgs.vehicleOptions args) |}.

(** [handleGetLiveTraffic] reads [origin], [destination] and
    [departureTime] only. *)
Definition handleGetLiveTraffic `{Host} `{Server} (args : option UncheckedArgs.t)
  : M ToolResult.t :=
  handleGetLiveTraffic (option_map checked args).

(** [handleEstimateCosts]: [vehicleOptions.fuelEfficiency] is read by
    [calculateTripCosts], once the route is there. *)
Definition handleEstimateCosts `{Host} `{Server} (args : option UncheckedArgs.t)
  : M ToolResult.t :=
  match args with
  | None => throw (TypeError_destructure "route")
  | Some args =>
      let vehicleOptions :=
        JS.defaulted no_vehicle_options (UncheckedArgs.vehicleOptions args) in
      routeData <- resolve_route (checked args) ;;
      match routeData with
      | None => throw "No route data available for cost estimation"
      | Some routeData =>
          match vehicleOptions with
          | None => throw (TypeError_reading_null "fuelEfficiency")
          | Some vehicleOptions =>
              timestamp <- timestamp_now ;;
              ret (text_result (OfCosts (costs_result routeData vehicleOptions timestamp)))
          end
      end
  end.

(** The [switch] on the name of the tool. *)
Definition dispatch `{Host} `{Server} (name : string) (args : option UncheckedArgs.t)
  : P ToolResult.t :=
  dispatch_with
    (fun args => Async.await (handleCalculateRoute args))
    handleCompareRoutes
    (fun args => Async.await (handleGetLiveTraffic args))
    (fun args => Async.await (handleEstimateCosts args))
    name args.

(** The handler registered for [CallToolRequestSchema]. *)
Definition callTool `{Host} `{Server} (name : string) (args : option UncheckedArgs.t)
  : P ToolResult.t :=
  callTool_with
    (fun args => Async.await (handleCalculateRoute args))
    handleCompareRoutes
    (fun args => Async.await (handleGetLiveTraffic args))
    (fun args => Async.await (handleEstimateCosts args))
    name args.

End Unchecked.

(** ** Notions used to state the properties *)

(** The delay ratio of the traffic classifier. *)
Definition delay_ratio (duration durationInTraffic : float) : float :=
  ((durationInTraffic - duration) / duration)%float.

(** The classifier as the specification words it, a step function of the
    delay ratio: below 0.10 light, below 0.30 moderate, below 0.50 heavy,
    severe otherwise. *)
Definition classify_ratio (ratio : float) : TrafficCondition :=
  if (ratio <? 0.1)%float then light
  else if (ratio <? 0.3)%float then moderate
  else if (ratio <? 0.5)%float then heavy
  else severe.

Definition severity (c : TrafficCondition) : nat :=
  match c with
  | light => 0
  | moderate => 1
  | heavy => 2
  | severe => 3
  end.

(** [r] is the element of [l] with the least [key], and the first of them
    in the order of [l] when several have the least key. *)
Definition first_minimum {A : Type} (key : A -> float) (l : list A) (r : A) : Prop :=
  exists i,
    nth_error l i = Some r /\
    (forall j x, nth_error l j = Some x -> (key r <=? key x)%float = true) /\
    (forall j x, (j < i)%nat -> nth_error l j = Some x -> (key r <? key x)%float = true).

(** The step of a reduction that keeps the element with the smaller key,
    and the one already held when the keys are equal. *)
Definition pick {A : Type} (key : A -> float) (best current : A) : A :=
  if (key current <? key best)%float then current else best.

(** Every element of [l] has a key that is a number. *)
Definition keys_are_numbers {A : Type} (key : A -> float) (l : list A) : Prop :=
  Forall (fun x => JS.is_number (key x) = true) l.

(** The arguments [args] with the property [alternatives] set to [a]. *)
Definition with_alternatives (a : option bool) (args : Args.t) : Args.t :=
  {| Args.origin := Args.origin args;
     Args.destination := Args.destination args;
     Args.waypoints := Args.waypoints args;
     Args.options := Args.options args;
     Args.alternatives := a;
     Args.compareOptions := Args.compareOptions args;
     Args.departureTime := Args.departureTime args;
     Args.route := Args.route args;
     Args.vehicleOptions := Args.vehicleOptions args |}.

(** The arguments [args] with the properties [origin] and [destination] set. *)
Definition with_endpoints (origin destination : option string) (args : Args.t) : Args.t :=
  {| Args.origin := origin;
     Args.destination := destination;
     Args.waypoints := Args.waypoints args;
     Args.options := Args.options args;
     Args.alternatives := Args.alternatives args;
     Args.compareOptions := Args.compareOptions args;
     Args.departureTime := Args.departureTime args;
     Args.route := Args.route args;
     Args.vehicleOptions := Args.vehicleOptions args |}.

(** What [calculateRoute] makes of the answer to its query. *)
Definition route_of_reply (reply : outcome (list RawRoute.t)) : outcome Route.t :=
  match reply with
  | Throw message => Throw ("Google Maps API error: " ++ message)
  | Return [] => Throw "Google Maps API error: No route found"
  | Return (route :: _) =>
      match formatRouteResponse route with
      | Return formatted => Return formatted
      | Throw message => Throw ("Google Maps API error: " ++ message)
      end
  end.

(** A query delivers when the service answers it with a first route that
    has a first leg; it fails when the service rejects it or answers with no
    route or with a route that has no leg. *)
Definition delivers (reply : outcome (list RawRoute.t)) : bool :=
  match reply with
  | Return (route :: _) =>
      match RawRoute.legs route with
      | _ :: _ => true
      | [] => false
      end
  | Return [] | Throw _ => false
  end.

(** What one turn of the loop of [getAlternativeTimes] makes of the answer
    to its query. *)
Definition sample_of_reply (reply : outcome (list RawRoute.t)) : outcome float :=
  match reply with
  | Throw message => Throw message
  | Return routes => alternative_duration routes
  end.

(** The [i]-th supplementary query of [getAlternativeTimes] (from 0) when
    [k] queries were sent before the call, its departure time, and the
    answer it gets. *)
Definition sample_departure `{Host} (k i : nat) (offset : Z) : JS.Date :=
  JS.DateOfMillis (Date_now (k + i) + offset * 1000).

Definition sample_query `{Host} (this : GoogleMapsService.t)
  (origin destination : option string) (k i : nat) (offset : Z) : Directions.params :=
  traffic_query this origin destination (DepartAt (sample_departure k i offset)).

Definition sample_reply `{Host} (this : GoogleMapsService.t)
  (origin destination : option string) (k i : nat) (offset : Z)
  : outcome (list RawRoute.t) :=
  GoogleMapsService.client this (k + i) (sample_query this origin destination k i offset).

(** The line that [console.warn] writes for a failed sample. *)
Definition sample_warning (offset : Z) (message : string) : string :=
  "Failed to get alternative time for " ++ offset_label offset ++ ": " ++ message.

(** What [getAlternativeTimes] is expected to return when [k] queries were
    sent before the call: one entry for each sample whose query delivers a
    duration, in the order of the offsets. *)
Definition sample_entries `{Host} (this : GoogleMapsService.t)
  (origin destination : option string) (k : nat)
  : list (string * AlternativeTime.t) :=
  List.concat
    (JS.mapi
       (fun offset i =>
          match sample_of_reply (sample_reply this origin destination k i offset) with
          | Return duration =>
              [ (offset_label offset,
                 {| AlternativeTime.duration := duration;
                    AlternativeTime.departureTime :=
                      toISOString (sample_departure k i offset) |}) ]
          | Throw _ => []
          end)
       timeOffsets).

(** The warnings it is expected to write: one for each sample that fails. *)
Definition sample_warnings `{Host} (this : GoogleMapsService.t)
  (origin destination : option string) (k : nat) : list string :=
  List.concat
    (JS.mapi
       (fun offset i =>
          match sample_of_reply (sample_reply this origin destination k i offset) with
          | Return _ => []
          | Throw message => [ sample_warning offset message ]
          end)
       timeOffsets).

(** The queries it is expected to send. *)
Definition sample_queries `{Host} (this : GoogleMapsService.t)
  (origin destination : option string) (k : nat) : list Directions.params :=
  JS.mapi (fun offset i => sample_query this origin destination k i offset) timeOffsets.

(** The parameters of the queries of [handleCompareRoutes], in order. *)
Definition compared_params (args : Args.t) : list RouteParams.t :=
  default_route_params args
  :: map (option_route_params args)
         match Args.compareOptions args with Some l => l | None => [] end.

(** The settled promises of [handleCompareRoutes] when [k] queries were sent
    before the call. *)
Definition compared_replies `{Server} (args : Args.t) (k : nat) : list (outcome Route.t) :=
  JS.mapi_from k
    (fun p i =>
       route_of_reply
         (GoogleMapsService.client googleMaps i (calculateRoute_query googleMaps p)))
    (compared_params args).

(** The world after the queries of [handleCompareRoutes]. *)
Definition compared_world `{Server} (args : Args.t) (w : World) : World :=
  {| issued := issued w ++ map (calculateRoute_query googleMaps) (compared_params args);
     console := console w |}.

(** Does a warning mention a toll, whatever the case of its letters? *)
Definition mentions_toll (warning : string) : bool :=
  JS.includes (JS.toLowerCase warning) "toll".

(** The warnings of a route of the service, [[]] when it has none. *)
Definition warnings_of (route : RawRoute.t) : list string :=
  match RawRoute.warnings route with
  | Some warnings => warnings
  | None => []
  end.

(** The tool whose handler builds a payload. *)
Definition tool_of (payload : Payload) : string :=
  match payload with
  | OfRoute _ => "calculate_route"
  | OfCompare _ => "compare_routes"
  | OfTraffic _ => "get_live_traffic"
  | OfCosts _ => "estimate_costs"
  end.


(** The argument that [handleCalculateRoute] gives to [calculateRoute]. *)
Definition calculate_route_params (args : Args.t) : RouteParams.t :=
  let options := match Args.options args with Some o => o | None => no_options end in
  {| RouteParams.origin := Args.origin args;
     RouteParams.destination := Args.destination args;
     RouteParams.waypoints :=
       Some match Args.waypoints args with Some l => l | None => [] end;
     RouteParams.alternatives := None;
     RouteParams.avoidTolls := RouteOptions.avoidTolls options;
     RouteParams.avoidHighways := RouteOptions.avoidHighways options;
     RouteParams.avoidFerries := RouteOptions.avoidFerries options;
     RouteParams.departureTime := RouteOptions.departureTime options;
     RouteParams.trafficModel := RouteOptions.trafficModel options |}.

(** The argument that [handleGetLiveTraffic] gives to [getTrafficInfo]. *)
Definition live_traffic_params (args : Args.t) : TrafficParams.t :=
  {| TrafficParams.origin := Args.origin args;
     TrafficParams.destination := Args.destination args;
     TrafficParams.departureTime :=
       Some match Args.departureTime args with Some text => text | None => "now" end |}.

(** Is [name] one of the tools? *)
Definition is_tool (name : string) : bool := existsb (String.eqb name) tool_names.

(** What each handler answers: its payload, or a message of its own kind. *)
Definition answers `{Host} (name : string) (outcome_of_call : outcome ToolResult.t)
  (expected : string -> Prop) : Prop :=
  match outcome_of_call with
  | Return result => exists payload, result = text_result payload /\ tool_of payload = name
  | Throw message => expected message
  end.

(** The messages with which a call of the tool [name] can fail. *)
Definition failure_of (name : string) (args : option Args.t) (message : string) : Prop :=
  (is_tool name = false /\ message = ("Unknown tool: " ++ name)%string) \/
  (is_tool name = true /\ args = None /\
   prefix "Cannot destructure property " message = true) \/
  (In name ["calculate_route"; "compare_routes"; "estimate_costs"] /\
   prefix "Google Maps API error: " message = true) \/
  (name = "get_live_traffic" /\ prefix "Traffic info error: " message = true) \/
  (name = "estimate_costs" /\ message = "No route data available for cost estimation").

(** The durations of a leg are non-negative numbers of seconds, as the
    directions service documents them. *)
Definition nonnegative_durations (leg : Leg.t) : Prop :=
  (0 <=? TextValue.value (Leg.duration leg))%float = true /\
  forall in_traffic,
    Leg.duration_in_traffic leg = Some in_traffic ->
    (0 <=? TextValue.value in_traffic)%float = true.

(** Is a property [null]? *)
Definition is_null {A : Type} (p : JS.property A) : bool :=
  match p with
  | JS.IsNull => true
  | JS.Missing | JS.Holds _ => false
  end.

(** The arguments have the declared types: none of the properties that hold
    an array or an object is [null]. *)
Definition conforms (args : UncheckedArgs.t) : bool :=
  negb (is_null (UncheckedArgs.waypoints args))
  && negb (is_null (UncheckedArgs.options args))
  && negb (is_null (UncheckedArgs.compareOptions args))
  && negb (is_null (UncheckedArgs.vehicleOptions args)).


(** The messages with which a call of the tool [name] can fail when its
    arguments are not checked: those of [failure_of], and the [TypeError]
    of each place where a [null] is read after the queries were sent. *)
Definition failure_of_unchecked (name : string) (args : option UncheckedArgs.t)
  (message : string) : Prop :=
  failure_of name (option_map Unchecked.checked args) message \/
  (exists given,
     args = Some given /\
     ((name = "calculate_route" /\ UncheckedArgs.options given = JS.IsNull /\
       message = TypeError_reading_null "trafficModel") \/
      (name = "compare_routes" /\ UncheckedArgs.compareOptions given = JS.IsNull /\
       message = TypeError_not_iterable "compareOptions") \/
      (name = "estimate_costs" /\ UncheckedArgs.vehicleOptions given = JS.IsNull /\
       message = TypeError_reading_null "fuelEfficiency"))).

(** A float as a key in a lexicographic order on triples of integers that
    agrees with the comparison of floats that are numbers. *)
Definition SFkey (f : spec_float) : Z * Z * Z :=
  match f with
  | S754_nan => (0, 0, 0)
  | S754_zero _ => (0, 0, 0)
  | S754_infinity s => (if s then -2 else 2, 0, 0)
  | S754_finite s m e => if s then (-1, - e, Z.neg m) else (1, e, Z.pos m)
  end%Z.

Definition key_lt (a b : Z * Z * Z) : Prop :=
  let '(a1, a2, a3) := a in
  let '(b1, b2, b3) := b in
  (a1 < b1 \/ (a1 = b1 /\ (a2 < b2 \/ (a2 = b2 /\ a3 < b3))))%Z.

Definition key_le (a b : Z * Z * Z) : Prop :=
  let '(a1, a2, a3) := a in
  let '(b1, b2, b3) := b in
  (a1 < b1 \/ (a1 = b1 /\ (a2 < b2 \/ (a2 = b2 /\ a3 <= b3))))%Z.

Definition float_key (x : float) : Z * Z * Z := SFkey (Prim2SF x).

(** ** Sample data *)

Module Sample.

Definition quantity (text : string) (value : float) : TextValue.t :=
  {| TextValue.text := text; TextValue.value := value |}.

Definition bounds : Bounds.t :=
  {| Bounds.northeast := {| LatLng.lat := 42.4; LatLng.lng := (-71.0) |};
     Bounds.southwest := {| LatLng.lat := 40.7; LatLng.lng := (-74.0) |} |}.

Definition step : RawStep.t :=
  {| RawStep.html_instructions := "Turn <b>left</b> onto Main St";
     RawStep.distance := quantity "0.5 km" 500;
     RawStep.duration := quantity "1 min" 60;
     RawStep.maneuver := Some "turn-left" |}.

(** A leg of 100 km and one hour, with or without a duration in traffic. *)
Definition leg (in_traffic : option float) : Leg.t :=
  {| Leg.distance := quantity "100 km" 100000;
     Leg.duration := quantity "1 hour" 3600;
     Leg.duration_in_traffic :=
       match in_traffic with
       | Some seconds => Some (quantity "in traffic" seconds)
       | None => None
       end;
     Leg.steps := [step] |}.

Definition raw_route (in_traffic : option float) : RawRoute.t :=
  {| RawRoute.summary := "I-95 N";
     RawRoute.legs := [leg in_traffic];
     RawRoute.overview_polyline := "a~l~Fjk~uOwHJy@P";
     RawRoute.warnings := None;
     RawRoute.bounds := bounds;
     RawRoute.copyrights := "Map data" |}.

(** A route of the service with no leg. *)
Definition legless_route : RawRoute.t :=
  {| RawRoute.summary := "";
     RawRoute.legs := [];
     RawRoute.overview_polyline := "";
     RawRoute.warnings := None;
     RawRoute.bounds := bounds;
     RawRoute.copyrights := "" |}.

(** The normalized route of [raw_route None]. *)
Definition route : Route.t :=
  match formatRouteResponse (raw_route None) with
  | Return formatted => formatted
  | Throw _ =>
      {| Route.summary := ""; Route.distance := 0; Route.duration := 0;
         Route.durationInTraffic := 0; Route.polyline := ""; Route.steps := [];
         Route.warnings := []; Route.tollInfo := None; Route.bounds := bounds;
         Route.copyrights := "" |}
  end.

(** The same route as a caller could supply it, with no [tollInfo]. *)
Definition route_without_tollInfo : Route.t :=
  {| Route.summary := Route.summary route;
     Route.distance := Route.distance route;
     Route.duration := Route.duration route;
     Route.durationInTraffic := Route.durationInTraffic route;
     Route.polyline := Route.polyline route;
     Route.steps := Route.steps route;
     Route.warnings := Route.warnings route;
     Route.tollInfo := None;
     Route.bounds := Route.bounds route;
     Route.copyrights := Route.copyrights route |}.

Definition host : Host :=
  {| Date_now := fun k => (1700000000000 + 1000 * Z.of_nat k)%Z;
     toISOString :=
       fun d => match d with
                | JS.DateOfString s => s
                | JS.DateOfMillis ms => JS.Z_toString ms
                end;
     JSON_stringify :=
       fun p => match p with
                | OfRoute _ => "{route}"
                | OfCompare _ => "{comparison}"
                | OfTraffic _ => "{traffic}"
                | OfCosts _ => "{costs}"
                end;
     Number_toString := fun _ => "#";
     toFixed := fun _ _ => "#" |}.

(** A service that answers every query with the route [raw_route None]. *)
Definition steady_service : GoogleMapsService.t :=
  {| GoogleMapsService.client := fun _ _ => Return [raw_route None];
     GoogleMapsService.apiKey := "key" |}.

(** A service that finds no route. *)
Definition empty_service : GoogleMapsService.t :=
  {| GoogleMapsService.client := fun _ _ => Return [];
     GoogleMapsService.apiKey := "key" |}.

(** A service that rejects every query with the message [message]. *)
Definition rejecting_service (message : string) : GoogleMapsService.t :=
  {| GoogleMapsService.client := fun _ _ => Throw message;
     GoogleMapsService.apiKey := "key" |}.

(** A route of the service with the given summary and duration in
    traffic. *)
Definition named_route (summary : string) (in_traffic : float) : RawRoute.t :=
  {| RawRoute.summary := summary;
     RawRoute.legs := [leg (Some in_traffic)];
     RawRoute.overview_polyline := "a~l~Fjk~uOwHJy@P";
     RawRoute.warnings := Some ["This route has tolls."];
     RawRoute.bounds := bounds;
     RawRoute.copyrights := "Map data" |}.

(** A service that follows a script: the [k]-th query is answered with the
    [k]-th route of the script, given by its summary and its duration in
    traffic, and the queries after the script are rejected. *)
Definition scripted_service (script : list (string * float)) : GoogleMapsService.t :=
  {| GoogleMapsService.client :=
       fun k _ =>
         match nth_error script k with
         | Some (summary, in_traffic) => Return [named_route summary in_traffic]
         | None => Throw "Request failed with status code 403"
         end;
     GoogleMapsService.apiKey := "key" |}.

(** Three answers, the last two as fast as each other. *)
Definition three_routes : list (string * float) :=
  [("I-95 N", 3000%float); ("I-90 E", 2400%float); ("US-1 N", 2400%float)].

(** The cost figures of the README. *)
Definition costs : CostsConfig.t :=
  {| CostsConfig.fuelPricePerLiter := 1.5;
     CostsConfig.vehicleFuelEfficiency := 8;
     CostsConfig.tollEstimatePerKm := 0.05 |}.

Definition server (service : GoogleMapsService.t) : Server :=
  {| config := {| Config.costs := costs |}; googleMaps := service |}.

Definition world : World := {| issued := []; console := [] |}.

Definition no_args : Args.t :=
  {| Args.origin := None;
     Args.destination := None;
     Args.waypoints := None;
     Args.options := None;
     Args.alternatives := None;
     Args.compareOptions := None;
     Args.departureTime := None;
     Args.route := None;
     Args.vehicleOptions := None |}.

Definition trip : Args.t :=
  with_endpoints (Some "New York, NY") (Some "Boston, MA") no_args.

Definition compare_option (avoidTolls : bool) : CompareOption.t :=
  {| CompareOption.avoidTolls := Some avoidTolls;
     CompareOption.avoidHighways := None;
     CompareOption.trafficModel := None |}.

(** A comparison of the default route with two options. *)
Definition comparison_args : Args.t :=
  {| Args.origin := Some "New York, NY";
     Args.destination := Some "Boston, MA";
     Args.waypoints := None;
     Args.options := None;
     Args.alternatives := None;
     Args.compareOptions := Some [compare_option true; compare_option false];
     Args.departureTime := None;
     Args.route := None;
     Args.vehicleOptions := None |}.

Definition vehicle : VehicleOptions.t :=
  {| VehicleOptions.fuelEfficiency := JS.Num 8;
     VehicleOptions.fuelPrice := JS.Num 1.5 |}.

Definition route_params : RouteParams.t := estimate_route_params trip.

(** Traffic data with the given duration and duration in traffic. *)
Definition traffic_data (duration durationInTraffic : float) : TrafficInfo.t :=
  {| TrafficInfo.duration := duration;
     TrafficInfo.durationInTraffic := durationInTraffic;
     TrafficInfo.route := route;
     TrafficInfo.alternativeTimes := [] |}.

(** The process before the call: nothing sent, nothing unhandled. *)
Definition process : Process.t :=
  {| Process.world := world; Process.unhandled := [] |}.

(** The arguments of a trip, as a caller writes them. *)
Definition unchecked_trip : UncheckedArgs.t :=
  {| UncheckedArgs.origin := Some "New York, NY";
     UncheckedArgs.destination := Some "Boston, MA";
     UncheckedArgs.waypoints := JS.Missing;
     UncheckedArgs.options := JS.Missing;
     UncheckedArgs.alternatives := None;
     UncheckedArgs.compareOptions := JS.Missing;
     UncheckedArgs.departureTime := None;
     UncheckedArgs.route := None;
     UncheckedArgs.vehicleOptions := JS.Missing |}.

(** The same with [compareOptions: null]. *)
Definition null_compareOptions : UncheckedArgs.t :=
  {| UncheckedArgs.origin := Some "New York, NY";
     UncheckedArgs.destination := Some "Boston, MA";
     UncheckedArgs.waypoints := JS.Missing;
     UncheckedArgs.options := JS.Missing;
     UncheckedArgs.alternatives := None;
     UncheckedArgs.compareOptions := JS.IsNull;
     UncheckedArgs.departureTime := None;
     UncheckedArgs.route := None;
     UncheckedArgs.vehicleOptions := JS.Missing |}.

(** The same with [waypoints: null]. *)
Definition null_waypoints : UncheckedArgs.t :=
  {| UncheckedArgs.origin := Some "New York, NY";
     UncheckedArgs.destination := Some "Boston, MA";
     UncheckedArgs.waypoints := JS.IsNull;
     UncheckedArgs.options := JS.Missing;
     UncheckedArgs.alternatives := None;
     UncheckedArgs.compareOptions := JS.Missing;
     UncheckedArgs.departureTime := None;
     UncheckedArgs.route := None;
     UncheckedArgs.vehicleOptions := JS.Missing |}.

(** The same with [options: null]. *)
Definition null_options : UncheckedArgs.t :=
  {| UncheckedArgs.origin := Some "New York, NY";
     UncheckedArgs.destination := Some "Boston, MA";
     UncheckedArgs.waypoints := JS.Missing;
     UncheckedArgs.options := JS.IsNull;
     UncheckedArgs.alternatives := None;
     UncheckedArgs.compareOptions := JS.Missing;
     UncheckedArgs.departureTime := None;
     UncheckedArgs.route := None;
     UncheckedArgs.vehicleOptions := JS.Missing |}.

(** A route to cost, with [vehicleOptions: null]. *)
Definition null_vehicleOptions : UncheckedArgs.t :=
  {| UncheckedArgs.origin := None;
     UncheckedArgs.destination := None;
     UncheckedArgs.waypoints := JS.Missing;
     UncheckedArgs.options := JS.Missing;
     UncheckedArgs.alternatives := None;
     UncheckedArgs.compareOptions := JS.Missing;
     UncheckedArgs.departureTime := None;
     UncheckedArgs.route := Some route;
     UncheckedArgs.vehicleOptions := JS.IsNull |}.

(** The argument [{ origin, destination }] of [calculateRoute]. *)
Definition unchecked_route_params : UncheckedParams.t :=
  {| UncheckedParams.origin := Some "New York, NY";
     UncheckedParams.destination := Some "Boston, MA";
     UncheckedParams.waypoints := JS.Missing;
     UncheckedParams.alternatives := None;
     UncheckedParams.avoidTolls := None;
     UncheckedParams.avoidHighways := None;
     UncheckedParams.avoidFerries := None;
     UncheckedParams.departureTime := None;
     UncheckedParams.trafficModel := None |}.

End Sample.

(** * Properties *)

(** ** Examples of the runtime functions *)

Example strip_tags_instruction :
  JS.strip_tags "Turn <b>left</b> onto Main St" = "Turn left onto Main St".
Proof. reflexivity. Qed.

Example strip_tags_unclosed : JS.strip_tags "a < b" = "a < b".
Proof. reflexivity. Qed.

Example Math_round_ties :
  JS.Math_round 2.5%float = 3%float /\ JS.Math_round (-2.5)%float = (-2)%float.
Proof. split; reflexivity. Qed.

Example offset_labels :
  map offset_label timeOffsets = ["+30min"; "+60min"; "+120min"].
Proof. reflexivity. Qed.

(** ** The order of floats *)

Section FloatOrder.

#[local] Open Scope Z_scope.

Lemma SFltb_key (f g : spec_float) :
  f <> S754_nan -> g <> S754_nan ->
  SFltb f g = true <-> key_lt (SFkey f) (SFkey g).
Proof.
  intros Hf Hg. unfold SFltb, SFcompare, key_lt, SFkey.
  destruct f as [sf | sf | | sf mf ef], g as [sg | sg | | sg mg eg];
    try congruence;
    try destruct sf; try destruct sg; cbn;
    try (split; [ discriminate | lia ]);
    try (split; [ lia | reflexivity ]).
  all: change (Pos.compare_cont Eq mf mg) with (Pos.compare mf mg).
  all: destruct (Z.compare_spec ef eg); destruct (Pos.compare_spec mf mg); cbn;
    split; try discriminate; try reflexivity; lia.
Qed.

Lemma SFleb_key (f g : spec_float) :
  f <> S754_nan -> g <> S754_nan ->
  SFleb f g = true <-> key_le (SFkey f) (SFkey g).
Proof.
  intros Hf Hg. unfold SFleb, SFcompare, key_le, SFkey.
  destruct f as [sf | sf | | sf mf ef], g as [sg | sg | | sg mg eg];
    try congruence;
    try destruct sf; try destruct sg; cbn;
    try (split; [ discriminate | lia ]);
    try (split; [ lia | reflexivity ]).
  all: change (Pos.compare_cont Eq mf mg) with (Pos.compare mf mg).
  all: destruct (Z.compare_spec ef eg); destruct (Pos.compare_spec mf mg); cbn;
    split; try discriminate; try reflexivity; lia.
Qed.

Lemma is_number_not_nan (x : float) :
  JS.is_number x = true <-> Prim2SF x <> S754_nan.
Proof.
  unfold JS.is_number. rewrite FloatAxioms.eqb_spec. split.
  - intros E N. rewrite N in E. discriminate.
  - intros N. unfold SFeqb.
    assert (L : SFleb (Prim2SF x) (Prim2SF x) = true)
      by (apply SFleb_key; trivial; unfold key_le; destruct (SFkey (Prim2SF x)) as [[a b] c]; lia).
    assert (G : SFltb (Prim2SF x) (Prim2SF x) = false).
    { destruct (SFltb (Prim2SF x) (Prim2SF x)) eqn:E; trivial.
      apply SFltb_key in E; trivial. unfold key_lt in E.
      destruct (SFkey (Prim2SF x)) as [[a b] c]. lia. }
    unfold SFleb in L. unfold SFltb in G.
    destruct (SFcompare (Prim2SF x) (Prim2SF x)) as [[ | | ] | ]; congruence.
Qed.

Lemma float_ltb_key (x y : float) :
  JS.is_number x = true -> JS.is_number y = true ->
  (x <? y)%float = true <-> key_lt (float_key x) (float_key y).
Proof.
  intros Hx Hy. rewrite FloatAxioms.ltb_spec.
  apply SFltb_key; apply is_number_not_nan; assumption.
Qed.

Lemma float_leb_key (x y : float) :
  JS.is_number x = true -> JS.is_number y = true ->
  (x <=? y)%float = true <-> key_le (float_key x) (float_key y).
Proof.
  intros Hx Hy. rewrite FloatAxioms.leb_spec.
  apply SFleb_key; apply is_number_not_nan; assumption.
Qed.

Lemma float_ltb_numbers (x y : float) :
  (x <? y)%float = true -> JS.is_number x = true /\ JS.is_number y = true.
Proof.
  rewrite FloatAxioms.ltb_spec. intros E.
  split; apply is_number_not_nan; intros N; rewrite N in E;
    unfold SFltb, SFcompare in E; destruct (Prim2SF _); discriminate.
Qed.

Lemma float_leb_numbers (x y : float) :
  (x <=? y)%float = true -> JS.is_number x = true /\ JS.is_number y = true.
Proof.
  rewrite FloatAxioms.leb_spec. intros E.
  split; apply is_number_not_nan; intros N; rewrite N in E;
    unfold SFleb, SFcompare in E; destruct (Prim2SF _); discriminate.
Qed.

End FloatOrder.

(** The facts on the order of numbers that the proofs below use. *)

Ltac float_order :=
  unfold float_key in *;
  repeat match goal with
         | |- context [SFkey ?f] =>
             let a := fresh "a" in let b := fresh "b" in let c := fresh "c" in
             destruct (SFkey f) as [[a b] c]
         | H : context [SFkey ?f] |- _ =>
             let a := fresh "a" in let b := fresh "b" in let c := fresh "c" in
             destruct (SFkey f) as [[a b] c]
         end;
  unfold key_lt, key_le in *; lia.

Lemma float_leb_refl (x : float) : JS.is_number x = true -> (x <=? x)%float = true.
Proof. intros Hx. apply float_leb_key; trivial. float_order. Qed.

Lemma float_not_ltb_leb (x y : float) :
  JS.is_number x = true -> JS.is_number y = true ->
  (x <? y)%float = false -> (y <=? x)%float = true.
Proof.
  intros Hx Hy E. apply float_leb_key; trivial.
  assert (N : ~ key_lt (float_key x) (float_key y)).
  { intros K. apply float_ltb_key in K; trivial. congruence. }
  float_order.
Qed.

Lemma float_ltb_leb (x y : float) : (x <? y)%float = true -> (x <=? y)%float = true.
Proof.
  intros E. destruct (float_ltb_numbers _ _ E) as [Hx Hy].
  apply float_leb_key; trivial. apply float_ltb_key in E; trivial. float_order.
Qed.

Lemma float_leb_trans (x y z : float) :
  (x <=? y)%float = true -> (y <=? z)%float = true -> (x <=? z)%float = true.
Proof.
  intros E F. destruct (float_leb_numbers _ _ E) as [Hx Hy], (float_leb_numbers _ _ F) as [_ Hz].
  apply float_leb_key; trivial. apply float_leb_key in E, F; trivial. float_order.
Qed.

Lemma float_ltb_leb_trans (x y z : float) :
  (x <? y)%float = true -> (y <=? z)%float = true -> (x <? z)%float = true.
Proof.
  intros E F. destruct (float_ltb_numbers _ _ E) as [Hx Hy], (float_leb_numbers _ _ F) as [_ Hz].
  apply float_ltb_key; trivial. apply float_ltb_key in E; trivial. apply float_leb_key in F; trivial.
  float_order.
Qed.

Lemma float_leb_ltb_trans (x y z : float) :
  (x <=? y)%float = true -> (y <? z)%float = true -> (x <? z)%float = true.
Proof.
  intros E F. destruct (float_leb_numbers _ _ E) as [Hx Hy], (float_ltb_numbers _ _ F) as [_ Hz].
  apply float_ltb_key; trivial. apply float_leb_key in E; trivial. apply float_ltb_key in F; trivial.
  float_order.
Qed.

(** ** The traffic classifier *)

Lemma classify_ratio_monotone (r1 r2 : float) :
  (r1 <=? r2)%float = true ->
  severity (classify_ratio r1) <= severity (classify_ratio r2).
Proof.
  intros L. unfold classify_ratio.
  destruct (r2 <? 0.1)%float eqn:E1.
  { rewrite (float_leb_ltb_trans _ _ _ L E1). apply Nat.le_refl. }
  destruct (r2 <? 0.3)%float eqn:E2.
  { rewrite (float_leb_ltb_trans _ _ _ L E2). destruct (r1 <? 0.1)%float; cbn; lia. }
  destruct (r2 <? 0.5)%float eqn:E3.
  { rewrite (float_leb_ltb_trans _ _ _ L E3).
    destruct (r1 <? 0.1)%float, (r1 <? 0.3)%float; cbn; lia. }
  destruct (r1 <? 0.1)%float, (r1 <? 0.3)%float, (r1 <? 0.5)%float; cbn; lia.
Qed.

(** C4.  The traffic classifier is the step function of the delay ratio
    [(durationInTraffic - duration) / duration]: a ratio below 0.10 gives
    light, else below 0.30 moderate, else below 0.50 heavy, else severe.
    The ratios 0.05, 0.15, 0.35 and 0.60 give light, moderate, heavy and
    severe, and the classification is monotonic in the ratio.  The
    statement holds for every pair of durations, a positive [duration]
    included. *)
Theorem getTrafficCondition_step_function :
  (forall trafficData : TrafficInfo.t,
     let ratio :=
       delay_ratio (TrafficInfo.duration trafficData)
                   (TrafficInfo.durationInTraffic trafficData) in
     getTrafficCondition trafficData = classify_ratio ratio /\
     ((ratio <? 0.1)%float = true -> getTrafficCondition trafficData = light) /\
     ((ratio <? 0.1)%float = false -> (ratio <? 0.3)%float = true ->
      getTrafficCondition trafficData = moderate) /\
     ((ratio <? 0.3)%float = false -> (ratio <? 0.5)%float = true ->
      getTrafficCondition trafficData = heavy) /\
     ((ratio <? 0.5)%float = false -> getTrafficCondition trafficData = severe)) /\
  (delay_ratio 100 105 = 0.05%float /\
   getTrafficCondition (Sample.traffic_data 100 105) = light) /\
  (delay_ratio 100 115 = 0.15%float /\
   getTrafficCondition (Sample.traffic_data 100 115) = moderate) /\
  (delay_ratio 100 135 = 0.35%float /\
   getTrafficCondition (Sample.traffic_data 100 135) = heavy) /\
  (delay_ratio 100 160 = 0.6%float /\
   getTrafficCondition (Sample.traffic_data 100 160) = severe) /\
  (forall t1 t2 : TrafficInfo.t,
     (delay_ratio (TrafficInfo.duration t1) (TrafficInfo.durationInTraffic t1)
      <=? delay_ratio (TrafficInfo.duration t2) (TrafficInfo.durationInTraffic t2))%float
     = true ->
     severity (getTrafficCondition t1) <= severity (getTrafficCondition t2)).
Proof.
  assert (step : forall trafficData,
             getTrafficCondition trafficData
             = classify_ratio (delay_ratio (TrafficInfo.duration trafficData)
                                 (TrafficInfo.durationInTraffic trafficData)))
    by reflexivity.
  split; [ | repeat split; try reflexivity ].
  - intros trafficData ratio. rewrite step. fold ratio. unfold classify_ratio.
    repeat split.
    + intros ->. reflexivity.
    + intros -> ->. reflexivity.
    + intros E3 ->.
      destruct (ratio <? 0.1)%float eqn:E1; [ | rewrite E3; reflexivity ].
      assert (F : (ratio <? 0.3)%float = true).
      { apply (float_ltb_leb_trans _ _ _ E1). reflexivity. }
      congruence.
    + intros E5.
      destruct (ratio <? 0.1)%float eqn:E1.
      { assert (F : (ratio <? 0.5)%float = true)
          by (apply (float_ltb_leb_trans _ _ _ E1); reflexivity).
        congruence. }
      destruct (ratio <? 0.3)%float eqn:E3.
      { assert (F : (ratio <? 0.5)%float = true)
          by (apply (float_ltb_leb_trans _ _ _ E3); reflexivity).
        congruence. }
      rewrite E5. reflexivity.
  - intros t1 t2 L. rewrite !step. apply classify_ratio_monotone, L.
Qed.

(** ** Running the adapter *)

Lemma directions_run (this : GoogleMapsService.t) (q : Directions.params) (w : World) :
  directions this q w
  = (GoogleMapsService.client this (List.length (issued w)) q,
     {| issued := issued w ++ [q]; console := console w |}).
Proof. reflexivity. Qed.

Lemma calculateRoute_run (this : GoogleMapsService.t) (params : RouteParams.t) (w : World) :
  calculateRoute this params w
  = (route_of_reply
       (GoogleMapsService.client this (List.length (issued w))
          (calculateRoute_query this params)),
     {| issued := issued w ++ [calculateRoute_query this params];
        console := console w |}).
Proof.
  unfold calculateRoute, try_catch, bind. rewrite directions_run.
  destruct (GoogleMapsService.client this _ _) as [[ | route rest] | message]; cbn;
    try reflexivity.
  unfold lift. destruct (formatRouteResponse route); reflexivity.
Qed.

Lemma formatRouteResponse_delivers (route : RawRoute.t) :
  is_return (formatRouteResponse route)
  = match RawRoute.legs route with _ :: _ => true | [] => false end.
Proof.
  unfold formatRouteResponse. destruct (RawRoute.legs route); reflexivity.
Qed.

Lemma route_of_reply_delivers (reply : outcome (list RawRoute.t)) :
  is_return (route_of_reply reply) = delivers reply.
Proof.
  destruct reply as [[ | route rest] | message]; cbn; try reflexivity.
  rewrite <- formatRouteResponse_delivers.
  destruct (formatRouteResponse route); reflexivity.
Qed.

(** ** The normalized route *)

(** C8, as the code has it.  When the route of the provider has a leg,
    [formatRouteResponse] produces a normalized route whose duration in
    traffic is the value the provider supplies, and the plain duration
    exactly when the provider supplies none.  The value is copied as it
    is: nothing in the code keeps it from being negative, and it is a
    number and at least zero as soon as the durations of the provider
    are. *)
Theorem formatRouteResponse_durationInTraffic (raw : RawRoute.t) (leg : Leg.t) :
  hd_error (RawRoute.legs raw) = Some leg ->
  exists formatted,
    formatRouteResponse raw = Return formatted /\
    Route.duration formatted = TextValue.value (Leg.duration leg) /\
    match Leg.duration_in_traffic leg with
    | None => Route.durationInTraffic formatted = Route.duration formatted
    | Some in_traffic =>
        Route.durationInTraffic formatted = TextValue.value in_traffic
    end /\
    (nonnegative_durations leg ->
     (0 <=? Route.durationInTraffic formatted)%float = true /\
     JS.is_number (Route.durationInTraffic formatted) = true).
Proof.
  intros Hleg. unfold formatRouteResponse. rewrite Hleg.
  eexists. split; [ reflexivity | ]. cbn.
  split; [ reflexivity | ].
  split.
  - destruct (Leg.duration_in_traffic leg); reflexivity.
  - intros [Hd Ht].
    assert (N : (0 <=? match Leg.duration_in_traffic leg with
                       | Some in_traffic => TextValue.value in_traffic
                       | None => TextValue.value (Leg.duration leg)
                       end)%float = true).
    { destruct (Leg.duration_in_traffic leg) as [in_traffic | ];
        [ apply Ht; reflexivity | exact Hd ]. }
    split; [ exact N | ]. apply (float_leb_numbers _ _ N).
Qed.

Lemma formatRouteResponse_durationInTraffic_sample :
  exists formatted,
    formatRouteResponse (Sample.raw_route None) = Return formatted /\
    Route.duration formatted = 3600%float /\
    Route.durationInTraffic formatted = Route.duration formatted /\
    (0 <=? Route.durationInTraffic formatted)%float = true.
Proof.
  destruct (formatRouteResponse_durationInTraffic
              (Sample.raw_route None) (Sample.leg None) eq_refl)
    as [formatted [E [D [T N]]]].
  exists formatted. repeat split; try assumption.
  apply N. split; [ reflexivity | discriminate ].
Defined.

(** C8, as the claim states it, fails: a duration in traffic of -60 in the
    answer of the provider comes out as it is, below zero. *)
Lemma formatRouteResponse_negative_durationInTraffic :
  exists formatted,
    formatRouteResponse (Sample.raw_route (Some (-60)%float)) = Return formatted /\
    Route.durationInTraffic formatted = (-60)%float /\
    (0 <=? Route.durationInTraffic formatted)%float = false /\
    (Route.durationInTraffic formatted <? 0)%float = true.
Proof. eexists. split; [ reflexivity | ]. repeat split. Qed.

(** ** Trip costs *)

(** Every route built by [formatRouteResponse] carries a [tollInfo] whose
    [estimatedCost] is [null]. *)
Lemma formatRouteResponse_tollInfo (raw : RawRoute.t) (formatted : Route.t) :
  formatRouteResponse raw = Return formatted ->
  exists tollInfo,
    Route.tollInfo formatted = Some tollInfo /\
    TollInfo.estimatedCost tollInfo = JS.Null.
Proof.
  unfold formatRouteResponse.
  destruct (hd_error (RawRoute.legs raw)); [ | discriminate ].
  intros [= <-]. eexists. split; reflexivity.
Qed.

(** On such a route the toll is [null], which counts for zero: the estimate
    per kilometer of the configuration is not used. *)
Lemma calculateTripCosts_normalized `{Host} `{Server}
  (raw : RawRoute.t) (formatted : Route.t) (vehicleOptions : VehicleOptions.t) :
  formatRouteResponse raw = Return formatted ->
  TripCosts.tollCost (calculateTripCosts formatted vehicleOptions) = 0%float.
Proof.
  intros E. destruct (formatRouteResponse_tollInfo _ _ E) as [tollInfo [T C]].
  unfold calculateTripCosts. cbn. rewrite T, C. reflexivity.
Qed.

(** The toll of a route with no [tollInfo] is the estimate per kilometer
    (the value is rounded afterwards). *)
Lemma calculateTripCosts_without_tollInfo `{Host} `{Server}
  (route : Route.t) (vehicleOptions : VehicleOptions.t) :
  Route.tollInfo route = None ->
  TripCosts.tollCost (calculateTripCosts route vehicleOptions)
  = (JS.Math_round
       (Route.distance route / 1000
        * CostsConfig.tollEstimatePerKm (Config.costs config) * 100) / 100)%float.
Proof.
  intros T. unfold calculateTripCosts. cbn. rewrite T. reflexivity.
Qed.

(** C1, on the code.  The normalized route of a 100 km answer of the
    service has no estimated toll cost; with 8 L/100km, 1.50 per liter and
    0.05 per kilometer of toll estimate, [calculateTripCosts] gives a fuel
    cost of 12, a toll cost of 0 and a total of 12, where the estimate per
    kilometer would give 5 and 17.  The estimate per kilometer is used only
    for a route that has no [tollInfo] at all, where the figures are 12, 5
    and 17. *)
Theorem calculateTripCosts_normalized_example (host : Host) :
  let server := Sample.server Sample.steady_service in
  formatRouteResponse (Sample.raw_route None) = Return Sample.route /\
  Route.distance Sample.route = 100000%float /\
  option_map TollInfo.estimatedCost (Route.tollInfo Sample.route) = Some JS.Null /\
  (let costs := @calculateTripCosts host server Sample.route Sample.vehicle in
   TripCosts.fuelCost costs = 12%float /\
   TripCosts.tollCost costs = 0%float /\
   TripCosts.totalCost costs = 12%float) /\
  (let costs :=
     @calculateTripCosts host server Sample.route_without_tollInfo Sample.vehicle in
   TripCosts.fuelCost costs = 12%float /\
   TripCosts.tollCost costs = 5%float /\
   TripCosts.totalCost costs = 17%float).
Proof. cbv zeta. repeat split; reflexivity. Qed.

(** ** Strings *)




(** ** Running the handlers *)

Lemma timestamp_now_run `{Host} (w : World) :
  timestamp_now w
  = (Return (toISOString (JS.DateOfMillis (Date_now (List.length (issued w))))), w).
Proof. reflexivity. Qed.

Lemma resolve_route_supplied `{Server} (args : Args.t) (route : Route.t) (w : World) :
  Args.route args = Some route -> resolve_route args w = (Return (Some route), w).
Proof. intros E. unfold resolve_route. rewrite E. reflexivity. Qed.

Lemma resolve_route_nothing `{Server} (args : Args.t) (w : World) :
  Args.route args = None ->
  JS.truthy_string (Args.origin args) && JS.truthy_string (Args.destination args) = false ->
  resolve_route args w = (Return None, w).
Proof. intros E F. unfold resolve_route. rewrite E, F. reflexivity. Qed.

Lemma dispatch_unknown `{Host} `{Server} (name : string) (args : option Args.t) :
  is_tool name = false -> dispatch name args = throw ("Unknown tool: " ++ name).
Proof.
  unfold is_tool, tool_names, dispatch. cbn [existsb].
  destruct (name =? "calculate_route"); [ discriminate | ].
  destruct (name =? "compare_routes"); [ discriminate | ].
  destruct (name =? "get_live_traffic"); [ discriminate | ].
  destruct (name =? "estimate_costs"); [ discriminate | ].
  reflexivity.
Qed.

(** ** Cost estimation *)

(** C7.  [estimate_costs] called with no route and without both an origin
    and a destination: the handler throws the error ["No route data
    available for cost estimation"], no query is sent, and the caller of
    the dispatcher receives the error result, flagged, with that message. *)
Theorem estimate_costs_without_route `{Host} `{Server} (args : Args.t) (w : World) :
  Args.route args = None ->
  JS.truthy_string (Args.origin args) && JS.truthy_string (Args.destination args) = false ->
  handleEstimateCosts (Some args) w
  = (Throw "No route data available for cost estimation", w) /\
  callTool "estimate_costs" (Some args) w
  = (Return
       {| ToolResult.content :=
            [ {| Content.type := "text";
                 Content.text := "Error: No route data available for cost estimation" |} ];
          ToolResult.isError := Some true |},
     w).
Proof.
  intros E F.
  assert (run : handleEstimateCosts (Some args) w
                = (Throw "No route data available for cost estimation", w)).
  { unfold handleEstimateCosts, handleEstimateCosts_result, bind.
    rewrite (resolve_route_nothing _ _ E F). reflexivity. }
  split; [ exact run | ].
  unfold callTool, try_catch, dispatch. cbn [String.eqb Ascii.eqb Bool.eqb].
  rewrite run. reflexivity.
Qed.

Lemma estimate_costs_without_route_sample :
  @callTool Sample.host (Sample.server Sample.steady_service)
    "estimate_costs" (Some Sample.no_args) Sample.world
  = (Return (error_result "No route data available for cost estimation"), Sample.world).
Proof.
  apply (@estimate_costs_without_route Sample.host (Sample.server Sample.steady_service)
           Sample.no_args Sample.world); reflexivity.
Defined.

(** C10.  When [estimate_costs] receives a route object, it sends no query
    to the directions service, and its answer is computed from that route
    (with the vehicle options and the clock): the origin and the
    destination given beside it change nothing. *)
Theorem estimate_costs_route_precedence `{Host} `{Server}
  (args : Args.t) (route : Route.t) (w : World) :
  Args.route args = Some route ->
  let vehicleOptions :=
    match Args.vehicleOptions args with
    | Some o => o
    | None => no_vehicle_options
    end in
  let timestamp := toISOString (JS.DateOfMillis (Date_now (List.length (issued w)))) in
  handleEstimateCosts (Some args) w
  = (Return (text_result (OfCosts (costs_result route vehicleOptions timestamp))), w) /\
  issued (snd (handleEstimateCosts (Some args) w)) = issued w /\
  forall origin destination,
    handleEstimateCosts (Some (with_endpoints origin destination args)) w
    = handleEstimateCosts (Some args) w.
Proof.
  intros E vehicleOptions timestamp.
  assert (run : forall a, Args.route a = Some route ->
                  Args.vehicleOptions a = Args.vehicleOptions args ->
                  handleEstimateCosts (Some a) w
                  = (Return (text_result
                               (OfCosts (costs_result route vehicleOptions timestamp))),
                     w)).
  { intros a Ea Va.
    unfold handleEstimateCosts, handleEstimateCosts_result, bind.
    rewrite (resolve_route_supplied _ _ _ Ea), timestamp_now_run, Va. reflexivity. }
  split; [ apply run; trivial | ].
  split; [ rewrite run; trivial | ].
  intros origin destination. rewrite !run; trivial.
Qed.

Lemma estimate_costs_route_precedence_sample :
  let args :=
    {| Args.origin := Some "New York, NY";
       Args.destination := Some "Boston, MA";
       Args.waypoints := None;
       Args.options := None;
       Args.alternatives := None;
       Args.compareOptions := None;
       Args.departureTime := None;
       Args.route := Some Sample.route;
       Args.vehicleOptions := Some Sample.vehicle |} in
  issued (snd (@handleEstimateCosts Sample.host (Sample.server Sample.steady_service)
                 (Some args) Sample.world)) = [].
Proof.
  intros args.
  apply (@estimate_costs_route_precedence Sample.host
           (Sample.server Sample.steady_service) args Sample.route Sample.world eq_refl).
Defined.

(** ** Running the comparison *)

Lemma routePromises_params `{Server} (args : Args.t) :
  routePromises args = map (calculateRoute googleMaps) (compared_params args).
Proof.
  unfold routePromises, compared_params. cbn [map]. rewrite map_map. reflexivity.
Qed.

(** The queries of [Promise.all] are all sent, in the order of the array,
    and each promise settles as its own answer decides. *)
Lemma run_all_calculateRoute
  (this : GoogleMapsService.t) (params : list RouteParams.t) (w : World) :
  run_all (map (calculateRoute this) params) w
  = (JS.mapi_from (List.length (issued w))
       (fun p k =>
          route_of_reply
            (GoogleMapsService.client this k (calculateRoute_query this p)))
       params,
     {| issued := issued w ++ map (calculateRoute_query this) params;
        console := console w |}).
Proof.
  revert w. induction params as [ | p params IH]; intros w.
  - cbn. rewrite app_nil_r. destruct w; reflexivity.
  - cbn [map run_all JS.mapi_from]. rewrite calculateRoute_run, IH. cbn [issued console].
    rewrite length_app, Nat.add_1_r, <- app_assoc. reflexivity.
Qed.

Lemma all_fulfilled_length {A : Type} (os : list (outcome A)) (l : list A) :
  all_fulfilled os = Return l -> List.length l = List.length os.
Proof.
  revert l. induction os as [ | [a | message] os IH]; intros l; cbn.
  - intros [= <-]. reflexivity.
  - destruct (all_fulfilled os) as [l' | ]; [ | discriminate ].
    intros [= <-]. cbn. f_equal. apply IH. reflexivity.
  - discriminate.
Qed.

(** One rejection is enough for [Promise.all] to reject. *)
Lemma all_fulfilled_rejects {A : Type} (os : list (outcome A)) (i : nat) (o : outcome A) :
  nth_error os i = Some o -> is_return o = false ->
  is_return (all_fulfilled os) = false.
Proof.
  revert i. induction os as [ | [a | message] os IH]; intros [ | i]; cbn;
    try discriminate; try reflexivity.
  - intros [= <-]. discriminate.
  - intros E F. specialize (IH _ E F).
    destruct (all_fulfilled os); [ discriminate | reflexivity ].
Qed.

(** It fulfils when every promise does. *)
Lemma all_fulfilled_returns {A : Type} (os : list (outcome A)) :
  forallb is_return os = true -> is_return (all_fulfilled os) = true.
Proof.
  induction os as [ | [a | message] os IH]; cbn; try reflexivity; try discriminate.
  intros E. specialize (IH E). destruct (all_fulfilled os); [ reflexivity | discriminate ].
Qed.

Lemma mapi_from_nth {A B : Type} (f : A -> nat -> B) (l : list A) (start i : nat) :
  nth_error (JS.mapi_from start f l) i
  = option_map (fun x => f x (start + i)) (nth_error l i).
Proof.
  revert start i. induction l as [ | x l IH]; intros start [ | i]; cbn; try reflexivity.
  - rewrite Nat.add_0_r. reflexivity.
  - rewrite IH, Nat.add_succ_r. reflexivity.
Qed.

Lemma mapi_from_length {A B : Type} (f : A -> nat -> B) (l : list A) (start : nat) :
  List.length (JS.mapi_from start f l) = List.length l.
Proof.
  revert start. induction l as [ | x l IH]; intros start; cbn; [ | rewrite IH ]; reflexivity.
Qed.

Lemma mapi_from_map {A B C : Type} (f : A -> nat -> B) (g : B -> C) (l : list A) (start : nat) :
  map g (JS.mapi_from start f l) = JS.mapi_from start (fun x k => g (f x k)) l.
Proof.
  revert start. induction l as [ | x l IH]; intros start; cbn; [ | rewrite IH ]; reflexivity.
Qed.

Lemma mapi_from_seq {A : Type} (l : list A) (start : nat) :
  JS.mapi_from start (fun _ k => k) l = seq start (List.length l).
Proof.
  revert start. induction l as [ | x l IH]; intros start; cbn; [ | rewrite IH ]; reflexivity.
Qed.

Lemma mapi_from_const {A B : Type} (f : A -> B) (l : list A) (start : nat) :
  JS.mapi_from start (fun x _ => f x) l = map f l.
Proof.
  revert start. induction l as [ | x l IH]; intros start; cbn; [ | rewrite IH ]; reflexivity.
Qed.

Lemma handleCompareRoutes_result_run `{Host} `{Server} (args : Args.t) (w : World) :
  handleCompareRoutes_result (Some args) w
  = (match all_fulfilled (compared_replies args (List.length (issued w))) with
     | Throw message => Throw message
     | Return routes =>
         match compare_and_rank
                 match Args.compareOptions args with Some l => l | None => [] end
                 routes with
         | Throw message => Throw message
         | Return comparison =>
             Return
               {| CompareResult.success := true;
                  CompareResult.comparison := comparison;
                  CompareResult.metadata :=
                    {| CompareMetadata.timestamp :=
                         toISOString
                           (JS.DateOfMillis
                              (Date_now (List.length (issued (compared_world args w)))));
                       CompareMetadata.routesCompared := List.length routes |} |}
         end
     end,
     compared_world args w).
Proof.
  unfold handleCompareRoutes_result, bind, Promise_all.
  rewrite routePromises_params, run_all_calculateRoute.
  fold (compared_replies args (List.length (issued w))). fold (compared_world args w).
  destruct (all_fulfilled _) as [routes | message]; [ | reflexivity ].
  unfold lift. destruct (compare_and_rank _ routes); reflexivity.
Qed.

Lemma handleCompareRoutes_run `{Host} `{Server} (args : Args.t) (w : World) :
  handleCompareRoutes (Some args) w
  = (match fst (handleCompareRoutes_result (Some args) w) with
     | Return result => Return (text_result (OfCompare result))
     | Throw message => Throw message
     end,
     compared_world args w).
Proof.
  unfold handleCompareRoutes, bind. rewrite handleCompareRoutes_result_run. cbn [fst].
  destruct (all_fulfilled _) as [routes | message]; [ | reflexivity ].
  destruct (compare_and_rank _ routes); reflexivity.
Qed.

(** C9.  The answer of [compare_routes] does not depend on the argument
    [alternatives]: two calls whose arguments differ in that property only
    send the same queries to the directions service, the first of which
    asks for alternatives, and, the service answering alike, give the same
    answer. *)
Theorem compare_routes_ignores_alternatives `{Host} `{Server}
  (args1 args2 : Args.t) (w : World) :
  with_alternatives None args1 = with_alternatives None args2 ->
  handleCompareRoutes (Some args1) w = handleCompareRoutes (Some args2) w /\
  issued (snd (handleCompareRoutes (Some args1) w))
  = issued w ++ map (calculateRoute_query googleMaps) (compared_params args1) /\
  map (calculateRoute_query googleMaps) (compared_params args1)
  = map (calculateRoute_query googleMaps) (compared_params args2) /\
  option_map Directions.alternatives
    (hd_error (map (calculateRoute_query googleMaps) (compared_params args1)))
  = Some (Some true).
Proof.
  intros same.
  assert (ignored : forall args,
             handleCompareRoutes (Some args) w
             = handleCompareRoutes (Some (with_alternatives None args)) w)
    by reflexivity.
  assert (params : forall args,
             compared_params args = compared_params (with_alternatives None args))
    by reflexivity.
  split; [ rewrite (ignored args1), (ignored args2), same; reflexivity | ].
  split; [ rewrite handleCompareRoutes_run; reflexivity | ].
  split; [ rewrite (params args1), (params args2), same; reflexivity | ].
  reflexivity.
Qed.

Lemma compare_routes_ignores_alternatives_sample :
  @handleCompareRoutes Sample.host (Sample.server Sample.steady_service)
    (Some (with_alternatives (Some false) Sample.comparison_args)) Sample.world
  = @handleCompareRoutes Sample.host (Sample.server Sample.steady_service)
      (Some (with_alternatives (Some true) Sample.comparison_args)) Sample.world.
Proof.
  apply (@compare_routes_ignores_alternatives Sample.host
           (Sample.server Sample.steady_service)
           (with_alternatives (Some false) Sample.comparison_args)
           (with_alternatives (Some true) Sample.comparison_args)
           Sample.world eq_refl).
Defined.

(** ** Sampling the alternative times *)

(** One turn of the loop: the query is sent; when it delivers a duration the
    entry is written, otherwise a warning is, and the turn ends normally
    either way. *)
Lemma sample_alternative_run `{Host} (this : GoogleMapsService.t)
  (origin destination : option string) (offset : Z)
  (results : list (string * AlternativeTime.t)) (w : World) (k i : nat) :
  List.length (issued w) = k + i ->
  sample_alternative this origin destination offset results w
  = match sample_of_reply (sample_reply this origin destination k i offset) with
    | Return duration =>
        (Return
           (JS.set_property (offset_label offset)
              {| AlternativeTime.duration := duration;
                 AlternativeTime.departureTime :=
                   toISOString (sample_departure k i offset) |}
              results),
         {| issued := issued w ++ [sample_query this origin destination k i offset];
            console := console w |})
    | Throw message =>
        (Return results,
         {| issued := issued w ++ [sample_query this origin destination k i offset];
            console := console w ++ [sample_warning offset message] |})
    end.
Proof.
  intros L.
  unfold sample_alternative, bind, try_catch, now, sample_reply, sample_query,
    sample_departure.
  rewrite directions_run, L. cbn [issued console].
  destruct (GoogleMapsService.client this (k + i) _) as [routes | message];
    cbn [sample_of_reply]; [ | reflexivity ].
  unfold lift. destruct (alternative_duration routes); reflexivity.
Qed.

(** The whole loop: three queries are sent whatever happens to each; the
    result holds the samples that were delivered and the console the
    warnings of those that failed; the call itself never fails. *)
Lemma getAlternativeTimes_run `{Host} (this : GoogleMapsService.t)
  (origin destination : option string) (w : World) :
  let k := List.length (issued w) in
  getAlternativeTimes this origin destination w
  = (Return (sample_entries this origin destination k),
     {| issued := issued w ++ sample_queries this origin destination k;
        console := console w ++ sample_warnings this origin destination k |}).
Proof.
  intros k. unfold getAlternativeTimes, timeOffsets.
  cbn [sample_alternatives]. unfold bind.
  rewrite (sample_alternative_run this origin destination 1800 [] w k 0)
    by (fold k; lia).
  unfold sample_entries, sample_warnings, sample_queries, timeOffsets, JS.mapi.
  cbn [JS.mapi_from List.concat].
  destruct (sample_of_reply (sample_reply this origin destination k 0 1800)) as [d0 | m0];
  match goal with
  | |- context [sample_alternative _ _ _ 3600%Z ?r ?w1] =>
      rewrite (sample_alternative_run this origin destination 3600 r w1 k 1)
        by (cbn [issued]; rewrite length_app; fold k; cbn; lia)
  end;
  destruct (sample_of_reply (sample_reply this origin destination k 1 3600)) as [d1 | m1];
  match goal with
  | |- context [sample_alternative _ _ _ 7200%Z ?r ?w2] =>
      rewrite (sample_alternative_run this origin destination 7200 r w2 k 2)
        by (cbn [issued]; rewrite !length_app; fold k; cbn; lia)
  end;
  destruct (sample_of_reply (sample_reply this origin destination k 2 7200)) as [d2 | m2];
  cbn [ret issued console]; rewrite <- ?app_assoc, ?app_nil_r; reflexivity.
Qed.

(** ** Traffic information *)

Lemma getTrafficInfo_run `{Host} (this : GoogleMapsService.t)
  (params : TrafficParams.t) (w : World) :
  let k := List.length (issued w) in
  let origin := TrafficParams.origin params in
  let destination := TrafficParams.destination params in
  let q := getTrafficInfo_query this params in
  let sampled :=
    {| issued := issued w ++ q :: sample_queries this origin destination (S k);
       console := console w ++ sample_warnings this origin destination (S k) |} in
  getTrafficInfo this params w
  = match GoogleMapsService.client this k q with
    | Throw message =>
        (Throw ("Traffic info error: " ++ message),
         {| issued := issued w ++ [q]; console := console w |})
    | Return [] =>
        (Throw ("Traffic info error: " ++ TypeError_reading "legs"),
         {| issued := issued w ++ [q]; console := console w |})
    | Return (route :: _) =>
        match formatRouteResponse route, hd_error (RawRoute.legs route) with
        | Return formatted, Some leg =>
            (Return
               {| TrafficInfo.duration := TextValue.value (Leg.duration leg);
                  TrafficInfo.durationInTraffic :=
                    match Leg.duration_in_traffic leg with
                    | Some in_traffic => TextValue.value in_traffic
                    | None => TextValue.value (Leg.duration leg)
                    end;
                  TrafficInfo.route := formatted;
                  TrafficInfo.alternativeTimes :=
                    sample_entries this origin destination (S k) |},
             sampled)
        | _, _ =>
            (Throw ("Traffic info error: " ++ TypeError_reading "duration"), sampled)
        end
    end.
Proof.
  intros k origin destination q sampled.
  unfold getTrafficInfo, try_catch, bind. rewrite directions_run. fold q k.
  destruct (GoogleMapsService.client this k q) as [[ | route rest] | message];
    try reflexivity.
  cbn [hd_error]. fold origin destination.
  rewrite getAlternativeTimes_run. cbn [issued console].
  rewrite length_app. fold k. cbn [List.length]. rewrite Nat.add_1_r, <- app_assoc.
  cbn [app]. fold sampled.
  unfold formatRouteResponse.
  destruct (hd_error (RawRoute.legs route)) as [leg | ]; reflexivity.
Qed.

Lemma sample_labels :
  offset_label 1800 = "+30min" /\ offset_label 3600 = "+60min" /\
  offset_label 7200 = "+120min".
Proof. repeat split; reflexivity. Qed.

Lemma forallb_nth {A : Type} (f : A -> bool) (l : list A) :
  (forall i x, nth_error l i = Some x -> f x = true) -> forallb f l = true.
Proof.
  induction l as [ | x l IH]; intros Hf; cbn; [ reflexivity | ].
  rewrite (Hf 0 x eq_refl), IH; [ reflexivity | ].
  intros i y Hy. apply (Hf (S i) y Hy).
Qed.

(** The ranking succeeds on every array that is not empty. *)
Lemma compare_and_rank_returns (compareOptions : list CompareOption.t)
  (routes : list Route.t) :
  routes <> [] -> is_return (compare_and_rank compareOptions routes) = true.
Proof. destruct routes; [ contradiction | reflexivity ]. Qed.

(** C2.  The two policies on partial failure.

    In [getTrafficInfo] the three supplementary queries are all sent; each
    one that fails (rejected by the service, or answered with no route or no
    leg) is caught on its own: a warning is written for it and its entry is
    left out of [alternativeTimes], which holds the other samples.  The call
    as a whole succeeds exactly when the first query delivers, whatever
    happens to the supplementary ones.

    In [compare_routes] the queries are joined: all of them are sent, the
    comparison fails as soon as one of them fails, and it succeeds when
    they all deliver. *)
Theorem partial_failure_asymmetry `{Host} `{Server} :
  (forall this origin destination w,
     let k := List.length (issued w) in
     getAlternativeTimes this origin destination w
     = (Return (sample_entries this origin destination k),
        {| issued := issued w ++ sample_queries this origin destination k;
           console := console w ++ sample_warnings this origin destination k |})) /\
  (forall this origin destination k i offset,
     nth_error timeOffsets i = Some offset ->
     match sample_of_reply (sample_reply this origin destination k i offset) with
     | Return duration =>
         In (offset_label offset,
             {| AlternativeTime.duration := duration;
                AlternativeTime.departureTime :=
                  toISOString (sample_departure k i offset) |})
            (sample_entries this origin destination k) /\
         forall message,
           ~ In (sample_warning offset message)
                (sample_warnings this origin destination k)
     | Throw message =>
         In (sample_warning offset message)
            (sample_warnings this origin destination k) /\
         forall entry,
           ~ In (offset_label offset, entry)
                (sample_entries this origin destination k)
     end) /\
  (forall this params w,
     let k := List.length (issued w) in
     let primary := GoogleMapsService.client this k (getTrafficInfo_query this params) in
     is_return (fst (getTrafficInfo this params w)) = delivers primary /\
     forall info,
       fst (getTrafficInfo this params w) = Return info ->
       TrafficInfo.alternativeTimes info
       = sample_entries this
           (TrafficParams.origin params) (TrafficParams.destination params) (S k)) /\
  (forall args w,
     let k := List.length (issued w) in
     issued (snd (handleCompareRoutes (Some args) w))
     = issued w ++ map (calculateRoute_query googleMaps) (compared_params args) /\
     (forall i p,
        nth_error (compared_params args) i = Some p ->
        delivers (GoogleMapsService.client googleMaps (k + i)
                    (calculateRoute_query googleMaps p)) = false ->
        is_return (fst (handleCompareRoutes (Some args) w)) = false) /\
     ((forall i p,
         nth_error (compared_params args) i = Some p ->
         delivers (GoogleMapsService.client googleMaps (k + i)
                     (calculateRoute_query googleMaps p)) = true) ->
      is_return (fst (handleCompareRoutes (Some args) w)) = true)).
Proof.
  split; [ intros; apply getAlternativeTimes_run | ].
  split; [ | split ].
  - intros this origin destination k i offset Hoffset.
    unfold sample_entries, sample_warnings, timeOffsets, JS.mapi in *.
    cbn [JS.mapi_from List.concat].
    destruct sample_labels as [L30 [L60 L120]].
    destruct i as [ | [ | [ | i]]]; cbn in Hoffset;
      [ | | | destruct i; discriminate ];
      injection Hoffset as <-;
      destruct (sample_of_reply (sample_reply this origin destination k 0 1800));
      destruct (sample_of_reply (sample_reply this origin destination k 1 3600));
      destruct (sample_of_reply (sample_reply this origin destination k 2 7200));
      (split; [ cbn; tauto | ]);
      intros x; cbn [app In]; unfold sample_warning;
      rewrite ?L30, ?L60, ?L120; cbn [append];
      intuition (try discriminate; try congruence).
  - intros this params w k primary.
    pose proof (getTrafficInfo_run this params w) as run. cbv zeta in run.
    fold k in run. fold primary in run. rewrite run.
    destruct primary as [[ | route rest] | message]; cbn [delivers];
      [ split; [ reflexivity | discriminate ] | | split; [ reflexivity | discriminate ] ].
    unfold formatRouteResponse.
    destruct (RawRoute.legs route) as [ | leg legs]; cbn [hd_error fst];
      (split; [ reflexivity | ]); [ discriminate | ].
    intros info [= <-]. reflexivity.
  - intros args w k. rewrite handleCompareRoutes_run, handleCompareRoutes_result_run.
    cbn [fst snd]. fold k.
    split; [ reflexivity | ]. split.
    + intros i p Hp Hfails.
      assert (R : is_return (all_fulfilled (compared_replies args k)) = false).
      { apply (all_fulfilled_rejects _ i
                 (route_of_reply
                    (GoogleMapsService.client googleMaps (k + i)
                       (calculateRoute_query googleMaps p)))).
        - unfold compared_replies. rewrite mapi_from_nth, Hp. reflexivity.
        - rewrite route_of_reply_delivers. exact Hfails. }
      destruct (all_fulfilled (compared_replies args k)); [ discriminate | reflexivity ].
    + intros Hall.
      assert (R : is_return (all_fulfilled (compared_replies args k)) = true).
      { apply all_fulfilled_returns, forallb_nth. intros i reply Hreply.
        unfold compared_replies in Hreply. rewrite mapi_from_nth in Hreply.
        destruct (nth_error (compared_params args) i) as [p | ] eqn:Hp;
          [ | discriminate ].
        injection Hreply as <-. rewrite route_of_reply_delivers. apply (Hall i p Hp). }
      destruct (all_fulfilled (compared_replies args k)) as [routes | ] eqn:Hroutes;
        [ | discriminate ].
      assert (N : routes <> []).
      { apply all_fulfilled_length in Hroutes. unfold compared_replies in Hroutes.
        rewrite mapi_from_length in Hroutes. intros ->. discriminate. }
      pose proof (compare_and_rank_returns
                    match Args.compareOptions args with Some l => l | None => [] end
                    routes N) as C.
      destruct (compare_and_rank _ routes); [ reflexivity | discriminate ].
Qed.

(** ** Ranking *)

Lemma first_minimum_singleton {A : Type} (key : A -> float) (x : A) :
  JS.is_number (key x) = true -> first_minimum key [x] x.
Proof.
  intros N. exists 0. split; [ reflexivity | ]. split.
  - intros [ | j] y; cbn; [ intros [= <-]; apply float_leb_refl, N | destruct j; discriminate ].
  - intros j y Hj. inversion Hj.
Qed.

(** One more element: the minimum moves only when the new key is strictly
    smaller. *)
Lemma first_minimum_step {A : Type} (key : A -> float) (pre : list A) (best c : A) :
  keys_are_numbers key (pre ++ [c]) ->
  first_minimum key pre best ->
  first_minimum key (pre ++ [c]) (pick key best c).
Proof.
  intros numbers [i [Hi [least first]]].
  assert (Nc : JS.is_number (key c) = true).
  { unfold keys_are_numbers in numbers. rewrite Forall_forall in numbers.
    apply numbers, in_or_app. right. left. reflexivity. }
  assert (Nb : JS.is_number (key best) = true).
  { unfold keys_are_numbers in numbers. rewrite Forall_forall in numbers.
    apply numbers, in_or_app. left. apply (nth_error_In _ _ Hi). }
  assert (Li : i < List.length pre) by (apply nth_error_Some; congruence).
  assert (last : forall j x, nth_error (pre ++ [c]) j = Some x ->
                   List.length pre <= j -> x = c).
  { intros j x Hx Hj. rewrite nth_error_app2 in Hx by exact Hj.
    destruct (j - List.length pre) as [ | [ | d]]; cbn in Hx; congruence. }
  unfold pick. destruct (key c <? key best)%float eqn:E.
  - exists (List.length pre). split; [ | split ].
    + rewrite nth_error_app2, Nat.sub_diag by apply Nat.le_refl. reflexivity.
    + intros j x Hx. destruct (Nat.lt_ge_cases j (List.length pre)) as [Hj | Hj].
      * rewrite nth_error_app1 in Hx by exact Hj.
        apply float_ltb_leb, (float_ltb_leb_trans _ _ _ E), (least j x Hx).
      * rewrite (last j x Hx Hj). apply float_leb_refl, Nc.
    + intros j x Hj Hx. rewrite nth_error_app1 in Hx by exact Hj.
      apply (float_ltb_leb_trans _ _ _ E), (least j x Hx).
  - exists i. split; [ | split ].
    + rewrite nth_error_app1 by exact Li. exact Hi.
    + intros j x Hx. destruct (Nat.lt_ge_cases j (List.length pre)) as [Hj | Hj].
      * rewrite nth_error_app1 in Hx by exact Hj. apply (least j x Hx).
      * rewrite (last j x Hx Hj). apply float_not_ltb_leb; assumption.
    + intros j x Hj Hx. rewrite nth_error_app1 in Hx by lia.
      apply (first j x Hj Hx).
Qed.

Lemma fold_pick_first_minimum {A : Type} (key : A -> float)
  (rest pre : list A) (best : A) :
  keys_are_numbers key (pre ++ rest) ->
  first_minimum key pre best ->
  first_minimum key (pre ++ rest) (fold_left (pick key) rest best).
Proof.
  revert pre best. induction rest as [ | c rest IH]; intros pre best numbers Hbest.
  - rewrite app_nil_r. exact Hbest.
  - cbn [fold_left].
    replace (pre ++ c :: rest) with ((pre ++ [c]) ++ rest) in *
      by (rewrite <- app_assoc; reflexivity).
    apply IH; [ exact numbers | ].
    apply first_minimum_step; [ | exact Hbest ].
    unfold keys_are_numbers in *. apply Forall_app in numbers. apply numbers.
Qed.

(** [reduce] with [pick] returns the first minimum of an array of numbers. *)
Lemma reduce_pick_first_minimum {A : Type} (key : A -> float) (l : list A) (r : A) :
  JS.reduce (pick key) l = Some r ->
  keys_are_numbers key l ->
  first_minimum key l r.
Proof.
  destruct l as [ | x rest]; [ discriminate | ].
  cbn [JS.reduce]. intros [= <-] numbers.
  apply (fold_pick_first_minimum key rest [x] x numbers).
  apply first_minimum_singleton. inversion numbers. assumption.
Qed.

Lemma given_options_labels (compareOptions : list CompareOption.t)
  (rest : list Route.t) (start : nat) :
  JS.mapi_from (S start)
    (fun route index => ComparedRoute.options (compared_route compareOptions route index))
    rest
  = map (fun index => GivenOptions (nth_error compareOptions index))
        (seq start (List.length rest)).
Proof.
  revert start. induction rest as [ | route rest IH]; intros start; [ reflexivity | ].
  cbn [JS.mapi_from List.length seq map]. rewrite IH. cbn. rewrite Nat.sub_0_r.
  reflexivity.
Qed.

Lemma nth_error_seq {A B : Type} (f : option A -> B) (l : list A) :
  map (fun index => f (nth_error l index)) (seq 0 (List.length l))
  = map (fun x => f (Some x)) l.
Proof.
  induction l as [ | x l IH]; [ reflexivity | ].
  cbn [List.length seq map nth_error]. rewrite <- seq_shift, map_map. cbn [nth_error].
  rewrite IH. reflexivity.
Qed.

(** C5.  When [compare_routes] returns, with [n] compare options: the
    comparison lists [n + 1] routes, those of the [n + 1] queries in order,
    with the ids [0 .. n]; the first is labelled ['default'] and the route
    of id [i] carries the option [compareOptions[i - 1]]; the fastest route
    is the one with the least duration in traffic and the shortest the one
    with the least distance, the first in the order of the array when
    several are equal (the durations and distances being numbers); the
    recommended route is the fastest one, and the reason is a fixed text. *)
Theorem compare_routes_ranking `{Host} `{Server}
  (args : Args.t) (w : World) (result : CompareResult.t) :
  fst (handleCompareRoutes_result (Some args) w) = Return result ->
  let compareOptions :=
    match Args.compareOptions args with Some l => l | None => [] end in
  let n := List.length compareOptions in
  let comparison := CompareResult.comparison result in
  let entries := Comparison.routes comparison in
  let fastest := RankSummary.fastestRoute (Comparison.summary comparison) in
  let shortest := RankSummary.shortestRoute (Comparison.summary comparison) in
  exists routes : list Route.t,
    all_fulfilled (compared_replies args (List.length (issued w))) = Return routes /\
    List.length entries = S n /\
    CompareMetadata.routesCompared (CompareResult.metadata result) = S n /\
    map ComparedRoute.id entries = seq 0 (S n) /\
    map ComparedRoute.options entries
    = DefaultOptions :: map (fun option => GivenOptions (Some option)) compareOptions /\
    map ComparedRoute.durationInTraffic entries = map Route.durationInTraffic routes /\
    map ComparedRoute.distance entries = map Route.distance routes /\
    (keys_are_numbers Route.durationInTraffic routes ->
     first_minimum Route.durationInTraffic routes fastest) /\
    (keys_are_numbers Route.distance routes ->
     first_minimum Route.distance routes shortest) /\
    Recommendation.recommended (Comparison.recommendation comparison) = fastest /\
    Recommendation.reason (Comparison.recommendation comparison)
    = "Fastest travel time with current traffic conditions".
Proof.
  rewrite handleCompareRoutes_result_run. cbn [fst].
  destruct (all_fulfilled (compared_replies args (List.length (issued w))))
    as [routes | ] eqn:Hroutes; [ | discriminate ].
  assert (L : List.length routes
              = S (List.length match Args.compareOptions args with
                               | Some l => l
                               | None => []
                               end)).
  { apply all_fulfilled_length in Hroutes. rewrite Hroutes.
    unfold compared_replies, compared_params.
    rewrite mapi_from_length. cbn [List.length]. rewrite length_map. reflexivity. }
  destruct routes as [ | first rest]; [ discriminate | ].
  unfold compare_and_rank, findBestRoute, reduce_or_throw. cbn [JS.reduce].
  intros [= <-]. cbv zeta. cbn [CompareResult.comparison CompareResult.metadata
    Comparison.routes Comparison.summary Comparison.recommendation
    RankSummary.fastestRoute RankSummary.shortestRoute CompareMetadata.routesCompared
    Recommendation.recommended Recommendation.reason].
  injection L as L.
  exists (first :: rest). unfold JS.mapi.
  split; [ reflexivity | ].
  split; [ rewrite mapi_from_length; cbn [List.length]; rewrite L; reflexivity | ].
  split; [ cbn [List.length]; rewrite L; reflexivity | ].
  split.
  { rewrite mapi_from_map.
    rewrite <- L. exact (mapi_from_seq (first :: rest) 0). }
  split.
  { rewrite mapi_from_map. cbn [JS.mapi_from]. f_equal.
    rewrite given_options_labels, L. apply nth_error_seq. }
  split;
    [ rewrite mapi_from_map;
      exact (mapi_from_const Route.durationInTraffic (first :: rest) 0) | ].
  split;
    [ rewrite mapi_from_map;
      exact (mapi_from_const Route.distance (first :: rest) 0) | ].
  split.
  { intros numbers.
    apply (reduce_pick_first_minimum Route.durationInTraffic (first :: rest));
      [ reflexivity | exact numbers ]. }
  split.
  { intros numbers.
    apply (reduce_pick_first_minimum Route.distance (first :: rest));
      [ reflexivity | exact numbers ]. }
  split; reflexivity.
Qed.

Lemma compare_routes_ranking_sample :
  exists result routes,
    fst (@handleCompareRoutes_result Sample.host
           (Sample.server (Sample.scripted_service Sample.three_routes))
           (Some Sample.comparison_args) Sample.world)
    = Return result /\
    map ComparedRoute.id (Comparison.routes (CompareResult.comparison result))
    = [0; 1; 2] /\
    map Route.summary routes = ["I-95 N"; "I-90 E"; "US-1 N"] /\
    map Route.durationInTraffic routes = [3000; 2400; 2400]%float /\
    first_minimum Route.durationInTraffic routes
      (RankSummary.fastestRoute
         (Comparison.summary (CompareResult.comparison result))) /\
    nth_error routes 1
    = Some (Recommendation.recommended
              (Comparison.recommendation (CompareResult.comparison result))).
Proof.
  destruct (fst (@handleCompareRoutes_result Sample.host
                   (Sample.server (Sample.scripted_service Sample.three_routes))
                   (Some Sample.comparison_args) Sample.world))
    as [result | message] eqn:E; [ | vm_compute in E; discriminate ].
  destruct (@compare_routes_ranking Sample.host
              (Sample.server (Sample.scripted_service Sample.three_routes))
              Sample.comparison_args Sample.world result E)
    as [routes [Hroutes [_ [_ [ids [_ [_ [_ [fastest [_ [recommended _]]]]]]]]]]].
  exists result, routes.
  vm_compute in Hroutes. injection Hroutes as <-.
  split; [ reflexivity | ].
  split; [ exact ids | ].
  split; [ reflexivity | ].
  split; [ reflexivity | ].
  split; [ apply fastest; repeat constructor | ].
  rewrite recommended.
  vm_compute in E. injection E as <-. reflexivity.
Defined.

(** ** The two policies on a service that answers one query only *)

(** The service answers the first query and rejects the others: the traffic
    information is returned, with no alternative time and three warnings. *)
Example getTrafficInfo_survives_failed_samples :
  let service := Sample.scripted_service [("I-95 N", 4000%float)] in
  let params :=
    {| TrafficParams.origin := Some "New York, NY";
       TrafficParams.destination := Some "Boston, MA";
       TrafficParams.departureTime := None |} in
  let run := @getTrafficInfo Sample.host service params Sample.world in
  option_map TrafficInfo.alternativeTimes
    match fst run with Return info => Some info | Throw _ => None end
  = Some [] /\
  List.length (issued (snd run)) = 4 /\
  console (snd run)
  = [ "Failed to get alternative time for +30min: Request failed with status code 403";
      "Failed to get alternative time for +60min: Request failed with status code 403";
      "Failed to get alternative time for +120min: Request failed with status code 403" ].
Proof. cbv zeta. repeat split; vm_compute; reflexivity. Qed.

(** On the same service the comparison of three routes fails as a whole,
    after its three queries were sent. *)
Example handleCompareRoutes_fails_as_a_whole :
  let server := Sample.server (Sample.scripted_service [("I-95 N", 4000%float)]) in
  let run := @handleCompareRoutes Sample.host server
               (Some Sample.comparison_args) Sample.world in
  fst run = Throw "Google Maps API error: Request failed with status code 403" /\
  List.length (issued (snd run)) = 3.
Proof. cbv zeta. split; vm_compute; reflexivity. Qed.

(** The dispatcher turns that failure into an error result. *)
Example callTool_compare_routes_error :
  let server := Sample.server (Sample.scripted_service [("I-95 N", 4000%float)]) in
  fst (@callTool Sample.host server "compare_routes"
         (Some Sample.comparison_args) Sample.world)
  = Return
      (error_result "Google Maps API error: Request failed with status code 403").
Proof. vm_compute. reflexivity. Qed.

Example callTool_unknown_tool :
  fst (@callTool Sample.host (Sample.server Sample.steady_service)
         "geocode" None Sample.world)
  = Return (error_result "Unknown tool: geocode").
Proof. reflexivity. Qed.

(** A call with no [arguments] at all is answered with an error result too. *)
Example callTool_without_arguments :
  fst (@callTool Sample.host (Sample.server Sample.steady_service)
         "estimate_costs" None Sample.world)
  = Return
      (error_result
         "Cannot destructure property 'route' of 'args' as it is undefined.").
Proof. reflexivity. Qed.

(** With an origin and a destination and no route, the route is asked to the
    service first: one query is sent. *)
Example estimate_costs_asks_for_the_route :
  let run := @handleEstimateCosts_result Sample.host
               (Sample.server Sample.steady_service)
               (Some Sample.trip) Sample.world in
  List.length (issued (snd run)) = 1 /\
  option_map (fun result => CostsView.tolls (CostsResult.costs result))
    match fst run with Return result => Some result | Throw _ => None end
  = Some 0%float.
Proof. cbv zeta. split; vm_compute; reflexivity. Qed.

(** ** Boundaries of the classifier *)

(** The comparisons are strict: a ratio of exactly 0.1 is moderate. *)
Example getTrafficCondition_at_threshold :
  delay_ratio 10 11 = 0.1%float /\
  getTrafficCondition (Sample.traffic_data 10 11) = moderate.
Proof. split; reflexivity. Qed.

(** A duration of zero makes the ratio [NaN] or infinite; [NaN] is below no
    threshold and the answer is severe. *)
Example getTrafficCondition_zero_duration :
  getTrafficCondition (Sample.traffic_data 0 0) = severe /\
  getTrafficCondition (Sample.traffic_data 0 60) = severe.
Proof. split; reflexivity. Qed.

(** ** Toll information *)

Example extractTollInfo_warning :
  extractTollInfo (Sample.named_route "I-90 E" 2400)
  = {| TollInfo.hasTolls := true;
       TollInfo.warnings := ["This route has tolls."];
       TollInfo.estimatedCost := JS.Null |}.
Proof. reflexivity. Qed.

Example extractTollInfo_no_warning :
  TollInfo.hasTolls (extractTollInfo (Sample.raw_route None)) = false.
Proof. reflexivity. Qed.

(** * Further properties of the code *)

(** ** Stripping the markup of an instruction *)

Lemma has_closing_strip_from (inside : bool) (s : string) :
  JS.has_closing (JS.strip_from inside s) = true -> JS.has_closing s = true.
Proof.
  revert inside. induction s as [ | c rest IH]; intros inside; [ destruct inside; trivial | ].
  cbn [JS.strip_from JS.has_closing]. destruct inside.
  - destruct (Ascii.eqb c ">"); [ reflexivity | apply IH ].
  - destruct (Ascii.eqb c "<" && JS.has_closing rest) eqn:E.
    + intros F. apply IH in F. rewrite F. destruct (Ascii.eqb c ">"); reflexivity.
    + cbn [JS.has_closing]. destruct (Ascii.eqb c ">"); [ reflexivity | apply IH ].
Qed.

Lemma has_tag_strip_from (inside : bool) (s : string) :
  JS.has_tag (JS.strip_from inside s) = false.
Proof.
  revert inside. induction s as [ | c rest IH]; intros inside; [ destruct inside; reflexivity | ].
  cbn [JS.strip_from]. destruct inside.
  - destruct (Ascii.eqb c ">"); apply IH.
  - destruct (Ascii.eqb c "<" && JS.has_closing rest) eqn:E; [ apply IH | ].
    cbn [JS.has_tag]. rewrite IH, orb_false_r.
    destruct (Ascii.eqb c "<"); [ | reflexivity ]. cbn in E |- *.
    destruct (JS.has_closing (JS.strip_from false rest)) eqn:F; [ | reflexivity ].
    apply has_closing_strip_from in F. congruence.
Qed.

Lemma strip_from_without_tag (s : string) :
  JS.has_tag s = false -> JS.strip_from false s = s.
Proof.
  induction s as [ | c rest IH]; [ reflexivity | ].
  cbn [JS.has_tag JS.strip_from]. intros E. apply orb_false_iff in E as [E F].
  rewrite E, (IH F). reflexivity.
Qed.

Lemma strip_from_length (inside : bool) (s : string) :
  String.length (JS.strip_from inside s) <= String.length s.
Proof.
  revert inside. induction s as [ | c rest IH]; intros inside; [ destruct inside; cbn; lia | ].
  cbn [JS.strip_from]. destruct inside.
  - destruct (Ascii.eqb c ">"); cbn [String.length];
      [ specialize (IH false) | specialize (IH true) ]; lia.
  - destruct (Ascii.eqb c "<" && JS.has_closing rest); cbn [String.length];
      [ specialize (IH true) | specialize (IH false) ]; lia.
Qed.

(** X1.  After [replace(/<[^>]*>/g, '')] no match of the pattern is left: the
    result holds no [<] with a [>] after it.  A text with no such match is
    returned unchanged, so stripping twice is stripping once, and the
    result is never longer than the text. *)
Theorem strip_tags_leaves_no_tag (s : string) :
  JS.has_tag (JS.strip_tags s) = false /\
  (JS.has_tag s = false -> JS.strip_tags s = s) /\
  JS.strip_tags (JS.strip_tags s) = JS.strip_tags s /\
  String.length (JS.strip_tags s) <= String.length s.
Proof.
  unfold JS.strip_tags. split; [ apply has_tag_strip_from | ].
  split; [ apply strip_from_without_tag | ].
  split; [ apply strip_from_without_tag, has_tag_strip_from | apply strip_from_length ].
Qed.

(** ** Toll information *)

Lemma lower_ascii_idempotent (c : ascii) :
  JS.lower_ascii (JS.lower_ascii c) = JS.lower_ascii c.
Proof. destruct c as [[] [] [] [] [] [] [] []]; reflexivity. Qed.

Lemma toLowerCase_idempotent (s : string) :
  JS.toLowerCase (JS.toLowerCase s) = JS.toLowerCase s.
Proof.
  induction s as [ | c rest IH]; [ reflexivity | ].
  cbn [JS.toLowerCase]. rewrite lower_ascii_idempotent, IH. reflexivity.
Qed.

Lemma prefix_toLowerCase (pat s : string) :
  prefix pat s = true -> prefix (JS.toLowerCase pat) (JS.toLowerCase s) = true.
Proof.
  revert s. induction pat as [ | a pat IH]; intros s;
    [ intros _; destruct s; reflexivity | ].
  destruct s as [ | b s]; [ discriminate | ]. cbn [prefix JS.toLowerCase].
  destruct (ascii_dec a b) as [-> | ]; [ | discriminate ].
  intros E. destruct (ascii_dec (JS.lower_ascii b) (JS.lower_ascii b));
    [ apply IH, E | contradiction ].
Qed.

Lemma includes_toLowerCase (s pat : string) :
  JS.includes s pat = true ->
  JS.includes (JS.toLowerCase s) (JS.toLowerCase pat) = true.
Proof.
  induction s as [ | c rest IH].
  - cbn [JS.includes]. destruct (prefix pat "") eqn:E; [ | discriminate ].
    intros _. apply prefix_toLowerCase in E. cbn [JS.toLowerCase] in E |- *.
    cbn [JS.includes]. rewrite E. reflexivity.
  - cbn [JS.includes]. destruct (prefix pat (String c rest)) eqn:E.
    + intros _. apply prefix_toLowerCase in E. cbn [JS.toLowerCase] in E |- *.
      cbn [JS.includes]. rewrite E. reflexivity.
    + intros F. cbn [JS.toLowerCase JS.includes]. rewrite (IH F).
      match goal with |- (if ?b then _ else _) = _ => destruct b; reflexivity end.
Qed.

Lemma filter_nonempty {A : Type} (f : A -> bool) (l : list A) :
  Nat.ltb 0 (List.length (filter f l)) = existsb f l.
Proof.
  induction l as [ | x l IH]; [ reflexivity | ].
  cbn [filter existsb]. destruct (f x); [ reflexivity | exact IH ].
Qed.

(** X2.  [extractTollInfo] keeps exactly the warnings of the route that
    mention a toll, in their order; [hasTolls] tells whether there is one,
    that is whether the kept list is not empty; the estimated cost is
    always [null].  The detection does not depend on the case of the
    letters: a warning that holds any spelling of "toll" is kept. *)
Theorem extractTollInfo_detects_tolls (route : RawRoute.t) :
  let info := extractTollInfo route in
  TollInfo.warnings info = filter mentions_toll (warnings_of route) /\
  TollInfo.hasTolls info = existsb mentions_toll (warnings_of route) /\
  (TollInfo.hasTolls info = true <-> TollInfo.warnings info <> []) /\
  (forall warning,
     In warning (TollInfo.warnings info)
     <-> In warning (warnings_of route) /\ mentions_toll warning = true) /\
  TollInfo.estimatedCost info = JS.Null /\
  (forall warning spelling,
     JS.toLowerCase spelling = "toll" ->
     In warning (warnings_of route) ->
     JS.includes warning spelling = true ->
     In warning (TollInfo.warnings info)).
Proof.
  assert (kept : TollInfo.warnings (extractTollInfo route)
                 = filter mentions_toll (warnings_of route)).
  { unfold extractTollInfo, warnings_of. destruct (RawRoute.warnings route); reflexivity. }
  assert (flag : TollInfo.hasTolls (extractTollInfo route)
                 = Nat.ltb 0 (List.length (TollInfo.warnings (extractTollInfo route))))
    by reflexivity.
  cbv zeta. split; [ exact kept | ].
  split; [ rewrite flag, kept; apply filter_nonempty | ].
  split.
  { rewrite flag. destruct (TollInfo.warnings (extractTollInfo route)); cbn;
      split; congruence. }
  split; [ intros warning; rewrite kept; apply filter_In | ].
  split; [ reflexivity | ].
  intros warning spelling lower present held. rewrite kept. apply filter_In.
  split; [ exact present | ].
  unfold mentions_toll. rewrite <- lower. apply includes_toLowerCase, held.
Qed.

(** ** The normalized route *)

(** X3.  The route built by [formatRouteResponse] from a route that has a
    leg has one step for each step of the first leg, in order, with the
    same maneuver and texts and an instruction in which no tag is left; its
    warnings are those of the provider; its toll warnings are among its
    warnings, and when [hasTolls] is false none of its warnings mentions a
    toll. *)
Theorem formatRouteResponse_steps_and_tolls (route : RawRoute.t) (leg : Leg.t) :
  hd_error (RawRoute.legs route) = Some leg ->
  exists formatted tollInfo,
    formatRouteResponse route = Return formatted /\
    List.length (Route.steps formatted) = List.length (Leg.steps leg) /\
    map Step.instruction (Route.steps formatted)
    = map (fun step => JS.strip_tags (RawStep.html_instructions step)) (Leg.steps leg) /\
    Forall (fun step => JS.has_tag (Step.instruction step) = false)
           (Route.steps formatted) /\
    map Step.maneuver (Route.steps formatted) = map RawStep.maneuver (Leg.steps leg) /\
    map Step.distance (Route.steps formatted)
    = map (fun step => TextValue.text (RawStep.distance step)) (Leg.steps leg) /\
    Route.warnings formatted = warnings_of route /\
    Route.tollInfo formatted = Some tollInfo /\
    incl (TollInfo.warnings tollInfo) (Route.warnings formatted) /\
    (TollInfo.hasTolls tollInfo = false ->
     forall warning, In warning (Route.warnings formatted) ->
                     mentions_toll warning = false).
Proof.
  intros Hleg. unfold formatRouteResponse. rewrite Hleg.
  eexists. exists (extractTollInfo route). split; [ reflexivity | ].
  cbn [Route.steps Route.warnings Route.tollInfo].
  split; [ apply length_map | ].
  split; [ rewrite map_map; reflexivity | ].
  split.
  { apply Forall_forall. intros step Hstep. apply in_map_iff in Hstep as [raw [<- _]].
    apply has_tag_strip_from. }
  split; [ rewrite map_map; reflexivity | ].
  split; [ rewrite map_map; reflexivity | ].
  split; [ reflexivity | ].
  split; [ reflexivity | ].
  assert (kept : TollInfo.warnings (extractTollInfo route)
                 = filter mentions_toll (warnings_of route)).
  { unfold extractTollInfo, warnings_of. destruct (RawRoute.warnings route); reflexivity. }
  fold (warnings_of route). split.
  - intros warning Hin. rewrite kept in Hin. apply filter_In in Hin. apply Hin.
  - intros none warning Hin.
    assert (flag : existsb mentions_toll (warnings_of route) = false).
    { rewrite <- filter_nonempty, <- kept. exact none. }
    destruct (mentions_toll warning) eqn:E; [ | reflexivity ].
    assert (T : existsb mentions_toll (warnings_of route) = true)
      by (apply existsb_exists; exists warning; split; assumption).
    congruence.
Qed.

Lemma formatRouteResponse_steps_and_tolls_sample :
  exists formatted tollInfo,
    formatRouteResponse (Sample.named_route "I-90 E" 2400) = Return formatted /\
    map Step.instruction (Route.steps formatted) = ["Turn left onto Main St"] /\
    Route.tollInfo formatted = Some tollInfo /\
    TollInfo.warnings tollInfo = ["This route has tolls."].
Proof.
  destruct (formatRouteResponse_steps_and_tolls
              (Sample.named_route "I-90 E" 2400) (Sample.leg (Some 2400%float)) eq_refl)
    as [formatted [tollInfo [E [_ [I [_ [_ [_ [_ [T _]]]]]]]]]].
  exists formatted, tollInfo.
  split; [ exact E | ]. split; [ exact I | ]. split; [ exact T | ].
  vm_compute in E. injection E as <-. vm_compute in T. injection T as <-. reflexivity.
Defined.

(** ** The avoid parameter *)

(** X4.  [buildAvoidString] gives [undefined] exactly when no flag is set,
    and never the empty text; otherwise it names each feature to avoid
    exactly when its flag is set, in the order tolls, highways, ferries. *)
Theorem buildAvoidString_tokens (options : RouteParams.t) :
  let tolls := JS.truthy_bool (RouteParams.avoidTolls options) in
  let highways := JS.truthy_bool (RouteParams.avoidHighways options) in
  let ferries := JS.truthy_bool (RouteParams.avoidFerries options) in
  (buildAvoidString options = None <-> tolls || highways || ferries = false) /\
  buildAvoidString options <> Some "" /\
  (forall avoid,
     buildAvoidString options = Some avoid ->
     JS.includes avoid "tolls" = tolls /\
     JS.includes avoid "highways" = highways /\
     JS.includes avoid "ferries" = ferries /\
     avoid
     = JS.join "|"
         ((if tolls then ["tolls"] else [])
          ++ (if highways then ["highways"] else [])
          ++ (if ferries then ["ferries"] else []))).
Proof.
  unfold buildAvoidString. cbv zeta.
  destruct (JS.truthy_bool (RouteParams.avoidTolls options)),
           (JS.truthy_bool (RouteParams.avoidHighways options)),
           (JS.truthy_bool (RouteParams.avoidFerries options)); cbn;
    (split; [ split; congruence | ]); (split; [ congruence | ]);
    intros avoid [= <-]; repeat split.
Qed.

(** ** What a tool call leaves behind *)

Lemma prefix_append (before rest : string) : prefix before (before ++ rest) = true.
Proof.
  induction before as [ | c before IH]; [ destruct rest; reflexivity | ].
  cbn. destruct (ascii_dec c c); [ exact IH | contradiction ].
Qed.






Lemma sample_warnings_lines `{Host} (this : GoogleMapsService.t)
  (origin destination : option string) (k : nat) :
  Forall (fun line => prefix "Failed to get alternative time for " line = true)
         (sample_warnings this origin destination k) /\
  List.length (sample_warnings this origin destination k)
  + List.length (sample_entries this origin destination k) = 3.
Proof.
  unfold sample_warnings, sample_entries, timeOffsets, JS.mapi.
  cbn [JS.mapi_from List.concat].
  destruct (sample_of_reply (sample_reply this origin destination k 0 1800));
    destruct (sample_of_reply (sample_reply this origin destination k 1 3600));
    destruct (sample_of_reply (sample_reply this origin destination k 2 7200));
    cbn [app List.length]; (split; [ | reflexivity ]);
    repeat constructor; apply prefix_append.
Qed.

(** The state after each handler. *)
Lemma handleCalculateRoute_world `{Host} `{Server} (args : Args.t) (w : World) :
  snd (handleCalculateRoute (Some args) w)
  = {| issued := issued w
                 ++ [calculateRoute_query googleMaps (calculate_route_params args)];
       console := console w |}.
Proof.
  unfold handleCalculateRoute, handleCalculateRoute_result, bind.
  fold (calculate_route_params args). rewrite calculateRoute_run.
  destruct (route_of_reply _); reflexivity.
Qed.

Lemma handleGetLiveTraffic_world `{Host} `{Server} (args : Args.t) (w : World) :
  snd (handleGetLiveTraffic (Some args) w)
  = snd (getTrafficInfo googleMaps (live_traffic_params args) w).
Proof.
  unfold handleGetLiveTraffic, handleGetLiveTraffic_result, bind.
  fold (live_traffic_params args).
  destruct (getTrafficInfo googleMaps (live_traffic_params args) w) as [[info | message] w'];
    reflexivity.
Qed.

Lemma handleEstimateCosts_world `{Host} `{Server} (args : Args.t) (w : World) :
  snd (handleEstimateCosts (Some args) w) = snd (resolve_route args w).
Proof.
  unfold handleEstimateCosts, handleEstimateCosts_result, bind.
  destruct (resolve_route args w) as [[[route | ] | message] w']; reflexivity.
Qed.

Lemma resolve_route_world `{Server} (args : Args.t) (w : World) :
  snd (resolve_route args w)
  = match Args.route args with
    | Some _ => w
    | None =>
        if JS.truthy_string (Args.origin args) && JS.truthy_string (Args.destination args)
        then {| issued := issued w
                          ++ [calculateRoute_query googleMaps (estimate_route_params args)];
                console := console w |}
        else w
    end.
Proof.
  unfold resolve_route. destruct (Args.route args); [ reflexivity | ].
  destruct (JS.truthy_string (Args.origin args) && JS.truthy_string (Args.destination args));
    [ | reflexivity ].
  unfold bind. rewrite calculateRoute_run. destruct (route_of_reply _); reflexivity.
Qed.

Lemma getTrafficInfo_world `{Host} (this : GoogleMapsService.t)
  (params : TrafficParams.t) (w : World) :
  let k := List.length (issued w) in
  let origin := TrafficParams.origin params in
  let destination := TrafficParams.destination params in
  let q := getTrafficInfo_query this params in
  snd (getTrafficInfo this params w)
  = match GoogleMapsService.client this k q with
    | Return (_ :: _) =>
        {| issued := issued w ++ q :: sample_queries this origin destination (S k);
           console := console w ++ sample_warnings this origin destination (S k) |}
    | Return [] | Throw _ =>
        {| issued := issued w ++ [q]; console := console w |}
    end.
Proof.
  intros k origin destination q.
  pose proof (getTrafficInfo_run this params w) as run. cbv zeta in run.
  fold k origin destination q in run. rewrite run.
  destruct (GoogleMapsService.client this k q) as [[ | route rest] | message];
    try reflexivity.
  destruct (formatRouteResponse route), (hd_error (RawRoute.legs route)); reflexivity.
Qed.

Lemma callTool_world `{Host} `{Server} (name : string) (args : option Args.t) (w : World) :
  snd (callTool name args w)
  = match args with
    | None => w
    | Some args =>
        if name =? "calculate_route" then
          {| issued := issued w
                       ++ [calculateRoute_query googleMaps (calculate_route_params args)];
             console := console w |}
        else if name =? "compare_routes" then compared_world args w
        else if name =? "get_live_traffic" then
          snd (getTrafficInfo googleMaps (live_traffic_params args) w)
        else if name =? "estimate_costs" then snd (resolve_route args w)
        else w
    end.
Proof.
  assert (caught : snd (callTool name args w) = snd (dispatch name args w)).
  { unfold callTool, try_catch. destruct (dispatch name args w) as [[r | m] w']; reflexivity. }
  rewrite caught. unfold dispatch.
  destruct args as [args | ].
  - destruct (name =? "calculate_route"); [ apply handleCalculateRoute_world | ].
    destruct (name =? "compare_routes");
      [ rewrite handleCompareRoutes_run; reflexivity | ].
    destruct (name =? "get_live_traffic"); [ apply handleGetLiveTraffic_world | ].
    destruct (name =? "estimate_costs"); [ apply handleEstimateCosts_world | ].
    reflexivity.
  - destruct (name =? "calculate_route"); [ reflexivity | ].
    destruct (name =? "compare_routes"); [ reflexivity | ].
    destruct (name =? "get_live_traffic"); [ reflexivity | ].
    destruct (name =? "estimate_costs"); reflexivity.
Qed.


(** X7.  Only [get_live_traffic] writes to the console: every other call
    leaves it as it was.  What [get_live_traffic] adds is at most three
    lines, each the warning of a failed sample; the earlier lines stay. *)
Theorem callTool_console `{Host} `{Server}
  (name : string) (args : option Args.t) (w : World) :
  exists written,
    console (snd (callTool name args w)) = console w ++ written /\
    (name <> "get_live_traffic" -> written = []) /\
    List.length written <= 3 /\
    Forall (fun line => prefix "Failed to get alternative time for " line = true) written.
Proof.
  rewrite callTool_world.
  assert (nothing : exists written : list string,
             console w = console w ++ written /\
             (name <> "get_live_traffic" -> written = []) /\
             List.length written <= 3 /\
             Forall (fun line => prefix "Failed to get alternative time for " line = true)
                    written).
  { exists []. rewrite app_nil_r. repeat split; [ cbn; lia | constructor ]. }
  destruct args as [args | ]; [ | exact nothing ].
  destruct (name =? "calculate_route"); [ exact nothing | ].
  destruct (name =? "compare_routes"); [ exact nothing | ].
  destruct (name =? "get_live_traffic") eqn:E.
  { apply String.eqb_eq in E.
    pose proof (getTrafficInfo_world googleMaps (live_traffic_params args) w) as run.
    cbv zeta in run. rewrite run.
    destruct (GoogleMapsService.client googleMaps _ _) as [[ | route rest] | message];
      [ exact nothing | | exact nothing ].
    eexists. split; [ reflexivity | ].
    split; [ congruence | ].
    pose proof (sample_warnings_lines googleMaps (TrafficParams.origin (live_traffic_params args))
                  (TrafficParams.destination (live_traffic_params args))
                  (S (List.length (issued w)))) as [lines count].
    split; [ lia | exact lines ]. }
  destruct (name =? "estimate_costs"); [ | exact nothing ].
  rewrite resolve_route_world. destruct (Args.route args); [ exact nothing | ].
  destruct (JS.truthy_string (Args.origin args) && JS.truthy_string (Args.destination args));
    exact nothing.
Qed.

(** ** The answers of the dispatcher *)

Lemma route_of_reply_message (reply : outcome (list RawRoute.t)) (message : string) :
  route_of_reply reply = Throw message ->
  prefix "Google Maps API error: " message = true.
Proof.
  destruct reply as [[ | route rest] | m]; cbn [route_of_reply].
  - intros [= <-]. reflexivity.
  - destruct (formatRouteResponse route); [ discriminate | ].
    intros [= <-]. exact (prefix_append "Google Maps API error: " _).
  - intros [= <-]. exact (prefix_append "Google Maps API error: " _).
Qed.

Lemma all_fulfilled_throw {A : Type} (os : list (outcome A)) (message : string) :
  all_fulfilled os = Throw message -> In (Throw message) os.
Proof.
  induction os as [ | [a | m] os IH]; cbn; [ discriminate | | ].
  - destruct (all_fulfilled os); [ discriminate | ].
    intros [= <-]. right. apply IH. reflexivity.
  - intros [= <-]. left. reflexivity.
Qed.

Lemma mapi_from_In {A B : Type} (f : A -> nat -> B) (l : list A) (start : nat) (y : B) :
  In y (JS.mapi_from start f l) -> exists x i, y = f x i.
Proof.
  revert start. induction l as [ | x l IH]; intros start; cbn; [ contradiction | ].
  intros [<- | Hy]; [ exists x, start; reflexivity | apply (IH _ Hy) ].
Qed.

Lemma handleCalculateRoute_answers `{Host} `{Server} (args : Args.t) (w : World) :
  answers "calculate_route" (fst (handleCalculateRoute (Some args) w))
    (fun message => prefix "Google Maps API error: " message = true).
Proof.
  unfold handleCalculateRoute, handleCalculateRoute_result, bind.
  rewrite calculateRoute_run.
  destruct (route_of_reply _) eqn:E; cbn.
  - eexists. split; reflexivity.
  - apply (route_of_reply_message _ _ E).
Qed.

Lemma handleCompareRoutes_answers `{Host} `{Server} (args : Args.t) (w : World) :
  answers "compare_routes" (fst (handleCompareRoutes (Some args) w))
    (fun message => prefix "Google Maps API error: " message = true).
Proof.
  rewrite handleCompareRoutes_run, handleCompareRoutes_result_run. cbn [fst].
  destruct (all_fulfilled _) as [routes | message] eqn:E.
  - assert (N : routes <> []).
    { apply all_fulfilled_length in E. unfold compared_replies in E.
      rewrite mapi_from_length in E. intros ->. discriminate. }
    pose proof (compare_and_rank_returns
                  match Args.compareOptions args with Some l => l | None => [] end
                  routes N) as C.
    destruct (compare_and_rank _ routes); [ | discriminate ].
    cbn. eexists. split; reflexivity.
  - cbn. apply all_fulfilled_throw in E. unfold compared_replies in E.
    apply mapi_from_In in E as [p [i E]]. symmetry in E.
    apply (route_of_reply_message _ _ E).
Qed.

Lemma handleGetLiveTraffic_answers `{Host} `{Server} (args : Args.t) (w : World) :
  answers "get_live_traffic" (fst (handleGetLiveTraffic (Some args) w))
    (fun message => prefix "Traffic info error: " message = true).
Proof.
  unfold handleGetLiveTraffic, handleGetLiveTraffic_result, bind.
  fold (live_traffic_params args).
  pose proof (getTrafficInfo_run googleMaps (live_traffic_params args) w) as run.
  cbv zeta in run. rewrite run.
  destruct (GoogleMapsService.client googleMaps _ _) as [[ | route rest] | message];
    [ exact (prefix_append "Traffic info error: " _) |
    | exact (prefix_append "Traffic info error: " _) ].
  destruct (formatRouteResponse route), (hd_error (RawRoute.legs route));
    try exact (prefix_append "Traffic info error: " _).
  cbn. eexists. split; reflexivity.
Qed.

Lemma handleEstimateCosts_answers `{Host} `{Server} (args : Args.t) (w : World) :
  answers "estimate_costs" (fst (handleEstimateCosts (Some args) w))
    (fun message =>
       prefix "Google Maps API error: " message = true \/
       message = "No route data available for cost estimation").
Proof.
  unfold handleEstimateCosts, handleEstimateCosts_result, bind, resolve_route.
  destruct (Args.route args) as [route | ].
  { cbn. eexists. split; reflexivity. }
  destruct (JS.truthy_string (Args.origin args) && JS.truthy_string (Args.destination args));
    [ | right; reflexivity ].
  unfold bind. rewrite calculateRoute_run.
  destruct (route_of_reply _) eqn:E; cbn.
  - eexists. split; reflexivity.
  - left. apply (route_of_reply_message _ _ E).
Qed.

(** The answers of the dispatcher, by kind. *)
Lemma dispatcher_answers `{Host} `{Server}
  (name : string) (args : option Args.t) (w : World) :
  exists text flag,
    fst (callTool name args w)
    = Return {| ToolResult.content :=
                  [ {| Content.type := "text"; Content.text := text |} ];
                ToolResult.isError := flag |} /\
    ((flag = None /\
      exists payload, text = JSON_stringify payload /\ tool_of payload = name) \/
     (flag = Some true /\
      exists message, text = ("Error: " ++ message)%string /\
                      failure_of name args message)).
Proof.
  assert (caught : fst (callTool name args w)
                   = Return match fst (dispatch name args w) with
                            | Return result => result
                            | Throw message => error_result message
                            end).
  { unfold callTool, try_catch.
    destruct (dispatch name args w) as [[result | message] w']; reflexivity. }
  assert (shape : forall expected,
             answers name (fst (dispatch name args w)) expected ->
             (forall message, expected message -> failure_of name args message) ->
             exists text flag,
               fst (callTool name args w)
               = Return {| ToolResult.content :=
                             [ {| Content.type := "text"; Content.text := text |} ];
                           ToolResult.isError := flag |} /\
               ((flag = None /\
                 exists payload, text = JSON_stringify payload /\ tool_of payload = name) \/
                (flag = Some true /\
                 exists message, text = ("Error: " ++ message)%string /\
                                 failure_of name args message))).
  { intros expected A F. rewrite caught. unfold answers in A.
    destruct (fst (dispatch name args w)) as [result | message].
    - destruct A as [payload [-> T]]. eexists. exists None.
      split; [ reflexivity | ]. left. split; [ reflexivity | ]. exists payload. split; trivial.
    - eexists. exists (Some true). split; [ reflexivity | ]. right.
      split; [ reflexivity | ]. exists message. split; [ reflexivity | apply F, A ]. }
  unfold dispatch in shape |- *.
  destruct (name =? "calculate_route") eqn:E1.
  { apply String.eqb_eq in E1. subst name. destruct args as [args | ].
    - apply (shape _ (handleCalculateRoute_answers args w)).
      intros message P. right. right. left. split; [ left; reflexivity | exact P ].
    - apply (shape (fun message => message = TypeError_destructure "origin")
               eq_refl).
      intros message ->. right. left. repeat split. }
  destruct (name =? "compare_routes") eqn:E2.
  { apply String.eqb_eq in E2. subst name. destruct args as [args | ].
    - apply (shape _ (handleCompareRoutes_answers args w)).
      intros message P. right. right. left. split; [ right; left; reflexivity | exact P ].
    - apply (shape (fun message => message = TypeError_destructure "origin")
               eq_refl).
      intros message ->. right. left. repeat split. }
  destruct (name =? "get_live_traffic") eqn:E3.
  { apply String.eqb_eq in E3. subst name. destruct args as [args | ].
    - apply (shape _ (handleGetLiveTraffic_answers args w)).
      intros message P. right. right. right. left. split; [ reflexivity | exact P ].
    - apply (shape (fun message => message = TypeError_destructure "origin")
               eq_refl).
      intros message ->. right. left. repeat split. }
  destruct (name =? "estimate_costs") eqn:E4.
  { apply String.eqb_eq in E4. subst name. destruct args as [args | ].
    - apply (shape _ (handleEstimateCosts_answers args w)).
      intros message [P | ->].
      + right. right. left. split; [ right; right; left; reflexivity | exact P ].
      + right. right. right. right. split; reflexivity.
    - apply (shape (fun message => message = TypeError_destructure "route")
               eq_refl).
      intros message ->. right. left. repeat split. }
  apply (shape (fun message => message = ("Unknown tool: " ++ name)%string) eq_refl).
  intros message ->. left. split; [ | reflexivity ].
  unfold is_tool, tool_names. cbn [existsb]. rewrite E1, E2, E3, E4. reflexivity.
Qed.

(** ** The catalog and the dispatcher *)

Lemma is_tool_catalog (name : string) :
  is_tool name = true <-> In name (map Tool.name tools).
Proof.
  unfold is_tool. rewrite existsb_exists. split.
  - intros [x [Hx E]]. apply String.eqb_eq in E. subst x. exact Hx.
  - intros Hin. exists name. split; [ exact Hin | apply String.eqb_refl ].
Qed.

(** X9.  The dispatcher knows exactly the tools of the catalog that
    [listTools] returns: a call is answered ["Unknown tool: <name>"] if and
    only if the name is not the name of a tool of the catalog.  Listing the
    tools sends no query and writes nothing. *)
Theorem callTool_knows_the_catalog `{Host} `{Server}
  (name : string) (args : option Args.t) (w : World) :
  listTools w = (Return tools, w) /\
  (In name (map Tool.name tools)
   <-> fst (callTool name args w)
       <> Return (error_result ("Unknown tool: " ++ name))).
Proof.
  split; [ reflexivity | ].
  rewrite <- is_tool_catalog.
  destruct (dispatcher_answers name args w)
    as [text [flag [E [[-> [payload [-> T]]] | [-> [message [-> F]]]]]]]; rewrite E.
  - split; [ discriminate | intros _ ].
    subst name. destruct payload; reflexivity.
  - split.
    + intros known [= same].
      destruct F as [[unknown _] | [[_ [_ P]] | [[_ P] | [[_ P] | [_ P]]]]];
        [ congruence | | | | ]; rewrite same in P; cbn in P; discriminate.
    + intros differs. destruct (is_tool name) eqn:known; [ reflexivity | ].
      destruct F as [[_ ->] | [[K _] | [[K _] | [[K _] | [K _]]]]];
        [ contradiction differs; reflexivity | congruence | | | ].
      * destruct K as [<- | [<- | [<- | []]]]; discriminate.
      * subst name. discriminate.
      * subst name. discriminate.
Qed.

(** ** The alternative times *)

(** X10.  [getAlternativeTimes] accounts for each of its three samples
    once: the entries it returns and the warnings it writes are three
    together; the keys of the entries are among ["+30min"], ["+60min"] and
    ["+120min"], each at most once; and it sends exactly three queries,
    whatever their answers. *)
Theorem getAlternativeTimes_accounts_for_each_sample `{Host}
  (this : GoogleMapsService.t) (origin destination : option string) (w : World) :
  exists results sent written,
    getAlternativeTimes this origin destination w
    = (Return results,
       {| issued := issued w ++ sent; console := console w ++ written |}) /\
    List.length sent = 3 /\
    List.length results + List.length written = 3 /\
    incl (map fst results) ["+30min"; "+60min"; "+120min"] /\
    NoDup (map fst results).
Proof.
  pose proof (getAlternativeTimes_run this origin destination w) as run.
  cbv zeta in run. rewrite run.
  eexists. eexists. eexists. split; [ reflexivity | ].
  split; [ reflexivity | ].
  unfold sample_entries, sample_warnings, timeOffsets, JS.mapi.
  cbn [JS.mapi_from List.concat].
  destruct sample_labels as [L30 [L60 L120]]. rewrite L30, L60, L120.
  destruct (sample_of_reply (sample_reply this origin destination _ 0 1800));
    destruct (sample_of_reply (sample_reply this origin destination _ 1 3600));
    destruct (sample_of_reply (sample_reply this origin destination _ 2 7200));
    cbn [app map fst List.length];
    (split; [ reflexivity | ]);
    (split; [ intros key Hkey; cbn in Hkey |- *; tauto | ]);
    repeat constructor; cbn; intuition discriminate.
Qed.

(** X11.  The duration of a sample and the duration in traffic of the
    normalized route are read from the same leg in two ways that differ
    on one point: the sample is the normalized duration in traffic, except
    that a duration in traffic that is zero (or not a number) is replaced
    by the plain duration. *)
Theorem alternative_duration_of_normalized
  (route : RawRoute.t) (rest : list RawRoute.t) (leg : Leg.t) :
  hd_error (RawRoute.legs route) = Some leg ->
  exists formatted,
    formatRouteResponse route = Return formatted /\
    alternative_duration (route :: rest)
    = Return (if JS.truthy_number (Route.durationInTraffic formatted)
              then Route.durationInTraffic formatted
              else Route.duration formatted).
Proof.
  intros Hleg. unfold formatRouteResponse, alternative_duration. cbn [hd_error].
  rewrite Hleg. eexists. split; [ reflexivity | ].
  cbn [Route.durationInTraffic Route.duration]. unfold JS.or_number.
  destruct (Leg.duration_in_traffic leg) as [in_traffic | ]; cbn [JS.truthy JS.ToNumber].
  - reflexivity.
  - destruct (JS.truthy_number (TextValue.value (Leg.duration leg))); reflexivity.
Qed.

Lemma alternative_duration_of_normalized_sample :
  alternative_duration [Sample.named_route "I-95 N" 0]
  = Return 3600%float /\
  option_map Route.durationInTraffic
    match formatRouteResponse (Sample.named_route "I-95 N" 0) with
    | Return formatted => Some formatted
    | Throw _ => None
    end
  = Some 0%float.
Proof.
  destruct (alternative_duration_of_normalized
              (Sample.named_route "I-95 N" 0) [] (Sample.leg (Some 0%float)) eq_refl)
    as [formatted [E D]].
  rewrite D, E. vm_compute in E. injection E as <-. split; reflexivity.
Defined.

(** ** The answer of [calculate_route] *)

(** X12.  When [calculate_route] returns, the route it reports is the
    first route of the answer of the service, normalized (no route is
    ranked again), and the traffic model it reports is the one that was
    sent in the query; the time stamp is read after the query. *)
Theorem calculate_route_reports_first_route `{Host} `{Server}
  (args : Args.t) (w : World) (result : RouteResult.t) :
  fst (handleCalculateRoute_result (Some args) w) = Return result ->
  let q := calculateRoute_query googleMaps (calculate_route_params args) in
  exists first others formatted,
    GoogleMapsService.client googleMaps (List.length (issued w)) q
    = Return (first :: others) /\
    formatRouteResponse first = Return formatted /\
    RouteView.summary (RouteResult.route result) = RawRoute.summary first /\
    RouteView.polyline (RouteResult.route result) = RawRoute.overview_polyline first /\
    RouteView.distance (RouteResult.route result) = Route.distance formatted /\
    RouteView.duration (RouteResult.route result) = Route.duration formatted /\
    RouteView.durationInTraffic (RouteResult.route result)
    = Route.durationInTraffic formatted /\
    RouteView.steps (RouteResult.route result) = Route.steps formatted /\
    RouteView.warnings (RouteResult.route result) = warnings_of first /\
    RouteView.tollInfo (RouteResult.route result) = Some (extractTollInfo first) /\
    RouteMetadata.trafficModel (RouteResult.metadata result) = Directions.traffic_model q /\
    RouteMetadata.timestamp (RouteResult.metadata result)
    = toISOString (JS.DateOfMillis (Date_now (S (List.length (issued w))))) /\
    RouteResult.success result = true.
Proof.
  unfold handleCalculateRoute_result, bind. fold (calculate_route_params args).
  rewrite calculateRoute_run.
  destruct (GoogleMapsService.client googleMaps _ _) as [[ | first others] | message];
    cbn [route_of_reply]; try discriminate.
  destruct (formatRouteResponse first) as [formatted | message] eqn:F; [ | discriminate ].
  rewrite timestamp_now_run. cbn [fst issued]. rewrite length_app, Nat.add_1_r.
  intros [= <-]. cbv zeta. exists first, others, formatted.
  split; [ reflexivity | ]. split; [ exact F | ].
  unfold formatRouteResponse in F.
  destruct (hd_error (RawRoute.legs first)); [ | discriminate ].
  injection F as <-. repeat split.
Qed.

Lemma calculate_route_reports_first_route_sample :
  exists result,
    fst (@handleCalculateRoute_result Sample.host
           (Sample.server (Sample.scripted_service Sample.three_routes))
           (Some Sample.trip) Sample.world)
    = Return result /\
    RouteView.summary (RouteResult.route result) = "I-95 N" /\
    RouteMetadata.trafficModel (RouteResult.metadata result) = "best_guess".
Proof.
  destruct (fst (@handleCalculateRoute_result Sample.host
                   (Sample.server (Sample.scripted_service Sample.three_routes))
                   (Some Sample.trip) Sample.world))
    as [result | message] eqn:E; [ | vm_compute in E; discriminate ].
  destruct (@calculate_route_reports_first_route Sample.host
              (Sample.server (Sample.scripted_service Sample.three_routes))
              Sample.trip Sample.world result E)
    as [first [others [formatted [R [_ [S [_ [_ [_ [_ [_ [_ [_ [T _]]]]]]]]]]]]]].
  exists result. split; [ reflexivity | ].
  rewrite S, T. vm_compute in R. injection R as <- _. split; reflexivity.
Defined.

(** ** Trip costs: defaults and missing estimates *)

Lemma or_number_default (d : float) : JS.or_number (JS.Num d) d = d.
Proof. unfold JS.or_number, JS.truthy. destruct (JS.truthy_number d); reflexivity. Qed.

(** X13.  A fuel efficiency or a fuel price that is missing, [null], zero
    or not a number is replaced by the figure of the configuration: the
    costs are those of a call that gives the configured figure.  The costs
    depend on the route through its distance and its toll information
    only. *)
Theorem calculateTripCosts_defaults `{Host} `{Server}
  (route : Route.t) (efficiency price : JS.numeric) :
  (JS.truthy efficiency = false ->
   calculateTripCosts route
     {| VehicleOptions.fuelEfficiency := efficiency; VehicleOptions.fuelPrice := price |}
   = calculateTripCosts route
       {| VehicleOptions.fuelEfficiency :=
            JS.Num (CostsConfig.vehicleFuelEfficiency (Config.costs config));
          VehicleOptions.fuelPrice := price |}) /\
  (JS.truthy price = false ->
   calculateTripCosts route
     {| VehicleOptions.fuelEfficiency := efficiency; VehicleOptions.fuelPrice := price |}
   = calculateTripCosts route
       {| VehicleOptions.fuelEfficiency := efficiency;
          VehicleOptions.fuelPrice :=
            JS.Num (CostsConfig.fuelPricePerLiter (Config.costs config)) |}) /\
  (forall other vehicleOptions,
     Route.distance other = Route.distance route ->
     Route.tollInfo other = Route.tollInfo route ->
     calculateTripCosts other vehicleOptions = calculateTripCosts route vehicleOptions).
Proof.
  split; [ | split ].
  - intros falsy. unfold calculateTripCosts.
    cbn [VehicleOptions.fuelEfficiency VehicleOptions.fuelPrice].
    rewrite or_number_default.
    replace (JS.or_number efficiency
               (CostsConfig.vehicleFuelEfficiency (Config.costs config)))
      with (CostsConfig.vehicleFuelEfficiency (Config.costs config))
      by (unfold JS.or_number; rewrite falsy; reflexivity).
    reflexivity.
  - intros falsy. unfold calculateTripCosts.
    cbn [VehicleOptions.fuelEfficiency VehicleOptions.fuelPrice].
    rewrite or_number_default.
    replace (JS.or_number price (CostsConfig.fuelPricePerLiter (Config.costs config)))
      with (CostsConfig.fuelPricePerLiter (Config.costs config))
      by (unfold JS.or_number; rewrite falsy; reflexivity).
    reflexivity.
  - intros other vehicleOptions D T. unfold calculateTripCosts. rewrite D, T. reflexivity.
Qed.

(** Adding [NaN] gives [NaN]. *)
Lemma float_add_nan (x : float) : (x + nan)%float = nan.
Proof.
  apply Prim2SF_inj. rewrite FloatAxioms.add_spec.
  change (Prim2SF nan) with S754_nan.
  unfold SF64add, SFadd. destruct (Prim2SF x); reflexivity.
Qed.

(** X14.  On a route whose toll information has no estimated cost at all
    (the property is missing, not [null]), the toll cost and the total cost
    are not numbers, whatever the distance and the vehicle, while a [null]
    estimate counts for a toll of zero. *)
Theorem calculateTripCosts_missing_estimate `{Host} `{Server}
  (route : Route.t) (tollInfo : TollInfo.t) (vehicleOptions : VehicleOptions.t) :
  Route.tollInfo route = Some tollInfo ->
  (TollInfo.estimatedCost tollInfo = JS.Undefined ->
   JS.is_number (TripCosts.tollCost (calculateTripCosts route vehicleOptions)) = false /\
   JS.is_number (TripCosts.totalCost (calculateTripCosts route vehicleOptions)) = false) /\
  (TollInfo.estimatedCost tollInfo = JS.Null ->
   TripCosts.tollCost (calculateTripCosts route vehicleOptions) = 0%float).
Proof.
  intros T. unfold calculateTripCosts. cbn [TripCosts.tollCost TripCosts.totalCost].
  rewrite T. split; intros ->; cbn [JS.ToNumber].
  - split; [ reflexivity | ]. rewrite float_add_nan. reflexivity.
  - reflexivity.
Qed.

Lemma calculateTripCosts_missing_estimate_sample :
  let route :=
    {| Route.summary := "I-95 N"; Route.distance := 100000; Route.duration := 3600;
       Route.durationInTraffic := 3600; Route.polyline := ""; Route.steps := [];
       Route.warnings := [];
       Route.tollInfo :=
         Some {| TollInfo.hasTolls := true; TollInfo.warnings := [];
                 TollInfo.estimatedCost := JS.Undefined |};
       Route.bounds := Sample.bounds; Route.copyrights := "" |} in
  JS.is_number
    (TripCosts.totalCost
       (@calculateTripCosts Sample.host (Sample.server Sample.steady_service)
          route Sample.vehicle))
  = false.
Proof.
  intros route.
  apply (@calculateTripCosts_missing_estimate Sample.host
           (Sample.server Sample.steady_service) route _ Sample.vehicle eq_refl).
  reflexivity.
Defined.

(** ** Traffic without a live estimate *)

(** A number above zero and below infinity is a positive finite float. *)
Lemma positive_finite (d : float) :
  (0 <? d)%float = true -> (d <? infinity)%float = true ->
  exists m e, Prim2SF d = S754_finite false m e.
Proof.
  rewrite !FloatAxioms.ltb_spec.
  change (Prim2SF 0) with (S754_zero false).
  change (Prim2SF infinity) with (S754_infinity false).
  destruct (Prim2SF d) as [s | s | | s m e]; cbn; try discriminate.
  - destruct s; discriminate.
  - destruct s; [ discriminate | ]. intros _ _. exists m, e. reflexivity.
Qed.

Lemma float_sub_diag (d : float) :
  (0 <? d)%float = true -> (d <? infinity)%float = true -> (d - d)%float = 0%float.
Proof.
  intros P F. destruct (positive_finite d P F) as [m [e E]].
  apply Prim2SF_inj. rewrite FloatAxioms.sub_spec, E.
  change (Prim2SF 0) with (S754_zero false).
  unfold SF64sub, SFsub. rewrite Z.sub_diag. reflexivity.
Qed.

Lemma float_zero_div (d : float) :
  (0 <? d)%float = true -> (d <? infinity)%float = true -> (0 / d)%float = 0%float.
Proof.
  intros P F. destruct (positive_finite d P F) as [m [e E]].
  apply Prim2SF_inj. rewrite FloatAxioms.div_spec, E.
  change (Prim2SF 0) with (S754_zero false). reflexivity.
Qed.

(** X15.  When the first leg of the answer has no duration in traffic and
    its duration is a positive finite number, [get_live_traffic] returns:
    it reports the duration as duration in traffic, a traffic delay of
    zero, and light traffic. *)
Theorem get_live_traffic_without_estimate `{Host} `{Server}
  (args : Args.t) (w : World) (route : RawRoute.t) (others : list RawRoute.t)
  (leg : Leg.t) :
  GoogleMapsService.client googleMaps (List.length (issued w))
    (getTrafficInfo_query googleMaps (live_traffic_params args))
  = Return (route :: others) ->
  hd_error (RawRoute.legs route) = Some leg ->
  Leg.duration_in_traffic leg = None ->
  (0 <? TextValue.value (Leg.duration leg))%float = true ->
  (TextValue.value (Leg.duration leg) <? infinity)%float = true ->
  exists result,
    fst (handleGetLiveTraffic_result (Some args) w) = Return result /\
    Traffic.currentDuration (TrafficResult.traffic result)
    = TextValue.value (Leg.duration leg) /\
    Traffic.durationInTraffic (TrafficResult.traffic result)
    = TextValue.value (Leg.duration leg) /\
    Traffic.trafficDelay (TrafficResult.traffic result) = 0%float /\
    Traffic.trafficCondition (TrafficResult.traffic result) = light.
Proof.
  intros reply Hleg none positive finite.
  unfold handleGetLiveTraffic_result, bind. fold (live_traffic_params args).
  pose proof (getTrafficInfo_run googleMaps (live_traffic_params args) w) as run.
  cbv zeta in run. rewrite run, reply.
  unfold formatRouteResponse. rewrite Hleg, none. rewrite timestamp_now_run.
  eexists. split; [ reflexivity | ].
  cbn [TrafficResult.traffic Traffic.currentDuration Traffic.durationInTraffic
       Traffic.trafficDelay Traffic.trafficCondition
       TrafficInfo.duration TrafficInfo.durationInTraffic].
  split; [ reflexivity | ]. split; [ reflexivity | ].
  split; [ apply float_sub_diag; assumption | ].
  unfold getTrafficCondition. cbn [TrafficInfo.duration TrafficInfo.durationInTraffic].
  rewrite (float_sub_diag _ positive finite), (float_zero_div _ positive finite).
  reflexivity.
Qed.

Lemma get_live_traffic_without_estimate_sample :
  exists result,
    fst (@handleGetLiveTraffic_result Sample.host (Sample.server Sample.steady_service)
           (Some Sample.trip) Sample.world)
    = Return result /\
    Traffic.trafficDelay (TrafficResult.traffic result) = 0%float /\
    Traffic.trafficCondition (TrafficResult.traffic result) = light.
Proof.
  destruct (@get_live_traffic_without_estimate Sample.host
              (Sample.server Sample.steady_service) Sample.trip Sample.world
              (Sample.raw_route None) [] (Sample.leg None)
              eq_refl eq_refl eq_refl eq_refl eq_refl)
    as [result [E [_ [_ [D C]]]]].
  exists result. repeat split; assumption.
Defined.

(** X16.  [getTrafficInfo] reads the durations of the first leg twice, for
    its own result and inside [formatRouteResponse]; the two readings
    agree: whenever it returns, its duration and its duration in traffic
    are those of the route it returns. *)
Theorem getTrafficInfo_durations_agree `{Host}
  (this : GoogleMapsService.t) (params : TrafficParams.t) (w : World)
  (info : TrafficInfo.t) :
  fst (getTrafficInfo this params w) = Return info ->
  TrafficInfo.duration info = Route.duration (TrafficInfo.route info) /\
  TrafficInfo.durationInTraffic info = Route.durationInTraffic (TrafficInfo.route info).
Proof.
  pose proof (getTrafficInfo_run this params w) as run. cbv zeta in run. rewrite run.
  destruct (GoogleMapsService.client this _ _) as [[ | route rest] | message];
    try discriminate.
  unfold formatRouteResponse.
  destruct (hd_error (RawRoute.legs route)) as [leg | ]; [ | discriminate ].
  cbn [fst]. intros [= <-]. split; reflexivity.
Qed.

Lemma getTrafficInfo_durations_agree_sample :
  exists info,
    fst (@getTrafficInfo Sample.host (Sample.scripted_service Sample.three_routes)
           (live_traffic_params Sample.trip) Sample.world)
    = Return info /\
    TrafficInfo.durationInTraffic info = 3000%float /\
    Route.durationInTraffic (TrafficInfo.route info) = 3000%float.
Proof.
  destruct (fst (@getTrafficInfo Sample.host (Sample.scripted_service Sample.three_routes)
                   (live_traffic_params Sample.trip) Sample.world))
    as [info | message] eqn:E; [ | vm_compute in E; discriminate ].
  destruct (@getTrafficInfo_durations_agree Sample.host
              (Sample.scripted_service Sample.three_routes)
              (live_traffic_params Sample.trip) Sample.world info E) as [_ D].
  exists info. split; [ reflexivity | ]. rewrite <- D.
  vm_compute in E. injection E as <-. split; reflexivity.
Defined.

(** ** Arguments that do not have the declared types *)

Lemma unchecked_calculateRoute_run
  (this : GoogleMapsService.t) (params : UncheckedParams.t) (w : World) :
  Unchecked.calculateRoute this params w
  = match JS.defaulted [] (UncheckedParams.waypoints params) with
    | None => (Throw ("Google Maps API error: " ++ TypeError_reading_null "length"), w)
    | Some waypoints => calculateRoute this (Unchecked.route_params params waypoints) w
    end.
Proof.
  unfold Unchecked.calculateRoute, Unchecked.query, calculateRoute_from, calculateRoute,
    try_catch, bind, lift.
  destruct (JS.defaulted [] (UncheckedParams.waypoints params)); reflexivity.
Qed.

(** On arguments of the declared types the handlers are those of the first
    part. *)
Lemma unchecked_calculate_route_query (this : GoogleMapsService.t)
  (args : UncheckedArgs.t) (waypoints : list string) :
  JS.defaulted [] (UncheckedArgs.waypoints args) = Some waypoints ->
  Unchecked.route_params (Unchecked.calculate_route_params args) waypoints
  = calculate_route_params (Unchecked.checked args).
Proof.
  unfold Unchecked.route_params, Unchecked.calculate_route_params, calculate_route_params,
    Unchecked.checked.
  cbn.
  destruct (UncheckedArgs.waypoints args); cbn; intros [= <-];
    destruct (UncheckedArgs.options args); reflexivity.
Qed.

Lemma unchecked_handleCalculateRoute_run `{Host} `{Server}
  (args : UncheckedArgs.t) (w : World) :
  Unchecked.handleCalculateRoute (Some args) w
  = if is_null (UncheckedArgs.waypoints args) then
      (Throw ("Google Maps API error: " ++ TypeError_reading_null "length"), w)
    else if is_null (UncheckedArgs.options args) then
      (match fst (handleCalculateRoute (Some (Unchecked.checked args)) w) with
       | Return _ => Throw (TypeError_reading_null "trafficModel")
       | Throw message => Throw message
       end,
       snd (handleCalculateRoute (Some (Unchecked.checked args)) w))
    else handleCalculateRoute (Some (Unchecked.checked args)) w.
Proof.
  unfold Unchecked.handleCalculateRoute, bind. rewrite unchecked_calculateRoute_run.
  pose proof (unchecked_calculate_route_query googleMaps args) as Q.
  unfold handleCalculateRoute, handleCalculateRoute_result, bind.
  fold (calculate_route_params (Unchecked.checked args)).
  change (UncheckedParams.waypoints (Unchecked.calculate_route_params args))
    with (JS.written (JS.defaulted [] (UncheckedArgs.waypoints args))).
  destruct (UncheckedArgs.waypoints args) as [ | | waypoints] eqn:W; cbn [is_null];
    cbn [JS.defaulted JS.written] in *; try reflexivity;
    rewrite (Q _ eq_refl);
    destruct (calculateRoute googleMaps _ w) as [[route | message] w'];
    destruct (UncheckedArgs.options args) as [ | | options] eqn:O; cbn; try reflexivity;
    rewrite O; reflexivity.
Qed.

Lemma unchecked_handleEstimateCosts_run `{Host} `{Server}
  (args : UncheckedArgs.t) (w : World) :
  Unchecked.handleEstimateCosts (Some args) w
  = if is_null (UncheckedArgs.vehicleOptions args) then
      (match fst (handleEstimateCosts (Some (Unchecked.checked args)) w) with
       | Return _ => Throw (TypeError_reading_null "fuelEfficiency")
       | Throw message => Throw message
       end,
       snd (handleEstimateCosts (Some (Unchecked.checked args)) w))
    else handleEstimateCosts (Some (Unchecked.checked args)) w.
Proof.
  unfold Unchecked.handleEstimateCosts, handleEstimateCosts, handleEstimateCosts_result, bind.
  destruct (resolve_route (Unchecked.checked args) w) as [[[route | ] | message] w'];
    destruct (UncheckedArgs.vehicleOptions args) as [ | | vehicleOptions] eqn:V;
    cbn; rewrite ?V; reflexivity.
Qed.

Lemma run_all_ext {A : Type} (calls calls' : list (M A)) :
  Forall2 (fun m m' => forall w, m w = m' w) calls calls' ->
  forall w, run_all calls w = run_all calls' w.
Proof.
  induction 1 as [ | m m' calls calls' E _ IH]; intros w; cbn; [ reflexivity | ].
  rewrite E. destruct (m' w) as [o w']. rewrite IH. reflexivity.
Qed.

Lemma run_all_rejected {A B : Type} (call : B -> M A) (message : string) (l : list B) :
  (forall x w, call x w = (Throw message, w)) ->
  forall w, run_all (map call l) w = (map (fun _ => Throw message) l, w).
Proof.
  intros E. induction l as [ | x l IH]; intros w; cbn; [ reflexivity | ].
  rewrite E, IH. reflexivity.
Qed.

Lemma unchecked_compare_queries `{Server} (args : UncheckedArgs.t) :
  is_null (UncheckedArgs.waypoints args) = false ->
  (forall w,
     Unchecked.calculateRoute googleMaps (Unchecked.default_route_params args) w
     = calculateRoute googleMaps (default_route_params (Unchecked.checked args)) w) /\
  (forall option w,
     Unchecked.calculateRoute googleMaps (Unchecked.option_route_params args option) w
     = calculateRoute googleMaps (option_route_params (Unchecked.checked args) option) w).
Proof.
  intros N. split; intros; rewrite unchecked_calculateRoute_run;
    unfold Unchecked.route_params, Unchecked.default_route_params,
      Unchecked.option_route_params, default_route_params, option_route_params,
      Unchecked.checked; cbn;
    destruct (UncheckedArgs.waypoints args); try discriminate; reflexivity.
Qed.

Lemma unchecked_compare_null_waypoints `{Server} (args : UncheckedArgs.t) :
  is_null (UncheckedArgs.waypoints args) = true ->
  let failed := ("Google Maps API error: " ++ TypeError_reading_null "length")%string in
  (forall w,
     Unchecked.calculateRoute googleMaps (Unchecked.default_route_params args) w
     = (Throw failed, w)) /\
  (forall option w,
     Unchecked.calculateRoute googleMaps (Unchecked.option_route_params args option) w
     = (Throw failed, w)).
Proof.
  intros N. split; intros; rewrite unchecked_calculateRoute_run;
    unfold Unchecked.default_route_params, Unchecked.option_route_params; cbn;
    destruct (UncheckedArgs.waypoints args); try discriminate; reflexivity.
Qed.

Lemma Forall2_map_pointwise {A B : Type} (R : B -> B -> Prop) (f g : A -> B) (l : list A) :
  (forall x, R (f x) (g x)) -> Forall2 R (map f l) (map g l).
Proof.
  intros E. induction l as [ | x l IH]; cbn; constructor; [ apply E | exact IH ].
Qed.

(** The comparison, case by case: [waypoints] that are [null] make every
    query fail before it is sent; [compareOptions] that are [null] stop the
    handler after the default query was started. *)
Lemma unchecked_handleCompareRoutes_run `{Host} `{Server}
  (args : UncheckedArgs.t) (p : Process.t) :
  Unchecked.handleCompareRoutes (Some args) p
  = let failed := ("Google Maps API error: " ++ TypeError_reading_null "length")%string in
    let default :=
      calculateRoute googleMaps (default_route_params (Unchecked.checked args))
        (Process.world p) in
    if is_null (UncheckedArgs.waypoints args) then
      if is_null (UncheckedArgs.compareOptions args) then
        (Throw (TypeError_not_iterable "compareOptions"),
         {| Process.world := Process.world p;
            Process.unhandled := Process.unhandled p ++ [failed] |})
      else (Throw failed, p)
    else
      if is_null (UncheckedArgs.compareOptions args) then
        (Throw (TypeError_not_iterable "compareOptions"),
         {| Process.world := snd default;
            Process.unhandled :=
              Process.unhandled p
              ++ match fst default with
                 | Throw message => [message]
                 | Return _ => []
                 end |})
      else Async.await (handleCompareRoutes (Some (Unchecked.checked args))) p.
Proof.
  cbv zeta.
  unfold Unchecked.handleCompareRoutes, Async.bind, Async.start, Async.start_all,
    Async.abandon, Async.throw, Async.await, Async.rejections.
  destruct (is_null (UncheckedArgs.waypoints args)) eqn:W.
  - destruct (unchecked_compare_null_waypoints args W) as [D O]. cbv zeta in D, O.
    rewrite D.
    destruct (UncheckedArgs.compareOptions args) as [ | | compareOptions];
      cbn [is_null JS.defaulted].
    + cbn. destruct p; reflexivity.
    + reflexivity.
    + rewrite (run_all_rejected _ _ compareOptions O). cbn. destruct p; reflexivity.
  - destruct (unchecked_compare_queries args W) as [D O].
    rewrite D.
    destruct (calculateRoute googleMaps (default_route_params (Unchecked.checked args))
                (Process.world p)) as [default w1] eqn:E.
    destruct (UncheckedArgs.compareOptions args) as [ | | compareOptions] eqn:C;
      cbn [is_null JS.defaulted].
    + unfold handleCompareRoutes, handleCompareRoutes_result, bind, Promise_all,
        routePromises.
      replace (Args.compareOptions (Unchecked.checked args)) with (@None (list CompareOption.t))
        by (unfold Unchecked.checked; cbn; rewrite C; reflexivity).
      cbn [map run_all Process.world Process.unhandled]. rewrite E.
      unfold lift. destruct (all_fulfilled [default]) as [routes | message];
        [ | reflexivity ].
      destruct (compare_and_rank [] routes); reflexivity.
    + destruct default; reflexivity.
    + rewrite (run_all_ext _
                 (map (fun option =>
                         calculateRoute googleMaps
                           (option_route_params (Unchecked.checked args) option))
                    compareOptions))
        by (apply Forall2_map_pointwise; intros option w; apply O).
      unfold handleCompareRoutes, handleCompareRoutes_result, bind, Promise_all,
        routePromises.
      replace (Args.compareOptions (Unchecked.checked args)) with (Some compareOptions)
        by (unfold Unchecked.checked; cbn; rewrite C; reflexivity).
      cbn [run_all Process.world Process.unhandled]. rewrite E.
      destruct (run_all _ w1) as [others w2].
      unfold lift. destruct (all_fulfilled (default :: others)) as [routes | message];
        [ | reflexivity ].
      destruct (compare_and_rank compareOptions routes); reflexivity.
Qed.

Lemma unchecked_callTool_run `{Host} `{Server}
  (name : string) (args : option UncheckedArgs.t) (p : Process.t) :
  Unchecked.callTool name args p
  = (Return match fst (Unchecked.dispatch name args p) with
            | Return result => result
            | Throw message => error_result message
            end,
     snd (Unchecked.dispatch name args p)).
Proof.
  unfold Unchecked.callTool, callTool_with, Async.try_catch, Async.ret.
  fold (Unchecked.dispatch name args).
  destruct (Unchecked.dispatch name args p) as [[result | message] p']; reflexivity.
Qed.

Lemma unchecked_dispatch_unknown `{Host} `{Server}
  (name : string) (args : option UncheckedArgs.t) :
  is_tool name = false -> Unchecked.dispatch name args = Async.throw ("Unknown tool: " ++ name).
Proof.
  unfold is_tool, tool_names, Unchecked.dispatch, dispatch_with. cbn [existsb].
  destruct (name =? "calculate_route"); [ discriminate | ].
  destruct (name =? "compare_routes"); [ discriminate | ].
  destruct (name =? "get_live_traffic"); [ discriminate | ].
  destruct (name =? "estimate_costs"); [ discriminate | ].
  reflexivity.
Qed.


Lemma await_world {A : Type} (m : M A) (p : Process.t) :
  Process.world (snd (Async.await m p)) = snd (m (Process.world p)).
Proof. unfold Async.await. destruct (m (Process.world p)); reflexivity. Qed.

Lemma await_outcome {A : Type} (m : M A) (p : Process.t) :
  fst (Async.await m p) = fst (m (Process.world p)).
Proof. unfold Async.await. destruct (m (Process.world p)); reflexivity. Qed.


(** On arguments of the declared types the dispatcher is the one of the
    first part, and nothing is left unhandled. *)
Lemma callTool_at_declared_types `{Host} `{Server}
  (name : string) (args : UncheckedArgs.t) (p : Process.t) :
  conforms args = true ->
  Unchecked.callTool name (Some args) p
  = Async.await (callTool name (Some (Unchecked.checked args))) p.
Proof.
  unfold conforms. intros C.
  apply andb_prop in C as [C V]. apply andb_prop in C as [C O]. apply andb_prop in C as [W X].
  apply negb_true_iff in W, X, O, V.
  assert (caught : forall (m : M ToolResult.t),
             Async.try_catch (Async.await m)
               (fun message => Async.ret (error_result message)) p
             = Async.await (try_catch m (fun message => ret (error_result message))) p).
  { intros m. unfold Async.try_catch, Async.await, try_catch, Async.ret, ret.
    destruct (m (Process.world p)) as [[result | message] w]; reflexivity. }
  unfold Unchecked.callTool, callTool_with, callTool, Unchecked.dispatch, dispatch_with,
    dispatch.
  destruct (name =? "calculate_route").
  { rewrite caught. unfold Async.await, try_catch.
    rewrite unchecked_handleCalculateRoute_run, W, X. reflexivity. }
  destruct (name =? "compare_routes").
  { rewrite <- caught. unfold Async.try_catch.
    rewrite unchecked_handleCompareRoutes_run. cbv zeta. rewrite W, O. reflexivity. }
  destruct (name =? "get_live_traffic"); [ rewrite caught; reflexivity | ].
  destruct (name =? "estimate_costs").
  { rewrite caught. unfold Async.await, try_catch.
    rewrite unchecked_handleEstimateCosts_run, V. reflexivity. }
  unfold Async.try_catch, Async.throw, Async.ret, Async.await, try_catch, throw, ret.
  destruct p; reflexivity.
Qed.

Lemma answers_weaken `{Host} (name : string) (o : outcome ToolResult.t)
  (expected expected' : string -> Prop) :
  answers name o expected ->
  (forall message, expected message -> expected' message) ->
  answers name o expected'.
Proof. destruct o; cbn; [ trivial | auto ]. Qed.

Lemma answers_then_throws `{Host} (name : string) (o : outcome ToolResult.t)
  (late : string) (expected expected' : string -> Prop) :
  answers name o expected ->
  expected' late ->
  (forall message, expected message -> expected' message) ->
  answers name
    match o with
    | Return _ => Throw late
    | Throw message => Throw message
    end
    expected'.
Proof. destruct o; cbn; auto. Qed.

Lemma unchecked_dispatch_answers `{Host} `{Server}
  (name : string) (args : UncheckedArgs.t) (p : Process.t) :
  is_tool name = true ->
  answers name (fst (Unchecked.dispatch name (Some args) p))
    (failure_of_unchecked name (Some args)).
Proof.
  intros T. unfold Unchecked.dispatch, dispatch_with.
  assert (api : forall name' message,
             In name' ["calculate_route"; "compare_routes"; "estimate_costs"] ->
             prefix "Google Maps API error: " message = true ->
             failure_of_unchecked name' (Some args) message).
  { intros name' message I P. left. right. right. left. split; assumption. }
  destruct (name =? "calculate_route") eqn:E1.
  { apply String.eqb_eq in E1. subst name.
    rewrite await_outcome, unchecked_handleCalculateRoute_run.
    destruct (is_null (UncheckedArgs.waypoints args)).
    { apply api; [ left; reflexivity | exact (prefix_append "Google Maps API error: " _) ]. }
    pose proof (handleCalculateRoute_answers (Unchecked.checked args) (Process.world p)) as A.
    destruct (is_null (UncheckedArgs.options args)) eqn:O.
    - cbn [fst]. apply (answers_then_throws _ _ _ _ _ A).
      + right. exists args. split; [ reflexivity | ]. left.
        destruct (UncheckedArgs.options args); try discriminate. repeat split.
      + intros message P. apply api; [ left; reflexivity | exact P ].
    - apply (answers_weaken _ _ _ _ A).
      intros message P. apply api; [ left; reflexivity | exact P ]. }
  destruct (name =? "compare_routes") eqn:E2.
  { apply String.eqb_eq in E2. subst name.
    rewrite unchecked_handleCompareRoutes_run. cbv zeta.
    assert (loop : is_null (UncheckedArgs.compareOptions args) = true ->
                   failure_of_unchecked "compare_routes" (Some args)
                     (TypeError_not_iterable "compareOptions")).
    { intros C. right. exists args. split; [ reflexivity | ]. right. left.
      destruct (UncheckedArgs.compareOptions args); try discriminate. repeat split. }
    destruct (is_null (UncheckedArgs.waypoints args)).
    { destruct (is_null (UncheckedArgs.compareOptions args)); [ apply loop; reflexivity | ].
      apply api; [ right; left; reflexivity
                 | exact (prefix_append "Google Maps API error: " _) ]. }
    destruct (is_null (UncheckedArgs.compareOptions args)); [ apply loop; reflexivity | ].
    rewrite await_outcome.
    apply (answers_weaken _ _ _ _
             (handleCompareRoutes_answers (Unchecked.checked args) (Process.world p))).
    intros message P. apply api; [ right; left; reflexivity | exact P ]. }
  destruct (name =? "get_live_traffic") eqn:E3.
  { apply String.eqb_eq in E3. subst name. rewrite await_outcome.
    apply (answers_weaken _ _ _ _
             (handleGetLiveTraffic_answers (Unchecked.checked args) (Process.world p))).
    intros message P. left. right. right. right. left. split; [ reflexivity | exact P ]. }
  destruct (name =? "estimate_costs") eqn:E4.
  { apply String.eqb_eq in E4. subst name.
    rewrite await_outcome, unchecked_handleEstimateCosts_run.
    pose proof (handleEstimateCosts_answers (Unchecked.checked args) (Process.world p)) as A.
    assert (known : forall message,
               prefix "Google Maps API error: " message = true \/
               message = "No route data available for cost estimation" ->
               failure_of_unchecked "estimate_costs" (Some args) message).
    { intros message [P | ->].
      - apply api; [ right; right; left; reflexivity | exact P ].
      - left. right. right. right. right. split; reflexivity. }
    destruct (is_null (UncheckedArgs.vehicleOptions args)) eqn:V.
    - cbn [fst]. apply (answers_then_throws _ _ _ _ _ A); [ | exact known ].
      right. exists args. split; [ reflexivity | ]. right. right.
      destruct (UncheckedArgs.vehicleOptions args); try discriminate. repeat split.
    - apply (answers_weaken _ _ _ _ A known). }
  unfold is_tool, tool_names in T. cbn [existsb] in T.
  rewrite E1, E2, E3, E4 in T. discriminate.
Qed.

(** ** Failures of [calculateRoute] *)

(** What [calculateRoute] does once the query is built, or once building
    it has raised. *)
Lemma calculateRoute_from_run
  (this : GoogleMapsService.t) (built : outcome Directions.params) (w : World) :
  calculateRoute_from this built w
  = match built with
    | Throw cause => (Throw ("Google Maps API error: " ++ cause), w)
    | Return query =>
        (route_of_reply (GoogleMapsService.client this (List.length (issued w)) query),
         {| issued := issued w ++ [query]; console := console w |})
    end.
Proof.
  unfold calculateRoute_from, try_catch, bind, lift.
  destruct built as [query | cause]; [ | reflexivity ].
  rewrite directions_run.
  destruct (GoogleMapsService.client this _ _) as [[ | route rest] | message]; cbn;
    try reflexivity.
  destruct (formatRouteResponse route); reflexivity.
Qed.

(** C3, as the code has it.  [calculateRoute] fails in two ways.  When
    building the query raises an error, whatever the argument is, the call
    fails before any query is sent; this is what happens when [waypoints]
    is [null], on reading its length.  Otherwise one query is sent, and the
    call fails exactly when that query does not deliver: the service
    rejects it, answers with no route, or answers with a first route that
    has no leg.  Every failure is the same kind of error, whose message is
    ["Google Maps API error: "] followed by the underlying message: the
    message of the service when it rejects the query, ["No route found"]
    when it returns no route.  The cases differ by the text of the message
    only. *)
Theorem calculateRoute_failure_causes (this : GoogleMapsService.t) (w : World) :
  (forall built : outcome Directions.params,
     match built with
     | Throw cause =>
         calculateRoute_from this built w
         = (Throw ("Google Maps API error: " ++ cause), w)
     | Return query =>
         let reply := GoogleMapsService.client this (List.length (issued w)) query in
         issued (snd (calculateRoute_from this built w)) = issued w ++ [query] /\
         is_return (fst (calculateRoute_from this built w)) = delivers reply /\
         fst (calculateRoute_from this built w)
         = match reply with
           | Throw message => Throw ("Google Maps API error: " ++ message)
           | Return [] => Throw ("Google Maps API error: " ++ "No route found")
           | Return (route :: _) =>
               match formatRouteResponse route with
               | Return formatted => Return formatted
               | Throw message => Throw ("Google Maps API error: " ++ message)
               end
           end
     end /\
     (forall message,
        fst (calculateRoute_from this built w) = Throw message ->
        prefix "Google Maps API error: " message = true)) /\
  (forall params : UncheckedParams.t,
     match JS.defaulted [] (UncheckedParams.waypoints params) with
     | None =>
         Unchecked.calculateRoute this params w
         = (Throw ("Google Maps API error: " ++ TypeError_reading_null "length"), w)
     | Some waypoints =>
         let query := calculateRoute_query this (Unchecked.route_params params waypoints) in
         let reply := GoogleMapsService.client this (List.length (issued w)) query in
         issued (snd (Unchecked.calculateRoute this params w)) = issued w ++ [query] /\
         is_return (fst (Unchecked.calculateRoute this params w)) = delivers reply /\
         fst (Unchecked.calculateRoute this params w)
         = match reply with
           | Throw message => Throw ("Google Maps API error: " ++ message)
           | Return [] => Throw ("Google Maps API error: " ++ "No route found")
           | Return (route :: _) =>
               match formatRouteResponse route with
               | Return formatted => Return formatted
               | Throw message => Throw ("Google Maps API error: " ++ message)
               end
           end
     end).
Proof.
  split.
  - intros built. rewrite calculateRoute_from_run.
    destruct built as [query | cause].
    + cbn [fst snd issued]. split.
      * split; [ reflexivity | ]. split; [ apply route_of_reply_delivers | reflexivity ].
      * intros message. apply route_of_reply_message.
    + split; [ reflexivity | ].
      intros message [= <-]. exact (prefix_append "Google Maps API error: " _).
  - intros params. rewrite unchecked_calculateRoute_run.
    destruct (JS.defaulted [] (UncheckedParams.waypoints params)) as [waypoints | ];
      [ | reflexivity ].
    rewrite calculateRoute_run. cbn [fst snd issued].
    split; [ reflexivity | ]. split; [ apply route_of_reply_delivers | reflexivity ].
Qed.

(** C3, the two failures are not distinct: when the service finds no
    route, the error is not surfaced as ["No route found"] but wrapped as an
    API error, and it is the very error raised when the service rejects the
    query with that message; a caller cannot tell the two apart. *)
Lemma calculateRoute_errors_not_distinct :
  fst (Unchecked.calculateRoute Sample.empty_service
         Sample.unchecked_route_params Sample.world)
  = Throw "Google Maps API error: No route found" /\
  fst (Unchecked.calculateRoute (Sample.rejecting_service "No route found")
         Sample.unchecked_route_params Sample.world)
  = fst (Unchecked.calculateRoute Sample.empty_service
           Sample.unchecked_route_params Sample.world).
Proof. split; reflexivity. Qed.

Example calculateRoute_null_waypoints :
  Unchecked.calculateRoute Sample.steady_service
    {| UncheckedParams.origin := Some "New York, NY";
       UncheckedParams.destination := Some "Boston, MA";
       UncheckedParams.waypoints := JS.IsNull;
       UncheckedParams.alternatives := None;
       UncheckedParams.avoidTolls := None;
       UncheckedParams.avoidHighways := None;
       UncheckedParams.avoidFerries := None;
       UncheckedParams.departureTime := None;
       UncheckedParams.trafficModel := None |}
    Sample.world
  = (Throw "Google Maps API error: Cannot read properties of null (reading 'length')",
     Sample.world).
Proof. reflexivity. Qed.

(** ** The dispatcher *)



(** The same call on arguments of the declared types leaves nothing
    unhandled. *)
Example callTool_compare_routes_awaits_all :
  Process.unhandled
    (snd (@Unchecked.callTool Sample.host
            (Sample.server (Sample.rejecting_service "Request failed with status code 403"))
            "compare_routes" (Some Sample.unchecked_trip) Sample.process))
  = [].
Proof. reflexivity. Qed.

(** ** What a tool call sends and answers, on unchecked arguments *)

(** X6.  The number of queries a tool call sends to the directions service:
    none without arguments or for an unknown tool.  [calculate_route] sends
    one, and none when [waypoints] is [null].  [compare_routes] sends none
    when [waypoints] is [null]; otherwise one more than there are compare
    options, whether the comparison succeeds or not, and the default one
    only when [compareOptions] is [null].  [get_live_traffic] sends four
    when the first answer holds a route and one otherwise.
    [estimate_costs] sends one when no route is given and both an origin
    and a destination are, and none otherwise. *)
Theorem callTool_query_count `{Host} `{Server}
  (name : string) (args : option UncheckedArgs.t) (p : Process.t) :
  List.length (issued (Process.world (snd (Unchecked.callTool name args p))))
  = List.length (issued (Process.world p))
    + match args with
      | None => 0
      | Some args =>
          if name =? "calculate_route" then
            if is_null (UncheckedArgs.waypoints args) then 0 else 1
          else if name =? "compare_routes" then
            if is_null (UncheckedArgs.waypoints args) then 0
            else match UncheckedArgs.compareOptions args with
                 | JS.Holds compareOptions => S (List.length compareOptions)
                 | JS.Missing | JS.IsNull => 1
                 end
          else if name =? "get_live_traffic" then
            match GoogleMapsService.client googleMaps
                    (List.length (issued (Process.world p)))
                    (getTrafficInfo_query googleMaps
                       {| TrafficParams.origin := UncheckedArgs.origin args;
                          TrafficParams.destination := UncheckedArgs.destination args;
                          TrafficParams.departureTime :=
                            Some match UncheckedArgs.departureTime args with
                                 | Some text => text
                                 | None => "now"
                                 end |}) with
            | Return (_ :: _) => 4
            | Return [] | Throw _ => 1
            end
          else if name =? "estimate_costs" then
            match UncheckedArgs.route args with
            | Some _ => 0
            | None =>
                if JS.truthy_string (UncheckedArgs.origin args)
                   && JS.truthy_string (UncheckedArgs.destination args)
                then 1 else 0
            end
          else 0
      end.
Proof.
  rewrite unchecked_callTool_run. cbn [snd]. unfold Unchecked.dispatch, dispatch_with.
  destruct args as [args | ].
  2: { destruct (name =? "calculate_route"); [ rewrite await_world; cbn; lia | ].
       destruct (name =? "compare_routes"); [ cbn; lia | ].
       destruct (name =? "get_live_traffic"); [ rewrite await_world; cbn; lia | ].
       destruct (name =? "estimate_costs"); [ rewrite await_world; cbn; lia | ].
       cbn. lia. }
  destruct (name =? "calculate_route").
  { rewrite await_world, unchecked_handleCalculateRoute_run.
    destruct (is_null (UncheckedArgs.waypoints args)); [ cbn; lia | ].
    assert (one : List.length (issued (snd (handleCalculateRoute
                                               (Some (Unchecked.checked args)) (Process.world p))))
                  = List.length (issued (Process.world p)) + 1)
      by (rewrite handleCalculateRoute_world; cbn [issued]; rewrite length_app; reflexivity).
    destruct (is_null (UncheckedArgs.options args)); exact one. }
  destruct (name =? "compare_routes").
  { rewrite unchecked_handleCompareRoutes_run. cbv zeta.
    destruct (is_null (UncheckedArgs.waypoints args)).
    { destruct (is_null (UncheckedArgs.compareOptions args)); cbn; lia. }
    destruct (UncheckedArgs.compareOptions args) as [ | | compareOptions] eqn:C;
      cbn [is_null snd Process.world].
    - rewrite await_world, handleCompareRoutes_run. cbn [snd].
      unfold compared_world, compared_params, Unchecked.checked. cbn [issued].
      rewrite length_app, !length_map. cbn. rewrite C. reflexivity.
    - rewrite calculateRoute_run. cbn [snd issued]. rewrite length_app. reflexivity.
    - rewrite await_world, handleCompareRoutes_run. cbn [snd].
      unfold compared_world, compared_params, Unchecked.checked. cbn [issued].
      rewrite length_app, !length_map. cbn. rewrite C. cbn. rewrite length_map.
      reflexivity. }
  destruct (name =? "get_live_traffic").
  { rewrite await_world. unfold Unchecked.handleGetLiveTraffic. cbn [option_map].
    rewrite handleGetLiveTraffic_world.
    pose proof (getTrafficInfo_world googleMaps
                  (live_traffic_params (Unchecked.checked args)) (Process.world p)) as run.
    cbv zeta in run. rewrite run.
    change (live_traffic_params (Unchecked.checked args))
      with {| TrafficParams.origin := UncheckedArgs.origin args;
              TrafficParams.destination := UncheckedArgs.destination args;
              TrafficParams.departureTime :=
                Some match UncheckedArgs.departureTime args with
                     | Some text => text
                     | None => "now"
                     end |}.
    destruct (GoogleMapsService.client googleMaps _ _) as [[ | route rest] | message];
      cbn [issued]; rewrite length_app; reflexivity. }
  destruct (name =? "estimate_costs").
  { rewrite await_world, unchecked_handleEstimateCosts_run.
    assert (count : List.length (issued (snd (handleEstimateCosts
                                                 (Some (Unchecked.checked args)) (Process.world p))))
                    = List.length (issued (Process.world p))
                      + match UncheckedArgs.route args with
                        | Some _ => 0
                        | None =>
                            if JS.truthy_string (UncheckedArgs.origin args)
                               && JS.truthy_string (UncheckedArgs.destination args)
                            then 1 else 0
                        end).
    { rewrite handleEstimateCosts_world, resolve_route_world.
      change (Args.route (Unchecked.checked args)) with (UncheckedArgs.route args).
      change (Args.origin (Unchecked.checked args)) with (UncheckedArgs.origin args).
      change (Args.destination (Unchecked.checked args))
        with (UncheckedArgs.destination args).
      destruct (UncheckedArgs.route args); [ lia | ].
      destruct (JS.truthy_string (UncheckedArgs.origin args)
                && JS.truthy_string (UncheckedArgs.destination args));
        [ cbn [issued]; rewrite length_app; reflexivity | lia ]. }
    destruct (is_null (UncheckedArgs.vehicleOptions args)); exact count. }
  cbn. lia.
Qed.

(** X8.  Every answer of the dispatcher has one item of content, of type
    text.  It is either the serialized result of the handler of the tool
    that was called, with no error flag, or an error result with the flag
    set whose text is ["Error: "] followed by a message of a known kind:
    an unknown tool, missing arguments, an error of the directions service
    for the three tools that calculate a route (which includes [waypoints]
    that are [null]), an error of the traffic information for
    [get_live_traffic], no route data for [estimate_costs], or the
    [TypeError] of the place where a [null] is read after the queries:
    [options] in [calculate_route], [compareOptions] in [compare_routes],
    [vehicleOptions] in [estimate_costs]. *)
Theorem callTool_answer_kinds `{Host} `{Server}
  (name : string) (args : option UncheckedArgs.t) (p : Process.t) :
  exists text flag,
    fst (Unchecked.callTool name args p)
    = Return {| ToolResult.content :=
                  [ {| Content.type := "text"; Content.text := text |} ];
                ToolResult.isError := flag |} /\
    ((flag = None /\
      exists payload, text = JSON_stringify payload /\ tool_of payload = name) \/
     (flag = Some true /\
      exists message, text = ("Error: " ++ message)%string /\
                      failure_of_unchecked name args message)).
Proof.
  rewrite unchecked_callTool_run. cbn [fst].
  assert (shape : answers name (fst (Unchecked.dispatch name args p))
                    (failure_of_unchecked name args)).
  { destruct (is_tool name) eqn:T.
    - destruct args as [args | ]; [ apply (unchecked_dispatch_answers _ _ _ T) | ].
      assert (missing : forall property,
                 failure_of_unchecked name None (TypeError_destructure property)).
      { intros property. left. right. left. repeat split. exact T. }
      unfold Unchecked.dispatch, dispatch_with.
      destruct (name =? "calculate_route") eqn:E1; [ apply missing | ].
      destruct (name =? "compare_routes") eqn:E2; [ apply missing | ].
      destruct (name =? "get_live_traffic") eqn:E3; [ apply missing | ].
      destruct (name =? "estimate_costs") eqn:E4; [ apply missing | ].
      unfold is_tool, tool_names in T. cbn [existsb] in T.
      rewrite E1, E2, E3, E4 in T. discriminate.
    - rewrite (unchecked_dispatch_unknown _ _ T). cbn.
      left. left. split; [ exact T | reflexivity ]. }
  unfold answers in shape.
  destruct (fst (Unchecked.dispatch name args p)) as [result | message].
  - destruct shape as [payload [-> T]]. eexists. exists None.
    split; [ reflexivity | ]. left. split; [ reflexivity | ]. exists payload. split; trivial.
  - eexists. exists (Some true). split; [ reflexivity | ]. right.
    split; [ reflexivity | ]. exists message. split; [ reflexivity | exact shape ].
Qed.

(** The places where a [null] is read, on the sample trip. *)
Example callTool_null_waypoints :
  @Unchecked.callTool Sample.host (Sample.server Sample.steady_service)
    "calculate_route" (Some Sample.null_waypoints) Sample.process
  = (Return
       (error_result
          "Google Maps API error: Cannot read properties of null (reading 'length')"),
     Sample.process).
Proof. reflexivity. Qed.

Example callTool_null_options :
  fst (@Unchecked.callTool Sample.host (Sample.server Sample.steady_service)
         "calculate_route" (Some Sample.null_options) Sample.process)
  = Return (error_result "Cannot read properties of null (reading 'trafficModel')") /\
  List.length
    (issued
       (Process.world
          (snd (@Unchecked.callTool Sample.host (Sample.server Sample.steady_service)
                  "calculate_route" (Some Sample.null_options) Sample.process))))
  = 1.
Proof. split; reflexivity. Qed.

Example callTool_null_vehicleOptions :
  @Unchecked.callTool Sample.host (Sample.server Sample.steady_service)
    "estimate_costs" (Some Sample.null_vehicleOptions) Sample.process
  = (Return (error_result "Cannot read properties of null (reading 'fuelEfficiency')"),
     Sample.process).
Proof. reflexivity. Qed.

Example callTool_null_waypoints_compare :
  @Unchecked.callTool Sample.host (Sample.server Sample.steady_service)
    "compare_routes" (Some Sample.null_waypoints) Sample.process
  = (Return
       (error_result
          "Google Maps API error: Cannot read properties of null (reading 'length')"),
     Sample.process).
Proof. reflexivity. Qed.

(** With [compareOptions: null] and a service that answers, nothing is left
    unhandled: the default query was sent for nothing. *)
Example callTool_null_compareOptions_answered :
  @Unchecked.callTool Sample.host (Sample.server Sample.steady_service)
    "compare_routes" (Some Sample.null_compareOptions) Sample.process
  = (Return (error_result "compareOptions is not iterable"),
     {| Process.world :=
          {| issued :=
               [ calculateRoute_query Sample.steady_service
                   (default_route_params Sample.trip) ];
             console := [] |};
        Process.unhandled := [] |}).
Proof. reflexivity. Qed.
